(** * butter.timerfd: a shallow embedding of [src/butter/timerfd.py]

    The module wraps the Linux [timerfd] system calls through cffi.  The
    embedding follows the Python 3 reading of the source ([__bool__] is the
    Python 3 truth protocol, [/] is true division, [round] returns an [int]):

    - [struct timespec] / [struct itimerspec] are records of [Z] fields; a
      field holds a C [long] (LP64: 64 bits), and cffi refuses, with
      [OverflowError] or [TypeError], a Python value that is not an [int] of
      that range;
    - Python [float]s are IEEE-754 binary64 values, taken from the standard
      library's [SpecFloat] ([prec = 53], [emax = 1024]);
    - exceptions, and every call that leaves the process (the three
      [timerfd_*] C functions, [select], [os.read], [os.close]) are the
      effects of a small free monad [prog]; a [Kernel] answers the calls, and
      [run] records the calls made. *)

From Stdlib Require Import ZArith Lia Bool List.
From Stdlib Require Import Floats.SpecFloat.
From Stdlib Require Import Strings.Byte.
From stdpp Require Import base gmap strings list pretty.

Local Open Scope Z_scope.

(** ** IEEE-754 binary64, as Python's [float] *)

Module F64.

Definition prec : Z := 53.
Definition emax : Z := 1024.

Definition float : Type := spec_float.

Definition zero : float := S754_zero false.

Definition add : float -> float -> float := SFadd prec emax.
Definition mul : float -> float -> float := SFmul prec emax.
Definition eqb : float -> float -> bool := SFeqb.

(** [f == 0.0]. *)
Definition is_zero (f : float) : bool := eqb f zero.

(** The binary64 value nearest to the integer [n] (ties to even); an
    infinity when [n] is beyond the largest finite value. *)
Definition of_Z (n : Z) : float := binary_normalize prec emax n 0 false.

(** The binary64 value nearest to the quotient [a / b] of two integers,
    [b <> 0]: the division of [SpecFloat] applied to the integers
    themselves, so that the quotient is rounded once. *)
Definition div_Z (a b : Z) : float :=
  match a, b with
  | Z0, _ => S754_zero (b <? 0)
  | _, Z0 => S754_nan
  | _, _ =>
      SFdiv prec emax (S754_finite (a <? 0) (Z.to_pos (Z.abs a)) 0)
                      (S754_finite (b <? 0) (Z.to_pos (Z.abs b)) 0)
  end.

(** Truncation towards zero of a finite value. *)
Definition trunc (s : bool) (m : positive) (e : Z) : Z :=
  cond_Zopp s (if 0 <=? e then Z.shiftl (Zpos m) e else Z.shiftr (Zpos m) (- e)).

(** Nearest integer of a finite value, ties to the even integer. *)
Definition nearest_even (s : bool) (m : positive) (e : Z) : Z :=
  if 0 <=? e then cond_Zopp s (Z.shiftl (Zpos m) e)
  else
    let q := Z.shiftr (Zpos m) (- e) in
    let r := Z.land (Zpos m) (Z.ones (- e)) in
    let half := Z.shiftl 1 (- e - 1) in
    cond_Zopp s
      match r ?= half with
      | Lt => q
      | Gt => q + 1
      | Eq => if Z.even q then q else q + 1
      end.

(** [math.modf]: the fractional and the integral part, both with the sign
    of the argument. *)
Definition modf (f : float) : float * float :=
  match f with
  | S754_nan => (S754_nan, S754_nan)
  | S754_infinity s => (S754_zero s, S754_infinity s)
  | S754_zero s => (S754_zero s, S754_zero s)
  | S754_finite s m e =>
      if 0 <=? e then (S754_zero s, f)
      else
        let ip := Z.shiftr (Zpos m) (- e) in
        let fp := Z.land (Zpos m) (Z.ones (- e)) in
        (binary_normalize prec emax (cond_Zopp s fp) e s,
         binary_normalize prec emax (cond_Zopp s ip) 0 s)
  end.

End F64.

(** ** Python values and exceptions *)

(** The exceptions the module can raise.  [OSError_errno] is the [OSError]
    that [os.read], [os.close] and [select.select] raise from a failed
    system call; [IOError] is Python 3's alias of [OSError]. *)
Inductive exn : Type :=
| ValueError (msg : string)
| OSError (msg : string)
| OSError_errno (errno : Z)
| MemoryError (msg : string)
| NameError (name : string)
| AttributeError (name : string)
| TypeError
| OverflowError
| ZeroDivisionError.

Definition IOError : string -> exn := OSError.

(** The arguments the module's functions are called with: [None], an [int]
    or a [float]. *)
Inductive pyval : Type :=
| PyNone
| PyInt (n : Z)
| PyFloat (f : F64.float).

(** Truth value of an object, as [if v:] tests it. *)
Definition truthy (v : pyval) : bool :=
  match v with
  | PyNone => false
  | PyInt n => negb (n =? 0)
  | PyFloat f => negb (F64.eqb f F64.zero)
  end.

(** [a or b]. *)
Definition py_or (a b : pyval) : pyval := if truthy a then a else b.

(** ** The C structures *)

Record timespec : Type := { tv_sec : Z; tv_nsec : Z }.

Record itimerspec : Type := { it_interval : timespec; it_value : timespec }.

Definition timespec_zero : timespec := {| tv_sec := 0; tv_nsec := 0 |}.

(** [_ffi.new('struct itimerspec *')]: zero-initialised. *)
Definition itimerspec_new : itimerspec :=
  {| it_interval := timespec_zero; it_value := timespec_zero |}.

Definition LONG_MIN : Z := - 2 ^ 63.
Definition LONG_MAX : Z := 2 ^ 63 - 1.
Definition INT_MIN : Z := - 2 ^ 31.
Definition INT_MAX : Z := 2 ^ 31 - 1.

Definition in_long (n : Z) : bool := (LONG_MIN <=? n) && (n <=? LONG_MAX).
Definition in_int (n : Z) : bool := (INT_MIN <=? n) && (n <=? INT_MAX).

(** ** Constants of the platform

    [errno], [<sys/timerfd.h>] and [<time.h>] are not part of the source (cffi
    reads them from the system headers); these are the Linux values. *)

Module errno.
Definition EBADF : Z := 9.
Definition EAGAIN : Z := 11.
Definition ENOMEM : Z := 12.
Definition EFAULT : Z := 14.
Definition ENODEV : Z := 19.
Definition EINVAL : Z := 22.
Definition ENFILE : Z := 23.
Definition EMFILE : Z := 24.
End errno.

Definition CLOCK_REALTIME : Z := 0.
Definition CLOCK_MONOTONIC : Z := 1.
Definition CLOCK_BOOTTIME : Z := 7.
Definition CLOCK_REALTIME_ALARM : Z := 8.
Definition CLOCK_BOOTTIME_ALARM : Z := 9.
Definition TFD_TIMER_ABSTIME : Z := 1.
Definition TFD_NONBLOCK : Z := 2048.
Definition TFD_CLOEXEC : Z := 524288.

(** The number of descriptors an [fd_set] of [select] holds. *)
Definition FD_SETSIZE : Z := 1024.

(** ** Effects: exceptions and calls to the kernel *)

(** The calls that leave the process, indexed by the type of their answer.
    The three C functions answer with their return value and [errno] (and
    the structure they fill); the [os] and [select] wrappers answer [inl
    errno] where Python raises [OSError]. *)
Inductive sysE : Type -> Type :=
| C_timerfd_create (clockid flags : Z) : sysE (Z * Z)
| C_timerfd_settime (fd flags : Z) (new_value : itimerspec) : sysE (Z * Z * itimerspec)
| C_timerfd_gettime (fd : Z) : sysE (Z * Z * itimerspec)
| select_select (rlist : list Z) : sysE (Z + list Z)
| os_read (fd n : Z) : sysE (Z + list byte)
| os_close (fd : Z) : sysE (Z + unit).

Inductive prog (A : Type) : Type :=
| Ret (a : A)
| Raise (e : exn)
| Vis (X : Type) (c : sysE X) (k : X -> prog A).

Arguments Ret {A} a.
Arguments Raise {A} e.
Arguments Vis {A X} c k.

Fixpoint bind {A B : Type} (p : prog A) (f : A -> prog B) : prog B :=
  match p with
  | Ret a => f a
  | Raise e => Raise e
  | Vis c k => Vis c (fun x => bind (k x) f)
  end.

Definition call {X : Type} (c : sysE X) : prog X := Vis c Ret.

Declare Scope prog_scope.
Delimit Scope prog_scope with prog.
Notation "x <- c1 ;; c2" := (bind c1 (fun x => c2))
  (at level 100, c1 at next level, right associativity) : prog_scope.
Notation "c1 ;; c2" := (bind c1 (fun _ => c2))
  (at level 100, right associativity) : prog_scope.
Local Open Scope prog_scope.

(** What a run of a program ends in: a value, an exception, or a call that
    never returns. *)
Inductive outcome (A : Type) : Type :=
| Returns (a : A)
| Raises (e : exn)
| Blocks.

Arguments Returns {A} a.
Arguments Raises {A} e.
Arguments Blocks {A}.

(** A call made, as the trace of a run records it. *)
Inductive event : Type :=
| Ev (X : Type) (c : sysE X).

Arguments Ev {X} c.

(** A kernel: a state, and an answer to every call ([None]: the call never
    returns). *)
Record Kernel : Type := {
  kstate : Type;
  kcall : forall X : Type, sysE X -> kstate -> option (X * kstate)
}.

Fixpoint run (K : Kernel) {A : Type} (p : prog A) (st : kstate K)
  : outcome A * kstate K * list event :=
  match p with
  | Ret a => (Returns a, st, [])
  | Raise e => (Raises e, st, [])
  | Vis c k =>
      match kcall K _ c st with
      | None => (Blocks, st, [Ev c])
      | Some (x, st') =>
          let '(o, st'', tr) := run K (k x) st' in
          (o, st'', Ev c :: tr)
      end
  end.


(** ** What the Python runtime and cffi do on the module's behalf *)

(** cffi stores a Python object in a field of C type [long]: an [int] of the
    range is kept, a larger one is refused, and so is anything that is not an
    [int] (cffi does not truncate a [float]). *)
Definition to_c_long (v : pyval) : prog Z :=
  match v with
  | PyInt n => if in_long n then Ret n else Raise OverflowError
  | PyFloat _ | PyNone => Raise TypeError
  end.

(** The same for an argument of C type [int]. *)
Definition to_c_int (n : Z) : prog Z :=
  if in_int n then Ret n else Raise OverflowError.

(** [select.select] turns every element of its lists into a descriptor
    before it makes the system call: an [int] that a C [int] cannot hold is
    refused with [OverflowError], a negative one with [ValueError], and so
    is one that an [fd_set] cannot hold. *)
Definition selectable (fd : Z) : prog unit :=
  if negb (in_int fd) then Raise OverflowError
  else if fd <? 0
  then Raise (ValueError ("file descriptor cannot be a negative integer (" +:+ pretty fd +:+ ")"))
  else if FD_SETSIZE <=? fd then Raise (ValueError "filedescriptor out of range in select()")
  else Ret tt.

(** [int(f)] of a float. *)
Definition py_int (f : F64.float) : prog Z :=
  match f with
  | S754_nan => Raise (ValueError "cannot convert float NaN to integer")
  | S754_infinity _ => Raise OverflowError
  | S754_zero _ => Ret 0
  | S754_finite s m e => Ret (F64.trunc s m e)
  end.

(** [round(f)] of a float, in Python 3: an [int], ties to even. *)
Definition py_round (f : F64.float) : prog Z :=
  match f with
  | S754_nan => Raise (ValueError "cannot convert float NaN to integer")
  | S754_infinity _ => Raise OverflowError
  | S754_zero _ => Ret 0
  | S754_finite s m e => Ret (F64.nearest_even s m e)
  end.

(** [float(n)], as the mixed operations [n * f] and [n + f] convert their
    [int] operand. *)
Definition py_float (n : Z) : prog F64.float :=
  match F64.of_Z n with
  | S754_infinity _ => Raise OverflowError
  | g => Ret g
  end.

(** [a / b] of two [int]s: true division. *)
Definition py_truediv (a b : Z) : prog F64.float :=
  if b =? 0 then Raise ZeroDivisionError
  else
    match F64.div_Z a b with
    | S754_infinity _ => Raise OverflowError
    | q => Ret q
    end.

(** The value of a name that is looked up in the local variables of a
    function.  Neither the module nor the builtins bind the names this is
    used for, so a name that is not a local is undefined. *)
Definition lookup_name (locals : gmap string pyval) (name : string) : prog pyval :=
  match locals !! name with
  | Some v => Ret v
  | None => Raise (NameError name)
  end.

(** [raise Name(msg)]: the exception class is looked up by name among the
    builtins; the module defines no exception class of its own. *)
Definition exception_class (name : string) : option (string -> exn) :=
  if String.eqb name "ValueError" then Some ValueError
  else if String.eqb name "OSError" then Some OSError
  else if String.eqb name "IOError" then Some IOError
  else if String.eqb name "MemoryError" then Some MemoryError
  else None.

Definition raise {A : Type} (name : string) (msg : string) : prog A :=
  match exception_class name with
  | Some cls => Raise (cls msg)
  | None => Raise (NameError name)
  end.

(** ** class TimerSpec *)

Module TimerSpec.

(** An instance: the C structure it wraps, and the instance dictionary
    that receives every attribute that is not a property of the class. *)
Record t : Type := { _timerspec : itimerspec; attrs : gmap string pyval }.

Definition with_struct (self : t) (s : itimerspec) : t :=
  {| _timerspec := s; attrs := attrs self |}.

Definition reoccuring_seconds (self : t) : Z := tv_sec (it_interval (_timerspec self)).

Definition reoccuring_nano_seconds (self : t) : Z := tv_nsec (it_interval (_timerspec self)).

Definition one_off_seconds (self : t) : Z := tv_sec (it_value (_timerspec self)).

Definition one_off_nano_seconds (self : t) : Z := tv_nsec (it_value (_timerspec self)).

Definition reoccuring_seconds_setter (self : t) (val : pyval) : prog t :=
  n <- to_c_long val ;;
  Ret (with_struct self
         {| it_interval := {| tv_sec := n; tv_nsec := reoccuring_nano_seconds self |};
            it_value := it_value (_timerspec self) |}).

Definition reoccuring_nano_seconds_setter (self : t) (val : pyval) : prog t :=
  n <- to_c_long val ;;
  Ret (with_struct self
         {| it_interval := {| tv_sec := reoccuring_seconds self; tv_nsec := n |};
            it_value := it_value (_timerspec self) |}).

Definition one_off_seconds_setter (self : t) (val : pyval) : prog t :=
  n <- to_c_long val ;;
  Ret (with_struct self
         {| it_interval := it_interval (_timerspec self);
            it_value := {| tv_sec := n; tv_nsec := one_off_nano_seconds self |} |}).

Definition one_off_nano_seconds_setter (self : t) (val : pyval) : prog t :=
  n <- to_c_long val ;;
  Ret (with_struct self
         {| it_interval := it_interval (_timerspec self);
            it_value := {| tv_sec := one_off_seconds self; tv_nsec := n |} |}).

(** The first lines of both float setters ([reoccuring] and [one_off]
    repeat them): a [float] is split by [math.modf], anything else is taken
    as the seconds. *)
Definition sec_nano (val : pyval) : prog (pyval * pyval) :=
  match val with
  | PyFloat f =>
      let '(x, y) := F64.modf f in
      sec <- py_int y ;;
      g <- py_float 1000000000 ;;
      nano <- py_round (F64.mul g x) ;;
      Ret (PyInt sec, PyInt nano)
  | _ => Ret (val, PyInt 0)
  end.

(** [reoccuring] (getter): seconds as a float. *)
Definition reoccuring (self : t) : prog F64.float :=
  q <- py_truediv (reoccuring_nano_seconds self) 1000000000 ;;
  g <- py_float (reoccuring_seconds self) ;;
  Ret (F64.add g q).

Definition reoccuring_setter (self : t) (val : pyval) : prog t :=
  sn <- sec_nano val ;;
  self <- reoccuring_seconds_setter self (fst sn) ;;
  reoccuring_nano_seconds_setter self (snd sn).

(** [one_off] (getter). *)
Definition one_off (self : t) : prog F64.float :=
  q <- py_truediv (one_off_nano_seconds self) 1000000000 ;;
  g <- py_float (one_off_seconds self) ;;
  Ret (F64.add g q).

Definition one_off_setter (self : t) (val : pyval) : prog t :=
  sn <- sec_nano val ;;
  self <- one_off_seconds_setter self (fst sn) ;;
  one_off_nano_seconds_setter self (snd sn).

(** [self.name = val]: a property of the class with a setter runs it, a
    property without one refuses, any other name is bound in the instance
    dictionary.  (The source assigns [_timerspec] in [__init__] only; it is
    the record field.) *)
Definition setattr (self : t) (name : string) (val : pyval) : prog t :=
  if String.eqb name "reoccuring" then reoccuring_setter self val
  else if String.eqb name "reoccuring_seconds" then reoccuring_seconds_setter self val
  else if String.eqb name "reoccuring_nano_seconds" then reoccuring_nano_seconds_setter self val
  else if String.eqb name "one_off" then one_off_setter self val
  else if String.eqb name "one_off_seconds" then one_off_seconds_setter self val
  else if String.eqb name "one_off_nano_seconds" then one_off_nano_seconds_setter self val
  else if existsb (String.eqb name)
            ["enabled"; "disabled"; "next_event"; "next_event_seconds";
             "next_event_nano_seconds"]
  then Raise (AttributeError name)
  else Ret {| _timerspec := _timerspec self; attrs := <[name := val]> (attrs self) |}.

(** [TimerSpec(reoccuring, reoccuring_seconds, reoccuring_nano_seconds,
    one_off, one_off_seconds, one_off_nano_seconds, timerspec)]; every
    argument defaults to [None].  A [timerspec] is a pointer to a C
    structure, true when given; its fields are C [long]s already, so
    copying them cannot fail.  [locals] are the local variables of the body
    that hold Python values: its keyword parameters ([self] and [timerspec]
    are never looked up by name here). *)
Definition __init__
  (reoccuring reoccuring_seconds reoccuring_nano_seconds : pyval)
  (one_off one_off_seconds one_off_nano_seconds : pyval)
  (timerspec : option itimerspec) : prog t :=
  let locals : gmap string pyval :=
    <["reoccuring" := reoccuring]>
    (<["reoccuring_seconds" := reoccuring_seconds]>
    (<["reoccuring_nano_seconds" := reoccuring_nano_seconds]>
    (<["one_off" := one_off]>
    (<["one_off_seconds" := one_off_seconds]>
    (<["one_off_nano_seconds" := one_off_nano_seconds]> ∅))))) in
  let self := {| _timerspec := itimerspec_new; attrs := ∅ |} in
  let self :=
    match timerspec with
    | Some ts =>
        with_struct self
          {| it_interval := {| tv_sec := tv_sec (it_interval ts);
                               tv_nsec := tv_nsec (it_interval ts) |};
             it_value := {| tv_sec := tv_sec (it_value ts);
                            tv_nsec := tv_nsec (it_value ts) |} |}
    | None => self
    end in
  self <- (if truthy reoccuring then setattr self "reoccuring" reoccuring
           else Ret self) ;;
  self <- (if truthy reoccuring_seconds
           then v <- lookup_name locals "reoccuring_sec" ;;
                setattr self "reoccuring_seconds" v
           else Ret self) ;;
  self <- (if truthy reoccuring_nano_seconds
           then v <- lookup_name locals "reoccuring_nano" ;;
                setattr self "reoccuring_nano_seconds" v
           else Ret self) ;;
  self <- (if truthy one_off then setattr self "one_off" one_off
           else Ret self) ;;
  self <- (if truthy one_off_seconds
           then v <- lookup_name locals "one_off_sec" ;;
                setattr self "one_off_seconds" v
           else Ret self) ;;
  self <- (if truthy one_off_nano_seconds
           then v <- lookup_name locals "one_off_nano" ;;
                setattr self "one_off_nano_seconds" v
           else Ret self) ;;
  Ret self.

(** [TimerSpec()]. *)
Definition new : prog t :=
  __init__ PyNone PyNone PyNone PyNone PyNone PyNone None.

Definition __timerspec__ (self : t) : itimerspec := _timerspec self.

Definition __bool__ (self : t) : prog bool :=
  f <- one_off self ;;
  Ret (if F64.is_zero f then false else true).

Definition enabled (self : t) : prog bool := __bool__ self.

Definition disabled (self : t) : prog bool :=
  b <- enabled self ;; Ret (negb b).

Definition disable (self : t) : prog t :=
  setattr self "one_off" (PyFloat F64.zero).

Definition next_event (self : t) : prog F64.float := one_off self.

Definition next_event_seconds (self : t) : Z := one_off_seconds self.

Definition next_event_nano_seconds (self : t) : Z := one_off_nano_seconds self.

End TimerSpec.

(** ** The module's functions *)

(** [timerfd(clock_type=0, flags=0)]. *)
Definition timerfd (clock_type flags : Z) : prog Z :=
  c <- to_c_int clock_type ;;
  f <- to_c_int flags ;;
  r <- call (C_timerfd_create c f) ;;
  let '(fd, err) := r in
  if fd <? 0 then
    if err =? errno.EINVAL then
      if Z.land clock_type (Z.lor CLOCK_MONOTONIC CLOCK_REALTIME) =? 0
      then raise "ValueError" "clock_type is not one of CLOCK_MONOTONIC or CLOCK_REALTIME"
      else raise "ValueError" "Invalid value in flags"
    else if err =? errno.EMFILE then raise "OSError" "Max per process FD limit reached"
    else if err =? errno.ENFILE then raise "OSError" "Max system FD limit reached"
    else if err =? errno.ENODEV
      then raise "OsError" "Could not mount (internal) anonymous inode device"
    else if err =? errno.ENOMEM then raise "MemoryError" "Insufficent kernel memory available"
    else raise "ValueError" ("Unknown Error: " +:+ pretty err)
  else Ret fd.

(** [timerfd_gettime(fd)]. *)
Definition timerfd_gettime (fd : Z) : prog TimerSpec.t :=
  f <- to_c_int fd ;;
  r <- call (C_timerfd_gettime f) ;;
  let '(ret, err, curr_val) := r in
  if ret <? 0 then
    if err =? errno.EBADF then raise "ValueError" "fd is not a valid file descriptor"
    else if err =? errno.EFAULT
      then raise "IOError" "curr_val is not a valid pointer (internal/bug, let us know)"
    else if err =? errno.EINVAL then raise "ValueError" "fd is not a valid timerfd"
    else raise "ValueError" ("Unknown Error: " +:+ pretty err)
  else
    TimerSpec.__init__ PyNone PyNone PyNone PyNone PyNone PyNone (Some curr_val).

(** The [timer_spec] argument of [timerfd_settime]: an object with a
    [__timerspec__] method, or the C structure itself. *)
Inductive timer_spec_arg : Type :=
| Wrapped (ts : TimerSpec.t)
| Struct (s : itimerspec).

(** [timerfd_settime(fd, timer_spec, flags=0)].  [fd] is the integer; the
    class below never passes an object with [fileno]. *)
Definition timerfd_settime (fd : Z) (timer_spec : timer_spec_arg) (flags : Z)
  : prog TimerSpec.t :=
  let timer_spec :=
    match timer_spec with
    | Wrapped ts => TimerSpec.__timerspec__ ts
    | Struct s => s
    end in
  f <- to_c_int fd ;;
  fl <- to_c_int flags ;;
  r <- call (C_timerfd_settime f fl timer_spec) ;;
  let '(ret, err, old_timer_spec) := r in
  if ret <? 0 then
    if err =? errno.EINVAL then
      if tv_sec (it_interval timer_spec) >? 999999999
      then raise "ValueError" "Nano seconds in it_interval is > 999,999,999"
      else if tv_nsec (it_value timer_spec) >? 999999999
      then raise "ValueError" "Nano seconds in it_value is > 999,999,999"
      else raise "ValueError" "flags is invalid or fd not a timerfd"
    else if err =? errno.EFAULT
      then raise "IOError" "timer_spec does not point to a valid timer specfication"
    else if err =? errno.EMFILE then raise "OSError" "Max per process FD limit reached"
    else if err =? errno.ENFILE then raise "OSError" "Max system FD limit reached"
    else if err =? errno.ENODEV
      then raise "OsError" "Could not mount (internal) anonymous inode device"
    else if err =? errno.ENOMEM then raise "MemoryError" "Insufficent kernel memory available"
    else raise "ValueError" ("Unknown Error: " +:+ pretty err)
  else
    TimerSpec.__init__ PyNone PyNone PyNone PyNone PyNone PyNone (Some old_timer_spec).

(** The value of a [uint64_t] whose eight bytes are [data], on a
    little-endian host. *)
Definition uint64_of_bytes (data : list byte) : Z :=
  fold_right (fun b acc => Z.of_N (Byte.to_N b) + 256 * acc) 0 data.

(** ** class Timerfd *)

Module Timerfd.

Record t : Type := { _fd : Z; _timerspec : TimerSpec.t }.

(** [Timerfd(clock_type=CLOCK_REALTIME, flags=0)]. *)
Definition __init__ (clock_type flags : Z) : prog t :=
  fd <- timerfd clock_type flags ;;
  ts <- TimerSpec.new ;;
  Ret {| _fd := fd; _timerspec := ts |}.

Definition _update (self : t) (timerspec : TimerSpec.t) (absolute : bool)
  : prog TimerSpec.t :=
  let flags := if absolute then TFD_TIMER_ABSTIME else 0 in
  timerfd_settime (_fd self) (Wrapped timerspec) flags.

(** [set_one_off(seconds, nano_seconds=0, absolute=False)]. *)
Definition set_one_off (self : t) (seconds nano_seconds : pyval) (absolute : bool)
  : prog TimerSpec.t :=
  timer <- TimerSpec.new ;;
  timer <- TimerSpec.setattr timer "one_off" seconds ;;
  timer <- TimerSpec.setattr timer "one_off" nano_seconds ;;
  _update self timer absolute.

(** [set_reoccuring(seconds, nano_seconds=0, next_seconds=0,
    next_nano_seconds=0, absolute=False)]. *)
Definition set_reoccuring (self : t) (seconds nano_seconds : pyval)
  (next_seconds next_nano_seconds : pyval) (absolute : bool) : prog TimerSpec.t :=
  timer <- TimerSpec.new ;;
  timer <- TimerSpec.setattr timer "reoccuring_nano" nano_seconds ;;
  timer <- TimerSpec.setattr timer "reoccuring" seconds ;;
  timer <- (if truthy (py_or next_seconds next_nano_seconds)
            then timer <- TimerSpec.setattr timer "one_off" next_nano_seconds ;;
                 TimerSpec.setattr timer "one_off" next_seconds
            else timer <- TimerSpec.setattr timer "one_off" nano_seconds ;;
                 TimerSpec.setattr timer "one_off" seconds) ;;
  _update self timer absolute.

Definition get_current (self : t) : prog TimerSpec.t :=
  timerfd_gettime (_fd self).

(** [wait()]: [select([fd], [], [])], which checks the descriptor and then
    makes the system call; then [os.read(fd, 8)] copied into a
    [uint64_t[1]] through its buffer; the slice assignment refuses data
    that are not eight bytes long. *)
Definition wait (self : t) : prog Z :=
  selectable (_fd self) ;;
  r <- call (select_select [_fd self]) ;;
  match r with
  | inl err => Raise (OSError_errno err)
  | inr _ =>
      d <- call (os_read (_fd self) 8) ;;
      match d with
      | inl err => Raise (OSError_errno err)
      | inr data =>
          if (length data =? 8)%nat then Ret (uint64_of_bytes data)
          else Raise (ValueError "right operand length must match slice length")
      end
  end.

Definition close (self : t) : prog unit :=
  r <- call (os_close (_fd self)) ;;
  match r with
  | inl err => Raise (OSError_errno err)
  | inr _ => Ret tt
  end.

Definition fileno (self : t) : Z := _fd self.

Definition enabled (self : t) : prog bool :=
  ts <- get_current self ;; TimerSpec.enabled ts.

Definition disabled (self : t) : prog bool :=
  b <- enabled self ;; Ret (negb b).

Definition disable (self : t) : prog unit :=
  timer <- get_current self ;;
  timer <- TimerSpec.disable timer ;;
  _update self timer false ;;
  Ret tt.

End Timerfd.

(** ** The kernels

    The kernel is not part of the source: it is the external collaborator
    behind the create, set, get and read operations.  [Linux.kernel] is a
    model of the timerfd facility as timerfd_create(2) describes it, with time
    counted in nanoseconds and a single clock; [failing err] is a kernel on
    which every call fails with [errno = err], and [delivering data] one on
    which every call succeeds and a read returns [data]. *)

Module Linux.

Definition NSEC_PER_SEC : N := 1000000000.

Definition TFD_TIMER_CANCEL_ON_SET : Z := 2.

(** A timer: its clock, whether reads are non-blocking, the period, the
    time of the next expiration ([None]: disarmed), and the expirations
    counted since the last read. *)
Record ktimer : Type := {
  kt_clockid : Z;
  kt_nonblock : bool;
  kt_interval : N;
  kt_expiry : option N;
  kt_ticks : N
}.

Inductive kfile : Type :=
| KTimer (t : ktimer)
| KOther.

(** The clock, the limit on descriptors of the process, and its open
    files. *)
Record state : Type := { now : N; nofile : Z; files : gmap Z kfile }.

Definition of_ns (n : N) : timespec :=
  {| tv_sec := Z.of_N (n / NSEC_PER_SEC); tv_nsec := Z.of_N (n mod NSEC_PER_SEC) |}.

(** The kernel keeps a time as a [ktime_t], a signed 64-bit count of
    nanoseconds: a time of [KTIME_SEC_MAX] seconds or more is [KTIME_MAX]. *)
Definition KTIME_MAX : N := 9223372036854775807.

Definition KTIME_SEC_MAX : N := 9223372036.

Definition ktime (n : N) : N :=
  if (KTIME_SEC_MAX <=? n / NSEC_PER_SEC)%N then KTIME_MAX else n.

(** A valid [timespec] as a [ktime_t]. *)
Definition to_ns (ts : timespec) : N :=
  ktime (Z.to_N (tv_sec ts) * NSEC_PER_SEC + Z.to_N (tv_nsec ts)).

Definition timespec_valid (ts : timespec) : bool :=
  (0 <=? tv_sec ts) && (0 <=? tv_nsec ts) && (tv_nsec ts <? 1000000000).

(** The expirations that are due at time [now] are counted, and a periodic
    timer is moved to its next expiration, which as every sum of times is at
    most [KTIME_MAX].  (The clock itself stays below [KTIME_MAX]; for a
    reading beyond, which no kernel has, the sum is kept as it is.) *)
Definition catch_up (now : N) (t : ktimer) : ktimer :=
  match kt_expiry t with
  | Some e =>
      if (e <=? now)%N then
        if (kt_interval t =? 0)%N then
          {| kt_clockid := kt_clockid t; kt_nonblock := kt_nonblock t;
             kt_interval := kt_interval t; kt_expiry := None;
             kt_ticks := (kt_ticks t + 1)%N |}
        else
          let n := ((now - e) / kt_interval t + 1)%N in
          let next := (e + n * kt_interval t)%N in
          {| kt_clockid := kt_clockid t; kt_nonblock := kt_nonblock t;
             kt_interval := kt_interval t;
             kt_expiry := Some (if (now <? KTIME_MAX)%N then N.min KTIME_MAX next
                                else next);
             kt_ticks := (kt_ticks t + n)%N |}
      else t
  | None => t
  end.

Definition catch_up_file (now : N) (f : kfile) : kfile :=
  match f with
  | KTimer t => KTimer (catch_up now t)
  | KOther => KOther
  end.

(** The counter as a read returns it: a [uint64_t]. *)
Definition pending (t : ktimer) : N := (kt_ticks t mod 2 ^ 64)%N.

(** What [timerfd_gettime] reports: the period, which is a [ktime_t], and
    the time left until the next expiration. *)
Definition current (now : N) (t : ktimer) : itimerspec :=
  {| it_interval := of_ns (ktime (kt_interval t));
     it_value := of_ns match kt_expiry t with
                       | Some e => (e - now)%N
                       | None => 0%N
                       end |}.

Definition reset (t : ktimer) : ktimer :=
  {| kt_clockid := kt_clockid t; kt_nonblock := kt_nonblock t;
     kt_interval := kt_interval t; kt_expiry := kt_expiry t; kt_ticks := 0 |}.

Definition byte_of_N (n : N) : byte :=
  match Byte.of_N (n mod 256) with
  | Some b => b
  | None => Byte.x00
  end.

(** The eight bytes of a [uint64_t], least significant first. *)
Definition bytes_of_uint64 (n : N) : list byte :=
  map (fun i : N => byte_of_N (n / 256 ^ i)) [0; 1; 2; 3; 4; 5; 6; 7]%N.

Definition set_file (st : state) (fd : Z) (f : kfile) : state :=
  {| now := now st; nofile := nofile st; files := <[fd := f]> (files st) |}.

Definition set_now (st : state) (n : N) : state :=
  {| now := n; nofile := nofile st; files := files st |}.

(** Before it serves a call the kernel accounts for the expirations that
    are due. *)
Definition settle (st : state) : state :=
  {| now := now st; nofile := nofile st;
     files := catch_up_file (now st) <$> files st |}.

(** The clocks a timer can run on; the process is taken to hold the
    capability that the two alarm clocks ask for. *)
Definition timer_clocks : list Z :=
  [CLOCK_REALTIME; CLOCK_MONOTONIC; CLOCK_BOOTTIME; CLOCK_REALTIME_ALARM;
   CLOCK_BOOTTIME_ALARM].

Definition sys_timerfd_create (clockid flags : Z) (st : state) : Z * Z * state :=
  if negb (Z.land flags (Z.lnot (Z.lor TFD_CLOEXEC TFD_NONBLOCK)) =? 0)
  then (-1, errno.EINVAL, st)
  else if negb (existsb (Z.eqb clockid) timer_clocks)
  then (-1, errno.EINVAL, st)
  else
    match find (fun fd => bool_decide (files st !! fd = None)) (seqZ 0 (nofile st)) with
    | None => (-1, errno.EMFILE, st)
    | Some fd =>
        (fd, 0,
         set_file st fd
           (KTimer {| kt_clockid := clockid;
                      kt_nonblock := negb (Z.land flags TFD_NONBLOCK =? 0);
                      kt_interval := 0; kt_expiry := None; kt_ticks := 0 |}))
    end.

(** The timer after [timerfd_settime]: a zero [it_value] disarms it, any
    other is a delay from now (their sum is at most [KTIME_MAX]) or, with
    [TFD_TIMER_ABSTIME], a time of the clock; the counter starts again. *)
Definition arm (now : N) (flags : Z) (new_value : itimerspec) (t : ktimer) : ktimer :=
  let value := to_ns (it_value new_value) in
  {| kt_clockid := kt_clockid t; kt_nonblock := kt_nonblock t;
     kt_interval := to_ns (it_interval new_value);
     kt_expiry :=
       if (value =? 0)%N then None
       else if negb (Z.land flags TFD_TIMER_ABSTIME =? 0) then Some value
       else Some (N.min KTIME_MAX (now + value));
     kt_ticks := 0 |}.

(** The flags and the new value are checked before the descriptor is
    looked up; the previous setting is returned. *)
Definition sys_timerfd_settime (fd flags : Z) (new_value : itimerspec) (st : state)
  : Z * Z * itimerspec * state :=
  if negb (Z.land flags (Z.lnot (Z.lor TFD_TIMER_ABSTIME TFD_TIMER_CANCEL_ON_SET)) =? 0)
     || negb (timespec_valid (it_value new_value))
     || negb (timespec_valid (it_interval new_value))
  then (-1, errno.EINVAL, itimerspec_new, st)
  else
    match files st !! fd with
    | None => (-1, errno.EBADF, itimerspec_new, st)
    | Some KOther => (-1, errno.EINVAL, itimerspec_new, st)
    | Some (KTimer t) =>
        (0, 0, current (now st) t,
         set_file st fd (KTimer (arm (now st) flags new_value t)))
    end.

Definition sys_timerfd_gettime (fd : Z) (st : state) : Z * Z * itimerspec * state :=
  match files st !! fd with
  | None => (-1, errno.EBADF, itimerspec_new, st)
  | Some KOther => (-1, errno.EINVAL, itimerspec_new, st)
  | Some (KTimer t) => (0, 0, current (now st) t, st)
  end.

(** Whether a descriptor is readable. *)
Definition readable (st : state) (fd : Z) : bool :=
  match files st !! fd with
  | Some (KTimer t) => (0 <? pending t)%N
  | Some KOther => true
  | None => false
  end.

(** The next expiration of the timer behind a descriptor. *)
Definition next_expiry (st : state) (fd : Z) : option N :=
  match files st !! fd with
  | Some (KTimer t) => kt_expiry t
  | _ => None
  end.

Definition earliest (es : list (option N)) : option N :=
  fold_right (fun e acc =>
                match e, acc with
                | Some x, Some y => Some (N.min x y)
                | Some x, None => Some x
                | None, _ => acc
                end) None es.

(** [select(rlist, [], [])]: without a timeout, the call returns when a
    descriptor is readable; time passes until the first timer expires, and
    the call never returns when none is armed.  The sets of the system call
    hold descriptors from 0 to [FD_SETSIZE - 1] and no other:
    [select.select] has refused the others before ([selectable]), and the
    model refuses them too. *)
Definition sys_select (rlist : list Z) (st : state) : option ((Z + list Z) * state) :=
  if existsb (fun fd => (fd <? 0) || (FD_SETSIZE <=? fd)) rlist
  then Some (inl errno.EINVAL, st)
  else if existsb (fun fd => bool_decide (files st !! fd = None)) rlist
  then Some (inl errno.EBADF, st)
  else
    let ready := filter (fun fd => readable st fd = true) rlist in
    match ready with
    | _ :: _ => Some (inr ready, st)
    | [] =>
        match earliest (map (next_expiry st) rlist) with
        | None => None
        | Some e =>
            let st' := settle (set_now st e) in
            Some (inr (filter (fun fd => readable st' fd = true) rlist), st')
        end
    end.

(** A read of at least eight bytes returns the counter and clears it; with
    nothing to return it fails with [EAGAIN] on a non-blocking descriptor
    and waits for the next expiration otherwise. *)
Definition sys_read (fd n : Z) (st : state) : option ((Z + list byte) * state) :=
  match files st !! fd with
  | None => Some (inl errno.EBADF, st)
  | Some KOther => Some (inl errno.EINVAL, st)
  | Some (KTimer t) =>
      if n <? 8 then Some (inl errno.EINVAL, st)
      else if (0 <? pending t)%N
      then Some (inr (bytes_of_uint64 (pending t)), set_file st fd (KTimer (reset t)))
      else if kt_nonblock t then Some (inl errno.EAGAIN, st)
      else
        match kt_expiry t with
        | None => None
        | Some e =>
            let t' := catch_up e t in
            Some (inr (bytes_of_uint64 (pending t')),
                  set_file (settle (set_now st e)) fd (KTimer (reset t')))
        end
  end.

Definition sys_close (fd : Z) (st : state) : (Z + unit) * state :=
  match files st !! fd with
  | None => (inl errno.EBADF, st)
  | Some _ =>
      (inr tt, {| now := now st; nofile := nofile st; files := delete fd (files st) |})
  end.

Definition answer (X : Type) (c : sysE X) (st : state) : option (X * state) :=
  let st := settle st in
  match c in sysE X return option (X * state) with
  | C_timerfd_create clockid flags => Some (sys_timerfd_create clockid flags st)
  | C_timerfd_settime fd flags new_value => Some (sys_timerfd_settime fd flags new_value st)
  | C_timerfd_gettime fd => Some (sys_timerfd_gettime fd st)
  | select_select rlist => sys_select rlist st
  | os_read fd n => sys_read fd n st
  | os_close fd => Some (sys_close fd st)
  end.

Definition kernel : Kernel := {| kstate := state; kcall := answer |}.

(** Time passes. *)
Definition elapse (dt : N) (st : state) : state := set_now st (now st + dt)%N.

(** A process with the three standard descriptors open. *)
Definition boot : state :=
  {| now := 0; nofile := 1024;
     files := <[0 := KOther]> (<[1 := KOther]> (<[2 := KOther]> ∅)) |}.

End Linux.

Definition failing (err : Z) : Kernel :=
  {| kstate := unit;
     kcall := fun X (c : sysE X) st =>
       match c in sysE X return option (X * unit) with
       | C_timerfd_create _ _ => Some ((-1, err), st)
       | C_timerfd_settime _ _ _ => Some ((-1, err, itimerspec_new), st)
       | C_timerfd_gettime _ => Some ((-1, err, itimerspec_new), st)
       | select_select _ => Some (inl err, st)
       | os_read _ _ => Some (inl err, st)
       | os_close _ => Some (inl err, st)
       end |}.


(** ** Values used in the statements *)

(** [self.name = v] as [__init__] makes it: only when [v] is true. *)
Definition assigned (setter : TimerSpec.t -> pyval -> prog TimerSpec.t)
  (self : TimerSpec.t) (v : pyval) : prog TimerSpec.t :=
  if truthy v then setter self v else Ret self.

(** A handle on descriptor 3, the first one a process with the standard
    descriptors open is given. *)
Definition handle3 : Timerfd.t :=
  {| Timerfd._fd := 3;
     Timerfd._timerspec := {| TimerSpec._timerspec := itimerspec_new; TimerSpec.attrs := ∅ |} |}.

(** [Linux.boot] after [Timerfd()]: descriptor 3 is a disarmed timer. *)
Definition booted : Linux.state :=
  Linux.set_file Linux.boot 3
    (Linux.KTimer {| Linux.kt_clockid := CLOCK_REALTIME; Linux.kt_nonblock := false;
                     Linux.kt_interval := 0; Linux.kt_expiry := None;
                     Linux.kt_ticks := 0 |}).

(** [booted] with descriptor 3 armed: a period of 1.5 s, the first
    expiration 2 s from now. *)
Definition armed : Linux.state :=
  Linux.set_file Linux.boot 3
    (Linux.KTimer {| Linux.kt_clockid := CLOCK_REALTIME; Linux.kt_nonblock := false;
                     Linux.kt_interval := 1500000000; Linux.kt_expiry := Some 2000000000%N;
                     Linux.kt_ticks := 0 |}).

(** The float [0.9999999999]: [0x1.ffffffff2419p-1]. *)
Definition f_0_9999999999 : F64.float := S754_finite false 9007199253840272 (-53).

(** The float [0.5]. *)
Definition f_0_5 : F64.float := S754_finite false 4503599627370496 (-53).

(** The outcome and the calls of a run, without the final state. *)
Definition outcome_of {A : Type} {S : Type} (r : outcome A * S * list event) : outcome A :=
  fst (fst r).

Definition calls_of {A : Type} {S : Type} (r : outcome A * S * list event) : list event :=
  snd r.

(** The name that [__init__] fails to resolve: that of the first of the
    four field keywords that is true. *)
Definition undefined_local (rs rns os ons : pyval) : string :=
  if truthy rs then "reoccuring_sec"
  else if truthy rns then "reoccuring_nano"
  else if truthy os then "one_off_sec"
  else "one_off_nano".

(** A program that makes no call. *)
Definition pure {A : Type} (p : prog A) : Prop :=
  match p with
  | Vis _ _ => False
  | _ => True
  end.

(** A run that ends in exception [e] after the calls [calls]. *)
Definition fails_with {A : Type} (K : Kernel) (p : prog A) (st : kstate K)
  (e : exn) (calls : list event) : Prop :=
  outcome_of (run K p st) = Raises e /\ calls_of (run K p st) = calls.


(** [TimerSpec()]: the zeroed structure and an empty instance dictionary. *)
Definition zeroed : TimerSpec.t :=
  {| TimerSpec._timerspec := itimerspec_new; TimerSpec.attrs := ∅ |}.

(** The timer behind descriptor 3 in [booted] and in [armed]. *)
Definition timer_disarmed : Linux.ktimer :=
  {| Linux.kt_clockid := CLOCK_REALTIME; Linux.kt_nonblock := false;
     Linux.kt_interval := 0; Linux.kt_expiry := None; Linux.kt_ticks := 0 |}.

Definition timer_armed : Linux.ktimer :=
  {| Linux.kt_clockid := CLOCK_REALTIME; Linux.kt_nonblock := false;
     Linux.kt_interval := 1500000000; Linux.kt_expiry := Some 2000000000%N;
     Linux.kt_ticks := 0 |}.

(** [booted] with descriptor 3 armed once: no period, the expiration 2 s
    from now. *)
Definition armed_once : Linux.state :=
  Linux.set_file Linux.boot 3
    (Linux.KTimer {| Linux.kt_clockid := CLOCK_REALTIME; Linux.kt_nonblock := false;
                     Linux.kt_interval := 0; Linux.kt_expiry := Some 2000000000%N;
                     Linux.kt_ticks := 0 |}).

(** A process whose three descriptors are all in use. *)
Definition exhausted : Linux.state :=
  {| Linux.now := 0; Linux.nofile := 3; Linux.files := Linux.files Linux.boot |}.

(** The float [-2.5]. *)
Definition f_minus_2_5 : F64.float := S754_finite true 5629499534213120 (-51).

(** The float [1e19], beyond a C [long]. *)
Definition f_1e19 : F64.float := S754_finite false 4882812500000000 11.

(** The results of [k] calls of [wait] in a row, as the loop of [_main]
    makes them. *)
Fixpoint waits (self : Timerfd.t) (k : nat) : prog (list Z) :=
  match k with
  | O => Ret []
  | S k' => n <- Timerfd.wait self ;; ns <- waits self k' ;; Ret (n :: ns)
  end.

(** An [errno] that is none of the listed ones fails every test of the
    [if]/[elif] chain. *)
Ltac unlisted err Hn :=
  repeat match goal with
         | |- context [err =? ?c] =>
             replace (err =? c) with false
               by (symmetry; apply Z.eqb_neq; intro; apply Hn; subst; auto 10)
         end;
  reflexivity.


(** * Properties *)

(** ** Runs *)

Lemma run_bind (K : Kernel) {A B : Type} (p : prog A) (f : A -> prog B) (st : kstate K) :
  run K (bind p f) st =
    match run K p st with
    | (Returns a, st', tr) =>
        let '(o, st'', tr') := run K (f a) st' in (o, st'', tr ++ tr')
    | (Raises e, st', tr) => (Raises e, st', tr)
    | (Blocks, st', tr) => (Blocks, st', tr)
    end.
Proof.
  revert st. induction p as [a|e|X c k IH]; intros st; cbn [bind run].
  - destruct (run K (f a) st) as [[o st'] tr]. reflexivity.
  - reflexivity.
  - destruct (kcall K X c st) as [[x st']|]; [|reflexivity].
    rewrite IH. destruct (run K (k x) st') as [[[a|e|] st''] tr]; try reflexivity.
    destruct (run K (f a) st'') as [[o st3] tr']. reflexivity.
Qed.

Lemma pure_bind {A B : Type} (p : prog A) (f : A -> prog B) :
  pure p -> (forall a, pure (f a)) -> pure (bind p f).
Proof. destruct p; cbn; intros Hp Hf; [apply Hf|exact I|exact Hp]. Qed.

(** Two continuations that agree give the same program after a program
    that makes no call. *)
Lemma bind_pure_ext {A B : Type} (p : prog A) (f g : A -> prog B) :
  pure p -> (forall a, f a = g a) -> bind p f = bind p g.
Proof. destruct p as [a|e|X c k]; cbn; intros Hp H; [apply H|reflexivity|destruct Hp]. Qed.

Lemma bind_pure_Ret {A : Type} (p : prog A) : pure p -> bind p Ret = p.
Proof. destruct p as [a|e|X c k]; cbn; intros Hp; [reflexivity|reflexivity|destruct Hp]. Qed.

Lemma pure_to_c_long (v : pyval) : pure (to_c_long v).
Proof. destruct v as [|n|f]; cbn; try exact I. destruct (in_long n); exact I. Qed.

Lemma pure_py_int (f : F64.float) : pure (py_int f).
Proof. destruct f; exact I. Qed.

Lemma pure_py_round (f : F64.float) : pure (py_round f).
Proof. destruct f; exact I. Qed.

Lemma pure_py_float (n : Z) : pure (py_float n).
Proof. unfold py_float. destruct (F64.of_Z n); exact I. Qed.

Lemma pure_sec_nano (v : pyval) : pure (TimerSpec.sec_nano v).
Proof.
  destruct v as [|n|f]; cbn [TimerSpec.sec_nano]; try exact I.
  destruct (F64.modf f) as [x y].
  apply pure_bind; [apply pure_py_int|]. intros sec.
  apply pure_bind; [apply pure_py_float|]. intros g.
  apply pure_bind; [apply pure_py_round|]. intros nano. exact I.
Qed.

Lemma pure_setattr (self : TimerSpec.t) (name : string) (v : pyval) :
  pure (TimerSpec.setattr self name v).
Proof.
  unfold TimerSpec.setattr, TimerSpec.reoccuring_setter, TimerSpec.one_off_setter,
    TimerSpec.reoccuring_seconds_setter, TimerSpec.reoccuring_nano_seconds_setter,
    TimerSpec.one_off_seconds_setter, TimerSpec.one_off_nano_seconds_setter.
  repeat match goal with
         | |- pure (if ?b then _ else _) => destruct b
         | |- pure (bind _ _) => apply pure_bind
         | |- pure (to_c_long _) => apply pure_to_c_long
         | |- pure (TimerSpec.sec_nano _) => apply pure_sec_nano
         | |- pure (Ret _) => exact I
         | |- pure (Raise _) => exact I
         | |- forall _, _ => intro
         end.
Qed.

Lemma pure_assigned (name : string) (self : TimerSpec.t) (v : pyval) :
  pure (assigned (fun s w => TimerSpec.setattr s name w) self v).
Proof. unfold assigned. destruct (truthy v); [apply pure_setattr|exact I]. Qed.

Lemma bind_pure_raises (K : Kernel) {A B : Type} (p : prog A) (f : A -> prog B)
  (st : kstate K) :
  pure p ->
  (forall a, exists e, outcome_of (run K (f a) st) = Raises e) ->
  exists e, outcome_of (run K (bind p f) st) = Raises e.
Proof.
  destruct p as [a|e|X c k]; cbn [pure bind]; intros Hp Hf.
  - apply Hf.
  - exists e. reflexivity.
  - destruct Hp.
Qed.


(** ** Rounding to binary64

    [SpecFloat] rounds a mantissa and an exponent in two steps of
    [shr_fexp]; on a positive mantissa above the underflow threshold the
    result is never a zero. *)

Section Rounding.

Lemma Zdigits2_log2 (m : Z) : 0 < m -> Zdigits2 m = Z.log2 m + 1.
Proof.
  destruct m as [|p|p]; try lia. intros _. simpl.
  induction p as [p IH|p IH|]; simpl; try reflexivity.
  - rewrite Pos2Z.inj_succ, IH. destruct p; simpl; lia.
  - rewrite Pos2Z.inj_succ, IH. destruct p; simpl; lia.
Qed.

Lemma shr_1_m (mrs : shr_record) : 0 <= shr_m mrs -> shr_m (shr_1 mrs) = shr_m mrs / 2.
Proof.
  destruct mrs as [m r s]. cbn [shr_m]. intros Hm.
  destruct m as [|[p|p|]|p]; cbn [shr_1 shr_m]; try reflexivity; try lia.
  - rewrite Pos2Z.inj_xI. apply Z.div_unique with 1; lia.
  - rewrite Pos2Z.inj_xO. apply Z.div_unique with 0; lia.
Qed.

Lemma pow2_xO (p : positive) : 2 ^ Zpos p~0 = 2 ^ Zpos p * 2 ^ Zpos p.
Proof. rewrite <- Z.pow_add_r by lia. f_equal. lia. Qed.

Lemma pow2_xI (p : positive) : 2 ^ Zpos p~1 = 2 * (2 ^ Zpos p * 2 ^ Zpos p).
Proof.
  rewrite <- Z.pow_add_r by lia.
  replace (Zpos p~1) with (Z.succ (Zpos p + Zpos p)) by lia.
  rewrite Z.pow_succ_r by lia. reflexivity.
Qed.

Lemma iter_shr_1_m (p : positive) :
  forall mrs, 0 <= shr_m mrs ->
    shr_m (SpecFloat.iter_pos shr_1 p mrs) = shr_m mrs / 2 ^ Zpos p.
Proof.
  induction p as [p IH|p IH|]; intros mrs Hm; simpl SpecFloat.iter_pos.
  - assert (H1 : 0 <= shr_m (shr_1 mrs)) by (rewrite shr_1_m by lia; apply Z.div_pos; lia).
    assert (H2 : 0 <= shr_m (SpecFloat.iter_pos shr_1 p (shr_1 mrs))).
    { rewrite IH by lia. apply Z.div_pos; lia. }
    rewrite IH, IH, shr_1_m by lia.
    rewrite !Z.div_div by lia. rewrite pow2_xI. reflexivity.
  - assert (H2 : 0 <= shr_m (SpecFloat.iter_pos shr_1 p mrs)).
    { rewrite IH by lia. apply Z.div_pos; lia. }
    rewrite IH, IH by lia.
    rewrite !Z.div_div by lia. rewrite pow2_xO. reflexivity.
  - rewrite shr_1_m by lia. reflexivity.
Qed.

Lemma shr_record_of_loc_m (m : Z) (l : location) : shr_m (shr_record_of_loc m l) = m.
Proof. destruct l as [|[]]; reflexivity. Qed.

Lemma shr_fexp_spec (m e : Z) (l : location) (mrs : shr_record) (e' : Z) :
  0 < m ->
  shr_fexp 53 1024 m e l = (mrs, e') ->
  let n := fexp 53 1024 (Zdigits2 m + e) - e in
  (n <= 0 /\ shr_m mrs = m /\ e' = e) \/ (0 < n /\ shr_m mrs = m / 2 ^ n /\ e' = e + n).
Proof.
  intros Hm. unfold shr_fexp, shr. intros H.
  set (n := fexp 53 1024 (Zdigits2 m + e) - e) in *.
  destruct n as [|p|p] eqn:En; injection H as <- <-.
  - left. rewrite shr_record_of_loc_m. lia.
  - right. rewrite iter_shr_1_m by (rewrite shr_record_of_loc_m; lia).
    rewrite shr_record_of_loc_m. lia.
  - left. rewrite shr_record_of_loc_m. lia.
Qed.

Lemma div_pow2_pos (m n : Z) :
  0 < m -> 0 <= n <= Z.log2 m -> 0 < m / 2 ^ n /\ Z.log2 (m / 2 ^ n) = Z.log2 m - n.
Proof.
  intros Hm Hn. split.
  - assert (H : 2 ^ n <= m).
    { transitivity (2 ^ Z.log2 m).
      - apply Z.pow_le_mono_r; lia.
      - apply Z.log2_spec; lia. }
    assert (0 < 2 ^ n) by (apply Z.pow_pos_nonneg; lia).
    apply Z.lt_le_trans with 1; [lia|].
    apply Z.div_le_lower_bound; lia.
  - rewrite <- Z.shiftr_div_pow2 by lia. rewrite Z.log2_shiftr by lia. lia.
Qed.

Lemma round_nearest_even_bounds (m : Z) (l : location) :
  m <= round_nearest_even m l <= m + 1.
Proof. destruct l as [|[]]; simpl; try destruct (Z.even m); lia. Qed.

(** One rounding step of [SpecFloat] on a positive mantissa above the
    underflow threshold: the result is a positive finite value, or the
    overflow to infinity. *)
Lemma round_aux_shape (sx : bool) (mx ex : Z) (lx : location) :
  0 < mx -> -1074 < Zdigits2 mx + ex ->
  exists (m : positive) (e : Z),
    -1074 <= e /\ e <= Z.max (Z.max ex (Zdigits2 mx + ex - 52)) (-1074) /\
    binary_round_aux 53 1024 sx mx ex lx =
      if e <=? 971 then S754_finite sx m e else S754_infinity sx.
Proof.
  intros Hm Hd. unfold binary_round_aux.
  destruct (shr_fexp 53 1024 mx ex lx) as [mrs' e'] eqn:E1.
  pose proof (shr_fexp_spec _ _ _ _ _ Hm E1) as S1. cbv zeta in S1.
  rewrite Zdigits2_log2 in * by lia.
  pose proof (Z.log2_nonneg mx) as Hl.
  assert (H1 : 0 < shr_m mrs' /\ Z.log2 (shr_m mrs') + e' = Z.log2 mx + ex /\
               -1074 <= e' <= Z.max (Z.max ex (Z.log2 mx + 1 + ex - 53)) (-1074)).
  { unfold fexp, emin in S1. destruct S1 as [(Hn & -> & ->)|(Hn & -> & ->)].
    - lia.
    - destruct (div_pow2_pos mx (Z.max (Z.log2 mx + 1 + ex - 53) (3 - 1024 - 53) - ex))
        as [Hp Hlog]; lia. }
  destruct H1 as (Hp & Hs & He').
  set (m1 := round_nearest_even (shr_m mrs') (loc_of_shr_record mrs')).
  pose proof (round_nearest_even_bounds (shr_m mrs') (loc_of_shr_record mrs')) as Hr.
  fold m1 in Hr.
  assert (Hm1 : 0 < m1) by lia.
  assert (Hl1 : Z.log2 (shr_m mrs') <= Z.log2 m1 <= Z.log2 (shr_m mrs') + 1).
  { split.
    - apply Z.log2_le_mono; lia.
    - transitivity (Z.log2 (Z.succ (shr_m mrs'))).
      + apply Z.log2_le_mono; lia.
      + apply Z.log2_succ_le. }
  destruct (shr_fexp 53 1024 m1 e' loc_Exact) as [mrs'' e''] eqn:E2.
  pose proof (shr_fexp_spec _ _ _ _ _ Hm1 E2) as S2. cbv zeta in S2.
  rewrite Zdigits2_log2 in S2 by lia.
  pose proof (Z.log2_nonneg m1) as Hl1'.
  assert (H2 : 0 < shr_m mrs'' /\
               -1074 <= e'' <= Z.max (Z.max ex (Z.log2 mx + 1 + ex - 52)) (-1074)).
  { unfold fexp, emin in S2. destruct S2 as [(Hn & -> & ->)|(Hn & -> & ->)].
    - lia.
    - destruct (div_pow2_pos m1 (Z.max (Z.log2 m1 + 1 + e' - 53) (3 - 1024 - 53) - e'))
        as [Hp' Hlog']; lia. }
  destruct H2 as (Hp2 & He2).
  destruct (shr_m mrs'') as [|p|p]; try lia.
  exists p, e''. repeat split; lia.
Qed.

Lemma iter_xO_pow2 (m d : positive) : Zpos (Pos.iter xO m d) = Zpos m * 2 ^ Zpos d.
Proof.
  induction d as [|d IH] using Pos.peano_ind.
  - simpl. lia.
  - rewrite Pos.iter_succ, Pos2Z.inj_xO, IH, Pos2Z.inj_succ, Z.pow_succ_r by lia. lia.
Qed.

Lemma shl_align_spec (mx : positive) (ex ex' : Z) :
  exists (mz : positive) (ez : Z),
    shl_align mx ex ex' = (mz, ez) /\ ez <= ex /\
    Z.log2 (Zpos mz) + ez = Z.log2 (Zpos mx) + ex.
Proof.
  unfold shl_align. destruct (ex' - ex) as [|d|d] eqn:E.
  - exists mx, ex. repeat split; lia.
  - exists mx, ex. repeat split; lia.
  - exists (Pos.iter xO mx d), ex'. repeat split; try lia.
    rewrite iter_xO_pow2, Z.log2_mul_pow2 by lia. lia.
Qed.

Lemma binary_round_shape (sx : bool) (mx : positive) (ex : Z) :
  -1074 < Z.log2 (Zpos mx) + 1 + ex ->
  exists (m : positive) (e : Z),
    -1074 <= e /\ e <= Z.max (Z.max ex (Z.log2 (Zpos mx) + ex - 51)) (-1074) /\
    binary_round 53 1024 sx mx ex =
      if e <=? 971 then S754_finite sx m e else S754_infinity sx.
Proof.
  intros Hd. unfold binary_round.
  destruct (shl_align_spec mx ex (fexp 53 1024 (Zpos (digits2_pos mx) + ex)))
    as (mz & ez & -> & Hle & Hlog).
  destruct (round_aux_shape sx (Zpos mz) ez loc_Exact) as (m & e & H1 & H2 & H3).
  - lia.
  - rewrite Zdigits2_log2 by lia. lia.
  - rewrite Zdigits2_log2 in H2 by lia. exists m, e. repeat split; try lia. exact H3.
Qed.

Lemma of_Z_shape (n : Z) :
  0 < n <= LONG_MAX ->
  exists (m : positive) (e : Z), -1074 <= e /\ F64.of_Z n = S754_finite false m e.
Proof.
  intros [Hn Hmax]. destruct n as [|p|p]; try lia.
  unfold F64.of_Z, binary_normalize, F64.prec, F64.emax.
  assert (Hlog : 0 <= Z.log2 (Zpos p) < 63).
  { split; [apply Z.log2_nonneg|]. apply Z.log2_lt_pow2; unfold LONG_MAX in Hmax; lia. }
  destruct (binary_round_shape false p 0) as (m & e & H1 & H2 & H3); [lia|].
  exists m, e. split; [lia|]. rewrite H3.
  destruct (e <=? 971) eqn:E; [reflexivity|]. apply Z.leb_gt in E. lia.
Qed.

Lemma div_Z_billion_shape (a : Z) :
  0 < a <= LONG_MAX ->
  exists (m : positive) (e : Z),
    -1074 <= e /\ F64.div_Z a 1000000000 = S754_finite false m e.
Proof.
  intros [Ha Hmax]. destruct a as [|p|p]; try lia.
  assert (Hlog : 0 <= Z.log2 (Zpos p) < 63).
  { split; [apply Z.log2_nonneg|]. apply Z.log2_lt_pow2; unfold LONG_MAX in Hmax; lia. }
  unfold F64.div_Z, F64.prec, F64.emax.
  change (Z.to_pos (Z.abs (Zpos p))) with p.
  change (Z.to_pos (Z.abs 1000000000)) with 1000000000%positive.
  change (Zpos p <? 0) with false. change (1000000000 <? 0) with false.
  unfold SFdiv, SFdiv_core_binary.
  rewrite (Zdigits2_log2 (Zpos p)) by lia.
  change (Zdigits2 1000000000) with 30.
  unfold fexp, emin.
  replace (Z.min (Z.max (Z.log2 (Zpos p) + 1 + 0 - (30 + 0) - 53) (3 - 1024 - 53)) (0 - 0))
    with (Z.log2 (Zpos p) - 82) by lia.
  replace (0 - 0 - (Z.log2 (Zpos p) - 82)) with (82 - Z.log2 (Zpos p)) by lia.
  destruct (82 - Z.log2 (Zpos p)) as [|s|s] eqn:Es; try lia.
  set (m' := Z.shiftl (Zpos p) (Zpos s)).
  assert (Hm' : 2 ^ 82 <= m' /\ Z.log2 m' = 82).
  { unfold m'. rewrite Z.shiftl_mul_pow2 by lia.
    assert (Hl : Z.log2 (Zpos p * 2 ^ Zpos s) = 82)
      by (rewrite Z.log2_mul_pow2 by lia; lia).
    split; [|exact Hl]. rewrite <- Hl at 1. apply Z.log2_spec.
    apply Z.mul_pos_pos; [lia|]. apply Z.pow_pos_nonneg; lia. }
  pose proof (Z_div_mod m' 1000000000 ltac:(lia)) as Hdiv.
  destruct (Z.div_eucl m' 1000000000) as [q r].
  destruct Hdiv as [Hq Hr].
  assert (Hqpos : 0 < q) by (change (2 ^ 82) with 4835703278458516698824704 in Hm'; lia).
  assert (Hqlog : 0 <= Z.log2 q <= 82).
  { split; [apply Z.log2_nonneg|].
    destruct Hm' as [_ <-]. apply Z.log2_le_mono. lia. }
  destruct (round_aux_shape (xorb false false) q (Z.log2 (Zpos p) - 82)
              (new_location 1000000000 r)) as (m & e & H1 & H2 & H3).
  - lia.
  - rewrite Zdigits2_log2 by lia. lia.
  - rewrite Zdigits2_log2 in H2 by lia. exists m, e. split; [lia|].
    rewrite H3. destruct (e <=? 971) eqn:E; [reflexivity|]. apply Z.leb_gt in E. lia.
Qed.

Lemma add_pos_pos (mx my : positive) (ex ey : Z) :
  -1074 <= ex -> -1074 <= ey ->
  F64.is_zero (F64.add (S754_finite false mx ex) (S754_finite false my ey)) = false.
Proof.
  intros Hx Hy. unfold F64.add, SFadd, F64.prec, F64.emax.
  set (ez := Z.min ex ey).
  destruct (shl_align mx ex ez) as [a ea]. destruct (shl_align my ey ez) as [b eb].
  cbn [fst cond_Zopp]. change (Zpos a + Zpos b) with (Zpos (a + b)).
  unfold binary_normalize.
  pose proof (Z.log2_nonneg (Zpos (a + b))) as Hl.
  destruct (binary_round_shape false (a + b) ez) as (m & e & _ & _ & ->); [lia|].
  destruct (e <=? 971); reflexivity.
Qed.

Lemma one_off_value (self : TimerSpec.t) :
  0 <= TimerSpec.one_off_seconds self <= LONG_MAX ->
  0 <= TimerSpec.one_off_nano_seconds self <= LONG_MAX ->
  exists f : F64.float,
    TimerSpec.one_off self = Ret f /\
    F64.is_zero f = (TimerSpec.one_off_seconds self =? 0) && (TimerSpec.one_off_nano_seconds self =? 0).
Proof.
  intros Hs Hn. unfold TimerSpec.one_off, py_truediv, py_float.
  change (1000000000 =? 0) with false. cbv iota.
  destruct (Z.eq_dec (TimerSpec.one_off_nano_seconds self) 0) as [En|En];
    destruct (Z.eq_dec (TimerSpec.one_off_seconds self) 0) as [Es|Es].
  - rewrite En, Es. eexists. split; reflexivity.
  - rewrite En. destruct (of_Z_shape (TimerSpec.one_off_seconds self)) as (m & e & He & ->); [lia|].
    eexists. split; [reflexivity|].
    apply Z.eqb_neq in Es. rewrite Es. reflexivity.
  - rewrite Es. destruct (div_Z_billion_shape (TimerSpec.one_off_nano_seconds self))
      as (m & e & He & ->); [lia|].
    eexists. split; [reflexivity|].
    apply Z.eqb_neq in En. rewrite En. reflexivity.
  - destruct (div_Z_billion_shape (TimerSpec.one_off_nano_seconds self))
      as (m & e & He & ->); [lia|].
    destruct (of_Z_shape (TimerSpec.one_off_seconds self)) as (m' & e' & He' & ->); [lia|].
    eexists. split; [reflexivity|]. cbn [bind].
    rewrite add_pos_pos by lia.
    apply Z.eqb_neq in Es. rewrite Es. reflexivity.
Qed.

End Rounding.

(** ** The constructor and the setters *)

Lemma TimerSpec_new_eq :
  TimerSpec.new = Ret {| TimerSpec._timerspec := itimerspec_new; TimerSpec.attrs := ∅ |}.
Proof. reflexivity. Qed.

Lemma TimerSpec_clone (s : itimerspec) :
  TimerSpec.__init__ PyNone PyNone PyNone PyNone PyNone PyNone (Some s) =
    Ret {| TimerSpec._timerspec := s; TimerSpec.attrs := ∅ |}.
Proof. destruct s as [[] []]. reflexivity. Qed.

Lemma one_off_setter_int (self : TimerSpec.t) (n : Z) :
  in_long n = true ->
  TimerSpec.setattr self "one_off" (PyInt n) =
    Ret {| TimerSpec._timerspec :=
             {| it_interval := it_interval (TimerSpec._timerspec self);
                it_value := {| tv_sec := n; tv_nsec := 0 |} |};
           TimerSpec.attrs := TimerSpec.attrs self |}.
Proof.
  intros Hn. cbn. unfold TimerSpec.one_off_seconds_setter, to_c_long. rewrite Hn. reflexivity.
Qed.

Lemma reoccuring_setter_int (self : TimerSpec.t) (n : Z) :
  in_long n = true ->
  TimerSpec.setattr self "reoccuring" (PyInt n) =
    Ret {| TimerSpec._timerspec :=
             {| it_interval := {| tv_sec := n; tv_nsec := 0 |};
                it_value := it_value (TimerSpec._timerspec self) |};
           TimerSpec.attrs := TimerSpec.attrs self |}.
Proof.
  intros Hn. cbn. unfold TimerSpec.reoccuring_seconds_setter, to_c_long. rewrite Hn. reflexivity.
Qed.

Lemma sec_nano_zero : TimerSpec.sec_nano (PyFloat F64.zero) = Ret (PyInt 0, PyInt 0).
Proof. reflexivity. Qed.

Lemma disable_eq (self : TimerSpec.t) :
  TimerSpec.disable self =
    Ret {| TimerSpec._timerspec :=
             {| it_interval := it_interval (TimerSpec._timerspec self);
                it_value := timespec_zero |};
           TimerSpec.attrs := TimerSpec.attrs self |}.
Proof. reflexivity. Qed.

(** With integer arguments [set_reoccuring] leaves [nano_seconds] in the
    instance dictionary, under a name that is no property of the class, and
    arms the timer with the seconds alone. *)
Lemma set_reoccuring_ints (self : Timerfd.t) (s n : Z) (absolute : bool) :
  in_long s = true -> in_long n = true ->
  Timerfd.set_reoccuring self (PyInt s) (PyInt n) (PyInt 0) (PyInt 0) absolute =
    Timerfd._update self
      {| TimerSpec._timerspec :=
           {| it_interval := {| tv_sec := s; tv_nsec := 0 |};
              it_value := {| tv_sec := s; tv_nsec := 0 |} |};
         TimerSpec.attrs := <["reoccuring_nano" := PyInt n]> ∅ |}
      absolute.
Proof.
  intros Hs Hn. unfold Timerfd.set_reoccuring.
  rewrite TimerSpec_new_eq. cbn [bind].
  change (TimerSpec.setattr ?t "reoccuring_nano" ?v)
    with (Ret {| TimerSpec._timerspec := TimerSpec._timerspec t;
                 TimerSpec.attrs := <["reoccuring_nano" := v]> (TimerSpec.attrs t) |}).
  cbn [bind]. rewrite reoccuring_setter_int by exact Hs. cbn [bind].
  change (truthy (py_or (PyInt 0) (PyInt 0))) with false. cbv iota.
  rewrite one_off_setter_int by exact Hn. cbn [bind].
  rewrite one_off_setter_int by exact Hs. cbn [bind]. reflexivity.
Qed.

(** With integer arguments [set_one_off] arms the timer with [nano_seconds]
    as its seconds. *)
Lemma set_one_off_ints (self : Timerfd.t) (s n : Z) (absolute : bool) :
  in_long s = true -> in_long n = true ->
  Timerfd.set_one_off self (PyInt s) (PyInt n) absolute =
    Timerfd._update self
      {| TimerSpec._timerspec :=
           {| it_interval := timespec_zero;
              it_value := {| tv_sec := n; tv_nsec := 0 |} |};
         TimerSpec.attrs := ∅ |}
      absolute.
Proof.
  intros Hs Hn. unfold Timerfd.set_one_off.
  rewrite TimerSpec_new_eq. cbn [bind].
  rewrite one_off_setter_int by exact Hs. cbn [bind].
  rewrite one_off_setter_int by exact Hn. cbn [bind]. reflexivity.
Qed.

(** [_update] makes one call, whatever the kernel answers: the C function
    [timerfd_settime] on the handle's descriptor, with the structure the
    specification wraps. *)
Lemma update_calls (K : Kernel) (st : kstate K) (self : Timerfd.t) (ts : TimerSpec.t)
  (absolute : bool) :
  in_int (Timerfd._fd self) = true ->
  calls_of (run K (Timerfd._update self ts absolute) st) =
    [Ev (C_timerfd_settime (Timerfd._fd self) (if absolute then TFD_TIMER_ABSTIME else 0)
           (TimerSpec._timerspec ts))].
Proof.
  intros Hfd. unfold Timerfd._update, timerfd_settime, to_c_int. rewrite Hfd.
  replace (in_int (if absolute then TFD_TIMER_ABSTIME else 0)) with true
    by (destruct absolute; reflexivity).
  cbn [bind call run TimerSpec.__timerspec__].
  destruct (kcall K _ _ st) as [[[[ret err] old] st']|]; [|reflexivity].
  cbn [bind]. rewrite TimerSpec_clone.
  repeat match goal with
         | |- context [if ?b then _ else _] => destruct b
         end; reflexivity.
Qed.


(** ** What [wait] and [disable] do on any kernel *)

(** The bytes are read least significant first. *)
Lemma uint64_of_bytes_little_endian (b0 b1 b2 b3 b4 b5 b6 b7 : byte) :
  uint64_of_bytes [b0; b1; b2; b3; b4; b5; b6; b7] =
    Z.of_N (Byte.to_N b0) + 2 ^ 8 * Z.of_N (Byte.to_N b1) + 2 ^ 16 * Z.of_N (Byte.to_N b2) +
    2 ^ 24 * Z.of_N (Byte.to_N b3) + 2 ^ 32 * Z.of_N (Byte.to_N b4) +
    2 ^ 40 * Z.of_N (Byte.to_N b5) + 2 ^ 48 * Z.of_N (Byte.to_N b6) +
    2 ^ 56 * Z.of_N (Byte.to_N b7).
Proof. unfold uint64_of_bytes. cbn [fold_right]. lia. Qed.

Lemma uint64_of_bytes_range (data : list byte) :
  length data = 8%nat -> 0 <= uint64_of_bytes data < 2 ^ 64.
Proof.
  intros Hlen.
  do 8 (destruct data as [|? data]; [discriminate Hlen|]).
  destruct data; [|discriminate Hlen].
  rewrite uint64_of_bytes_little_endian.
  repeat match goal with
         | |- context [Byte.to_N ?b] =>
             let H := fresh in
             pose proof (Byte.to_N_bounded b) as H; generalize dependent (Byte.to_N b); intros
         end.
  lia.
Qed.

Lemma selectable_ok (fd : Z) : 0 <= fd < FD_SETSIZE -> selectable fd = Ret tt.
Proof.
  intros H. unfold selectable, in_int, INT_MIN, INT_MAX, FD_SETSIZE in *.
  replace ((- 2 ^ 31 <=? fd) && (fd <=? 2 ^ 31 - 1)) with true
    by (symmetry; apply andb_true_iff; rewrite !Z.leb_le; lia).
  replace (fd <? 0) with false by (symmetry; apply Z.ltb_ge; lia).
  replace (1024 <=? fd) with false by (symmetry; apply Z.leb_gt; lia).
  reflexivity.
Qed.

(** [select.select] lets a descriptor through exactly when it lies between
    0 and [FD_SETSIZE - 1]. *)
Lemma selectable_cases (fd : Z) :
  (0 <= fd < FD_SETSIZE /\ selectable fd = Ret tt) \/
  (~ 0 <= fd < FD_SETSIZE /\ exists e : exn, selectable fd = Raise e).
Proof.
  destruct (Z_lt_dec fd 0) as [Hneg|Hpos].
  - right. split; [lia|]. unfold selectable.
    destruct (negb (in_int fd)); [eauto|].
    replace (fd <? 0) with true by (symmetry; apply Z.ltb_lt; lia). eauto.
  - destruct (Z_lt_dec fd FD_SETSIZE) as [Hlt|Hge].
    + left. split; [lia|]. apply selectable_ok. lia.
    + right. split; [lia|]. unfold selectable.
      destruct (negb (in_int fd)); [eauto|].
      replace (fd <? 0) with false by (symmetry; apply Z.ltb_ge; lia).
      replace (FD_SETSIZE <=? fd) with true by (symmetry; apply Z.leb_le; lia). eauto.
Qed.

(** A [wait] that returns was given a descriptor that [select] takes, has
    made two calls, [select] on the descriptor and a read of 8 bytes from
    it, and returns the eight bytes it was given as an unsigned 64-bit
    integer. *)
Lemma wait_decodes (K : Kernel) (st st' : kstate K) (self : Timerfd.t) (c : Z)
  (tr : list event) :
  run K (Timerfd.wait self) st = (Returns c, st', tr) ->
  0 <= Timerfd._fd self < FD_SETSIZE /\
  tr = [Ev (select_select [Timerfd._fd self]); Ev (os_read (Timerfd._fd self) 8)] /\
  exists (data : list byte) (st1 : kstate K),
    kcall K _ (os_read (Timerfd._fd self) 8) st1 = Some (inr data, st') /\
    length data = 8%nat /\ c = uint64_of_bytes data /\ 0 <= c < 2 ^ 64.
Proof.
  unfold Timerfd.wait.
  destruct (selectable_cases (Timerfd._fd self)) as [[Hfd ->]|[_ [e0 ->]]];
    [|cbn [bind run]; discriminate].
  intros H. split; [exact Hfd|]. revert H.
  cbn [bind call run].
  destruct (kcall K _ (select_select [Timerfd._fd self]) st) as [[[e|ready] st1]|];
    cbn [bind run]; try discriminate.
  destruct (kcall K _ (os_read (Timerfd._fd self) 8) st1) as [[[e|data] st2]|] eqn:Er;
    cbn [bind run]; try discriminate.
  destruct (length data =? 8)%nat eqn:El; cbn [run]; try discriminate.
  intros H. injection H as <- <- <-. apply Nat.eqb_eq in El.
  split; [reflexivity|]. exists data, st1.
  repeat split; try assumption; apply uint64_of_bytes_range; exact El.
Qed.

(** On any kernel that answers [timerfd_gettime] with a setting [cur],
    [disable] next submits [cur] with its initial expiration zeroed and its
    interval untouched, without the absolute-time flag. *)
Lemma disable_resubmits (K : Kernel) (st st1 : kstate K) (self : Timerfd.t)
  (ret err : Z) (cur : itimerspec) :
  in_int (Timerfd._fd self) = true ->
  kcall K _ (C_timerfd_gettime (Timerfd._fd self)) st = Some ((ret, err, cur), st1) ->
  (ret <? 0) = false ->
  calls_of (run K (Timerfd.disable self) st) =
    [Ev (C_timerfd_gettime (Timerfd._fd self));
     Ev (C_timerfd_settime (Timerfd._fd self) 0
           {| it_interval := it_interval cur; it_value := timespec_zero |})].
Proof.
  intros Hfd Hk Hret.
  assert (Hget : run K (Timerfd.get_current self) st =
                 (Returns {| TimerSpec._timerspec := cur; TimerSpec.attrs := ∅ |}, st1,
                  [Ev (C_timerfd_gettime (Timerfd._fd self))])).
  { unfold Timerfd.get_current, timerfd_gettime, to_c_int. rewrite Hfd.
    cbn [bind call run]. rewrite Hk. cbn [bind]. rewrite Hret, TimerSpec_clone.
    reflexivity. }
  unfold Timerfd.disable. rewrite run_bind, Hget, disable_eq. cbn [bind].
  rewrite run_bind.
  pose proof (update_calls K st1 self
                {| TimerSpec._timerspec :=
                     {| it_interval := it_interval cur; it_value := timespec_zero |};
                   TimerSpec.attrs := ∅ |} false Hfd) as Hup.
  cbn [TimerSpec._timerspec TimerSpec.attrs] in *.
  destruct (run K (Timerfd._update self _ false) st1) as [[[ts|e|] st2] tr];
    unfold calls_of in *; cbn [snd run app] in *; rewrite Hup; reflexivity.
Qed.

(** ** The error codes of the three functions *)

(** The exception of [timerfd] for each [errno] of a failed
    [timerfd_create]. *)
Lemma timerfd_errors (clock_type flags : Z) :
  in_int clock_type = true -> in_int flags = true ->
  let raised err := outcome_of (run (failing err) (timerfd clock_type flags) tt) in
  raised errno.EINVAL =
    Raises (ValueError
              (if Z.land clock_type 1 =? 0
               then "clock_type is not one of CLOCK_MONOTONIC or CLOCK_REALTIME"
               else "Invalid value in flags")) /\
  raised errno.EMFILE = Raises (OSError "Max per process FD limit reached") /\
  raised errno.ENFILE = Raises (OSError "Max system FD limit reached") /\
  raised errno.ENODEV = Raises (NameError "OsError") /\
  raised errno.ENOMEM = Raises (MemoryError "Insufficent kernel memory available") /\
  forall err : Z,
    ~ In err [errno.EINVAL; errno.EMFILE; errno.ENFILE; errno.ENODEV; errno.ENOMEM] ->
    raised err = Raises (ValueError ("Unknown Error: " +:+ pretty err)).
Proof.
  intros Hc Hf raised. unfold raised, timerfd, to_c_int. rewrite Hc, Hf.
  cbn [bind call run failing kcall]. change (-1 <? 0) with true. cbv iota.
  repeat split.
  - change (errno.EINVAL =? errno.EINVAL) with true. cbv iota.
    change (Z.lor CLOCK_MONOTONIC CLOCK_REALTIME) with 1.
    destruct (Z.land clock_type 1 =? 0); reflexivity.
  - intros err Hn. cbn [In] in Hn.
    unlisted err Hn.
Qed.

(** The same for [timerfd_gettime]. *)
Lemma timerfd_gettime_errors (fd : Z) :
  in_int fd = true ->
  let raised err := outcome_of (run (failing err) (timerfd_gettime fd) tt) in
  raised errno.EBADF = Raises (ValueError "fd is not a valid file descriptor") /\
  raised errno.EFAULT =
    Raises (OSError "curr_val is not a valid pointer (internal/bug, let us know)") /\
  raised errno.EINVAL = Raises (ValueError "fd is not a valid timerfd") /\
  forall err : Z,
    ~ In err [errno.EBADF; errno.EFAULT; errno.EINVAL] ->
    raised err = Raises (ValueError ("Unknown Error: " +:+ pretty err)).
Proof.
  intros Hfd raised. unfold raised, timerfd_gettime, to_c_int. rewrite Hfd.
  cbn [bind call run failing kcall]. change (-1 <? 0) with true. cbv iota.
  repeat split.
  intros err Hn. cbn [In] in Hn.
  unlisted err Hn.
Qed.

(** The same for [timerfd_settime]; [EBADF] is not among its cases. *)
Lemma timerfd_settime_errors (fd flags : Z) (spec : itimerspec) :
  in_int fd = true -> in_int flags = true ->
  let raised err := outcome_of (run (failing err) (timerfd_settime fd (Struct spec) flags) tt) in
  raised errno.EINVAL =
    Raises (ValueError
              (if tv_sec (it_interval spec) >? 999999999
               then "Nano seconds in it_interval is > 999,999,999"
               else if tv_nsec (it_value spec) >? 999999999
                    then "Nano seconds in it_value is > 999,999,999"
                    else "flags is invalid or fd not a timerfd")) /\
  raised errno.EFAULT =
    Raises (OSError "timer_spec does not point to a valid timer specfication") /\
  raised errno.EMFILE = Raises (OSError "Max per process FD limit reached") /\
  raised errno.ENFILE = Raises (OSError "Max system FD limit reached") /\
  raised errno.ENODEV = Raises (NameError "OsError") /\
  raised errno.ENOMEM = Raises (MemoryError "Insufficent kernel memory available") /\
  forall err : Z,
    ~ In err [errno.EINVAL; errno.EFAULT; errno.EMFILE; errno.ENFILE; errno.ENODEV;
              errno.ENOMEM] ->
    raised err = Raises (ValueError ("Unknown Error: " +:+ pretty err)).
Proof.
  intros Hfd Hfl raised. unfold raised, timerfd_settime, to_c_int. rewrite Hfd, Hfl.
  cbn [bind call run failing kcall]. change (-1 <? 0) with true. cbv iota.
  repeat split.
  - change (errno.EINVAL =? errno.EINVAL) with true. cbv iota.
    destruct (tv_sec (it_interval spec) >? 999999999);
      [|destruct (tv_nsec (it_value spec) >? 999999999)]; reflexivity.
  - intros err Hn. cbn [In] in Hn.
    unlisted err Hn.
Qed.

(** [set_reoccuring(0.5)], as the module's [_main] calls it: the interval
    and the initial expiration are both half a second. *)
Lemma set_reoccuring_half_second :
  calls_of (run Linux.kernel
              (Timerfd.set_reoccuring handle3 (PyFloat f_0_5) (PyInt 0) (PyInt 0) (PyInt 0) false)
              booted) =
    [Ev (C_timerfd_settime 3 0
           {| it_interval := {| tv_sec := 0; tv_nsec := 500000000 |};
              it_value := {| tv_sec := 0; tv_nsec := 500000000 |} |})].
Proof. vm_compute. reflexivity. Qed.

(** ** The Linux model *)

Lemma settle_lookup (st : Linux.state) (fd : Z) :
  Linux.files (Linux.settle st) !! fd =
    Linux.catch_up_file (Linux.now st) <$> Linux.files st !! fd.
Proof. unfold Linux.settle. cbn [Linux.files]. apply lookup_fmap. Qed.

Lemma catch_up_interval (now : N) (t : Linux.ktimer) :
  Linux.kt_interval (Linux.catch_up now t) = Linux.kt_interval t.
Proof.
  unfold Linux.catch_up. destruct (Linux.kt_expiry t) as [e|]; [|reflexivity].
  destruct (e <=? now)%N; [|reflexivity].
  destruct (Linux.kt_interval t =? 0)%N; reflexivity.
Qed.

Lemma of_ns_valid (n : N) : Linux.timespec_valid (Linux.of_ns n) = true.
Proof.
  unfold Linux.timespec_valid, Linux.of_ns, Linux.NSEC_PER_SEC. cbn [tv_sec tv_nsec].
  pose proof (N.mod_lt n 1000000000 ltac:(discriminate)) as Hlt.
  rewrite !andb_true_iff, !Z.leb_le, Z.ltb_lt.
  generalize dependent (n mod 1000000000)%N. generalize (n / 1000000000)%N. lia.
Qed.

Lemma to_ns_of_ns (n : N) : Linux.to_ns (Linux.of_ns n) = Linux.ktime n.
Proof.
  unfold Linux.to_ns, Linux.of_ns, Linux.NSEC_PER_SEC. cbn [tv_sec tv_nsec].
  rewrite !N2Z.id. f_equal. rewrite (N.div_mod n 1000000000) at 3 by discriminate. lia.
Qed.

Lemma ktime_idem (n : N) : Linux.ktime (Linux.ktime n) = Linux.ktime n.
Proof.
  unfold Linux.ktime. destruct (Linux.KTIME_SEC_MAX <=? n / Linux.NSEC_PER_SEC)%N eqn:E.
  - reflexivity.
  - rewrite E. reflexivity.
Qed.

Lemma answer_gettime (st : Linux.state) (fd : Z) (t : Linux.ktimer) :
  Linux.files st !! fd = Some (Linux.KTimer t) ->
  kcall Linux.kernel _ (C_timerfd_gettime fd) st =
    Some ((0, 0, Linux.current (Linux.now st) (Linux.catch_up (Linux.now st) t)),
          Linux.settle st).
Proof.
  intros H. cbn [kcall Linux.kernel Linux.answer]. unfold Linux.sys_timerfd_gettime.
  rewrite settle_lookup, H. reflexivity.
Qed.

Lemma get_current_run (st : Linux.state) (self : Timerfd.t) (t : Linux.ktimer) :
  in_int (Timerfd._fd self) = true ->
  Linux.files st !! Timerfd._fd self = Some (Linux.KTimer t) ->
  run Linux.kernel (Timerfd.get_current self) st =
    (Returns {| TimerSpec._timerspec :=
                  Linux.current (Linux.now st) (Linux.catch_up (Linux.now st) t);
                TimerSpec.attrs := ∅ |},
     Linux.settle st, [Ev (C_timerfd_gettime (Timerfd._fd self))]).
Proof.
  intros Hfd H. unfold Timerfd.get_current, timerfd_gettime, to_c_int. rewrite Hfd.
  cbn [bind call run]. rewrite (answer_gettime st _ t H). cbn [bind].
  change (0 <? 0) with false. cbv iota. rewrite TimerSpec_clone. reflexivity.
Qed.

Lemma catch_up_disarmed (now : N) (t : Linux.ktimer) :
  Linux.kt_expiry t = None -> Linux.catch_up now t = t.
Proof. intros H. unfold Linux.catch_up. rewrite H. reflexivity. Qed.

Lemma update_run (st : Linux.state) (self : Timerfd.t) (ts : TimerSpec.t) (absolute : bool)
  (t : Linux.ktimer) :
  in_int (Timerfd._fd self) = true ->
  Linux.files st !! Timerfd._fd self = Some (Linux.KTimer t) ->
  Linux.timespec_valid (it_value (TimerSpec._timerspec ts)) = true ->
  Linux.timespec_valid (it_interval (TimerSpec._timerspec ts)) = true ->
  let flags := if absolute then TFD_TIMER_ABSTIME else 0 in
  let t' := Linux.catch_up (Linux.now st) t in
  run Linux.kernel (Timerfd._update self ts absolute) st =
    (Returns {| TimerSpec._timerspec := Linux.current (Linux.now st) t';
                TimerSpec.attrs := ∅ |},
     Linux.set_file (Linux.settle st) (Timerfd._fd self)
       (Linux.KTimer (Linux.arm (Linux.now st) flags (TimerSpec._timerspec ts) t')),
     [Ev (C_timerfd_settime (Timerfd._fd self) flags (TimerSpec._timerspec ts))]).
Proof.
  intros Hfd H Hv Hi flags t'.
  unfold Timerfd._update, timerfd_settime, to_c_int. rewrite Hfd. fold flags.
  replace (in_int flags) with true by (destruct absolute; reflexivity).
  cbn [bind call run TimerSpec.__timerspec__ kcall Linux.kernel Linux.answer].
  unfold Linux.sys_timerfd_settime, TimerSpec.__timerspec__. rewrite Hv, Hi, settle_lookup, H.
  replace (negb (Z.land flags (Z.lnot (Z.lor TFD_TIMER_ABSTIME Linux.TFD_TIMER_CANCEL_ON_SET)) =? 0))
    with false by (destruct absolute; reflexivity).
  cbn [negb orb fmap option_fmap option_map Linux.catch_up_file Linux.now Linux.settle].
  change (0 <? 0) with false. cbv iota. rewrite TimerSpec_clone. reflexivity.
Qed.

Lemma enabled_zero (ts : TimerSpec.t) :
  it_value (TimerSpec._timerspec ts) = timespec_zero -> TimerSpec.enabled ts = Ret false.
Proof.
  destruct ts as [[i v] a]. cbn [TimerSpec._timerspec it_value]. intros ->. reflexivity.
Qed.


(** After [catch_up] the next expiration lies in the future. *)
Lemma catch_up_future (now : N) (t : Linux.ktimer) :
  match Linux.kt_expiry (Linux.catch_up now t) with
  | Some e => (now < e)%N
  | None => True
  end.
Proof.
  unfold Linux.catch_up.
  destruct (Linux.kt_expiry t) as [e|] eqn:E; [|rewrite E; exact I].
  destruct (e <=? now)%N eqn:Ele.
  - destruct (Linux.kt_interval t =? 0)%N eqn:Ei; cbn [Linux.kt_expiry]; [exact I|].
    apply N.leb_le in Ele. apply N.eqb_neq in Ei.
    pose proof (N.div_mod (now - e) (Linux.kt_interval t) Ei) as Hdm.
    pose proof (N.mod_lt (now - e) (Linux.kt_interval t) Ei) as Hlt.
    generalize dependent ((now - e) mod Linux.kt_interval t)%N.
    generalize dependent ((now - e) / Linux.kt_interval t)%N.
    intros q r Hdm Hlt.
    assert (Hnext : (now < e + (q + 1) * Linux.kt_interval t)%N) by nia.
    destruct (now <? Linux.KTIME_MAX)%N eqn:Emax; [|exact Hnext].
    apply N.ltb_lt in Emax. apply N.min_glb_lt; assumption.
  - rewrite E. apply N.leb_gt. exact Ele.
Qed.

Lemma catch_up_stable (now : N) (t : Linux.ktimer) :
  match Linux.kt_expiry t with
  | Some e => (now < e)%N
  | None => True
  end ->
  Linux.catch_up now t = t.
Proof.
  unfold Linux.catch_up. destruct (Linux.kt_expiry t) as [e|]; [|reflexivity].
  intros H. apply N.leb_gt in H. rewrite H. reflexivity.
Qed.

Lemma catch_up_idem (now : N) (t : Linux.ktimer) :
  Linux.catch_up now (Linux.catch_up now t) = Linux.catch_up now t.
Proof. apply catch_up_stable, catch_up_future. Qed.

Lemma settle_idem (st : Linux.state) : Linux.settle (Linux.settle st) = Linux.settle st.
Proof.
  unfold Linux.settle. cbn [Linux.now Linux.nofile Linux.files]. f_equal.
  rewrite <- map_fmap_compose. apply map_fmap_ext. intros fd f _.
  destruct f as [t|]; cbn; [|reflexivity]. rewrite catch_up_idem. reflexivity.
Qed.

(** The timer that expires exactly now: one expiration is counted. *)
Lemma catch_up_at_expiry (e : N) (t : Linux.ktimer) :
  Linux.kt_expiry t = Some e ->
  Linux.kt_ticks (Linux.catch_up e t) = (Linux.kt_ticks t + 1)%N.
Proof.
  intros H. unfold Linux.catch_up. rewrite H, N.leb_refl.
  destruct (Linux.kt_interval t =? 0)%N eqn:Ei; cbn [Linux.kt_ticks]; [reflexivity|].
  rewrite N.sub_diag. rewrite N.Div0.div_0_l. reflexivity.
Qed.
Lemma to_N_byte_of_N (x : N) : Byte.to_N (Linux.byte_of_N x) = (x mod 256)%N.
Proof.
  unfold Linux.byte_of_N.
  destruct (Byte.of_N (x mod 256)) as [b|] eqn:E.
  - apply Byte.to_of_N. exact E.
  - apply Byte.of_N_None_iff in E.
    pose proof (N.mod_lt x 256 ltac:(discriminate)) as Hlt.
    generalize dependent (x mod 256)%N. intros; lia.
Qed.

Lemma mod_step (a c : N) :
  c <> 0%N -> (a mod (256 * c) = a mod 256 + 256 * ((a / 256) mod c))%N.
Proof. intros Hc. apply N.Div0.mod_mul_r. Qed.

Lemma uint64_of_bytes_of_uint64 (n : N) :
  uint64_of_bytes (Linux.bytes_of_uint64 n) = Z.of_N (n mod 2 ^ 64).
Proof.
  unfold uint64_of_bytes, Linux.bytes_of_uint64. cbn [map fold_right].
  rewrite !to_N_byte_of_N.
  change (2 ^ 64)%N with (256 * (256 * (256 * (256 * (256 * (256 * (256 * 256)))))))%N.
  rewrite !mod_step by discriminate.
  rewrite !N.Div0.div_div.
  change (256 ^ 0)%N with 1%N. rewrite N.div_1_r.
  rewrite !N2Z.inj_add, !N2Z.inj_mul.
  change (256 ^ 1)%N with 256%N.
  change (256 ^ 2)%N with (256 * 256)%N.
  change (256 ^ 3)%N with (256 * 256 * 256)%N.
  change (256 ^ 4)%N with (256 * 256 * 256 * 256)%N.
  change (256 ^ 5)%N with (256 * 256 * 256 * 256 * 256)%N.
  change (256 ^ 6)%N with (256 * 256 * 256 * 256 * 256 * 256)%N.
  change (256 ^ 7)%N with (256 * 256 * 256 * 256 * 256 * 256 * 256)%N.
  change (Z.of_N 256) with 256. lia.
Qed.

Lemma in_fd_set (fd : Z) :
  0 <= fd < FD_SETSIZE -> (fd <? 0) || (FD_SETSIZE <=? fd) = false.
Proof.
  intros H. apply orb_false_iff. rewrite Z.ltb_ge, Z.leb_gt. lia.
Qed.

Lemma answer_select_ready (st : Linux.state) (fd : Z) (t : Linux.ktimer) :
  0 <= fd < FD_SETSIZE ->
  Linux.files st !! fd = Some (Linux.KTimer t) ->
  (0 < Linux.pending (Linux.catch_up (Linux.now st) t))%N ->
  kcall Linux.kernel _ (select_select [fd]) st = Some (inr [fd], Linux.settle st).
Proof.
  intros Hfd H Hp. cbn [kcall Linux.kernel Linux.answer]. unfold Linux.sys_select.
  cbn [existsb]. rewrite (in_fd_set fd Hfd). cbn [orb]. rewrite settle_lookup, H.
  cbn [fmap option_fmap option_map Linux.catch_up_file].
  rewrite bool_decide_eq_false_2 by discriminate. cbn [orb]. cbv zeta.
  assert (Hr : Linux.readable (Linux.settle st) fd = true).
  { unfold Linux.readable. rewrite settle_lookup, H. cbn. apply N.ltb_lt. exact Hp. }
  rewrite filter_cons_True by exact Hr. reflexivity.
Qed.

Lemma answer_select_wait (st : Linux.state) (fd : Z) (t : Linux.ktimer) (e : N) :
  0 <= fd < FD_SETSIZE ->
  Linux.files st !! fd = Some (Linux.KTimer t) ->
  Linux.pending (Linux.catch_up (Linux.now st) t) = 0%N ->
  Linux.kt_expiry (Linux.catch_up (Linux.now st) t) = Some e ->
  exists ready : list Z,
    kcall Linux.kernel _ (select_select [fd]) st =
      Some (inr ready, Linux.settle (Linux.set_now (Linux.settle st) e)).
Proof.
  intros Hfd H Hp He. cbn [kcall Linux.kernel Linux.answer]. unfold Linux.sys_select.
  cbn [existsb]. rewrite (in_fd_set fd Hfd). cbn [orb]. rewrite settle_lookup, H.
  cbn [fmap option_fmap option_map Linux.catch_up_file].
  rewrite bool_decide_eq_false_2 by discriminate. cbn [orb]. cbv zeta.
  assert (Hr : Linux.readable (Linux.settle st) fd <> true).
  { unfold Linux.readable. rewrite settle_lookup, H. cbn. rewrite Hp. discriminate. }
  rewrite filter_cons_False by exact Hr. rewrite filter_nil.
  cbn [map Linux.earliest fold_right]. unfold Linux.next_expiry.
  rewrite settle_lookup, H. cbn [fmap option_fmap option_map Linux.catch_up_file].
  rewrite He. eexists. reflexivity.
Qed.

Lemma answer_select_never (st : Linux.state) (fd : Z) (t : Linux.ktimer) :
  0 <= fd < FD_SETSIZE ->
  Linux.files st !! fd = Some (Linux.KTimer t) ->
  Linux.pending (Linux.catch_up (Linux.now st) t) = 0%N ->
  Linux.kt_expiry (Linux.catch_up (Linux.now st) t) = None ->
  kcall Linux.kernel _ (select_select [fd]) st = None.
Proof.
  intros Hfd H Hp He. cbn [kcall Linux.kernel Linux.answer]. unfold Linux.sys_select.
  cbn [existsb]. rewrite (in_fd_set fd Hfd). cbn [orb]. rewrite settle_lookup, H.
  cbn [fmap option_fmap option_map Linux.catch_up_file].
  rewrite bool_decide_eq_false_2 by discriminate. cbn [orb]. cbv zeta.
  assert (Hr : Linux.readable (Linux.settle st) fd <> true).
  { unfold Linux.readable. rewrite settle_lookup, H. cbn. rewrite Hp. discriminate. }
  rewrite filter_cons_False by exact Hr. rewrite filter_nil.
  cbn [map Linux.earliest fold_right]. unfold Linux.next_expiry.
  rewrite settle_lookup, H. cbn [fmap option_fmap option_map Linux.catch_up_file].
  rewrite He. reflexivity.
Qed.

(** A read of a settled timer with expirations to report. *)
Lemma answer_read_ready (st : Linux.state) (fd : Z) (t : Linux.ktimer) :
  Linux.files st !! fd = Some (Linux.KTimer t) ->
  (0 < Linux.pending (Linux.catch_up (Linux.now st) t))%N ->
  kcall Linux.kernel _ (os_read fd 8) st =
    Some (inr (Linux.bytes_of_uint64 (Linux.pending (Linux.catch_up (Linux.now st) t))),
          Linux.set_file (Linux.settle st) fd
            (Linux.KTimer (Linux.reset (Linux.catch_up (Linux.now st) t)))).
Proof.
  intros H Hp. cbn [kcall Linux.kernel Linux.answer]. unfold Linux.sys_read.
  rewrite settle_lookup, H. cbn [fmap option_fmap option_map Linux.catch_up_file].
  change (8 <? 8) with false. cbv iota.
  apply N.ltb_lt in Hp. rewrite Hp. reflexivity.
Qed.

Lemma pending_lt (t : Linux.ktimer) : (Linux.pending t < 2 ^ 64)%N.
Proof. unfold Linux.pending. apply N.mod_lt. discriminate. Qed.

Lemma wait_run_read (st0 st : Linux.state) (self : Timerfd.t) (t : Linux.ktimer)
  (ready : list Z) :
  0 <= Timerfd._fd self < FD_SETSIZE ->
  kcall Linux.kernel _ (select_select [Timerfd._fd self]) st0 = Some (inr ready, st) ->
  Linux.files st !! Timerfd._fd self = Some (Linux.KTimer t) ->
  (0 < Linux.pending (Linux.catch_up (Linux.now st) t))%N ->
  run Linux.kernel (Timerfd.wait self) st0 =
    (Returns (Z.of_N (Linux.pending (Linux.catch_up (Linux.now st) t))),
     Linux.set_file (Linux.settle st) (Timerfd._fd self)
       (Linux.KTimer (Linux.reset (Linux.catch_up (Linux.now st) t))),
     [Ev (select_select [Timerfd._fd self]); Ev (os_read (Timerfd._fd self) 8)]).
Proof.
  intros Hfd Hsel H Hp. unfold Timerfd.wait. rewrite (selectable_ok _ Hfd).
  cbn [bind call run]. rewrite Hsel.
  cbn [bind call run]. rewrite (answer_read_ready st _ t H Hp). cbn [bind run].
  change (length (Linux.bytes_of_uint64 ?n) =? 8)%nat with true. cbv iota.
  rewrite uint64_of_bytes_of_uint64.
  rewrite N.mod_small by apply pending_lt. reflexivity.
Qed.


(** ** A descriptor that is not open *)

Section Closed.

Variables (st : Linux.state) (self : Timerfd.t).
Hypothesis Hfd : in_int (Timerfd._fd self) = true.
Hypothesis Hclosed : Linux.files st !! Timerfd._fd self = None.

Lemma closed_get_current :
  run Linux.kernel (Timerfd.get_current self) st =
    (Raises (ValueError "fd is not a valid file descriptor"), Linux.settle st,
     [Ev (C_timerfd_gettime (Timerfd._fd self))]).
Proof.
  unfold Timerfd.get_current, timerfd_gettime, to_c_int. rewrite Hfd.
  cbn [bind call run kcall Linux.kernel Linux.answer]. unfold Linux.sys_timerfd_gettime.
  rewrite settle_lookup, Hclosed. reflexivity.
Qed.

Lemma closed_enabled :
  fails_with Linux.kernel (Timerfd.enabled self) st
    (ValueError "fd is not a valid file descriptor")
    [Ev (C_timerfd_gettime (Timerfd._fd self))].
Proof.
  unfold fails_with, Timerfd.enabled. rewrite run_bind, closed_get_current.
  split; reflexivity.
Qed.

Lemma closed_disabled :
  fails_with Linux.kernel (Timerfd.disabled self) st
    (ValueError "fd is not a valid file descriptor")
    [Ev (C_timerfd_gettime (Timerfd._fd self))].
Proof.
  unfold fails_with, Timerfd.disabled, Timerfd.enabled. rewrite !run_bind, closed_get_current.
  split; reflexivity.
Qed.

Lemma closed_disable :
  fails_with Linux.kernel (Timerfd.disable self) st
    (ValueError "fd is not a valid file descriptor")
    [Ev (C_timerfd_gettime (Timerfd._fd self))].
Proof.
  unfold fails_with, Timerfd.disable. rewrite run_bind, closed_get_current.
  split; reflexivity.
Qed.

(** [wait] reaches the kernel only with a descriptor that [select.select]
    takes. *)
Lemma closed_wait :
  fails_with Linux.kernel (Timerfd.wait self) st
    (if Timerfd._fd self <? 0
     then ValueError ("file descriptor cannot be a negative integer ("
                      +:+ pretty (Timerfd._fd self) +:+ ")")
     else if FD_SETSIZE <=? Timerfd._fd self
     then ValueError "filedescriptor out of range in select()"
     else OSError_errno errno.EBADF)
    (if (Timerfd._fd self <? 0) || (FD_SETSIZE <=? Timerfd._fd self)
     then []
     else [Ev (select_select [Timerfd._fd self])]).
Proof.
  unfold fails_with, Timerfd.wait, selectable. rewrite Hfd. cbn [negb].
  destruct (Timerfd._fd self <? 0) eqn:Eneg; [split; reflexivity|].
  destruct (FD_SETSIZE <=? Timerfd._fd self) eqn:Ebig; [split; reflexivity|].
  cbn [bind call run kcall Linux.kernel Linux.answer orb]. unfold Linux.sys_select.
  cbn [existsb]. rewrite Eneg, Ebig. cbn [orb]. rewrite settle_lookup, Hclosed.
  cbn [fmap option_fmap option_map].
  rewrite bool_decide_eq_true_2 by reflexivity. split; reflexivity.
Qed.

Lemma closed_close :
  fails_with Linux.kernel (Timerfd.close self) st (OSError_errno errno.EBADF)
    [Ev (os_close (Timerfd._fd self))].
Proof.
  unfold fails_with, Timerfd.close.
  cbn [bind call run kcall Linux.kernel Linux.answer]. unfold Linux.sys_close.
  rewrite settle_lookup, Hclosed. split; reflexivity.
Qed.

Lemma closed_update (ts : TimerSpec.t) (absolute : bool) :
  exists msg : string,
    fails_with Linux.kernel (Timerfd._update self ts absolute) st (ValueError msg)
      [Ev (C_timerfd_settime (Timerfd._fd self) (if absolute then TFD_TIMER_ABSTIME else 0)
             (TimerSpec._timerspec ts))].
Proof.
  unfold fails_with, Timerfd._update, timerfd_settime, to_c_int. rewrite Hfd.
  replace (in_int (if absolute then TFD_TIMER_ABSTIME else 0)) with true
    by (destruct absolute; reflexivity).
  cbn [bind call run kcall Linux.kernel Linux.answer].
  unfold Linux.sys_timerfd_settime, TimerSpec.__timerspec__.
  rewrite settle_lookup, Hclosed. cbn [fmap option_fmap option_map].
  match goal with
  | |- context [if ?b then (-1, errno.EINVAL, _, _) else _] => destruct b
  end.
  - cbn [bind]. change (-1 <? 0) with true. change (errno.EINVAL =? errno.EINVAL) with true.
    cbv iota.
    destruct (tv_sec (it_interval (TimerSpec._timerspec ts)) >? 999999999);
      [|destruct (tv_nsec (it_value (TimerSpec._timerspec ts)) >? 999999999)];
      eexists; split; reflexivity.
  - eexists; split; reflexivity.
Qed.

Lemma closed_update_valid (ts : TimerSpec.t) (absolute : bool) :
  Linux.timespec_valid (it_value (TimerSpec._timerspec ts)) = true ->
  Linux.timespec_valid (it_interval (TimerSpec._timerspec ts)) = true ->
  outcome_of (run Linux.kernel (Timerfd._update self ts absolute) st) =
    Raises (ValueError "Unknown Error: 9").
Proof.
  intros Hv Hi. unfold Timerfd._update, timerfd_settime, to_c_int. rewrite Hfd.
  replace (in_int (if absolute then TFD_TIMER_ABSTIME else 0)) with true
    by (destruct absolute; reflexivity).
  cbn [bind call run kcall Linux.kernel Linux.answer].
  unfold Linux.sys_timerfd_settime, TimerSpec.__timerspec__.
  rewrite settle_lookup, Hclosed, Hv, Hi. cbn [fmap option_fmap option_map].
  destruct absolute; reflexivity.
Qed.

Lemma closed_set_one_off (seconds nano_seconds : pyval) (absolute : bool) :
  exists e : exn,
    outcome_of (run Linux.kernel (Timerfd.set_one_off self seconds nano_seconds absolute) st) =
      Raises e.
Proof.
  unfold Timerfd.set_one_off.
  apply bind_pure_raises; [exact I|]. intros timer.
  apply bind_pure_raises; [apply pure_setattr|]. intros timer1.
  apply bind_pure_raises; [apply pure_setattr|]. intros timer2.
  destruct (closed_update timer2 absolute) as (msg & Ho & _). eauto.
Qed.

Lemma closed_set_reoccuring (seconds nano_seconds next_seconds next_nano_seconds : pyval)
  (absolute : bool) :
  exists e : exn,
    outcome_of
      (run Linux.kernel
         (Timerfd.set_reoccuring self seconds nano_seconds next_seconds next_nano_seconds
            absolute) st) = Raises e.
Proof.
  unfold Timerfd.set_reoccuring.
  apply bind_pure_raises; [exact I|]. intros timer.
  apply bind_pure_raises; [apply pure_setattr|]. intros timer1.
  apply bind_pure_raises; [apply pure_setattr|]. intros timer2.
  apply bind_pure_raises.
  - destruct (truthy (py_or next_seconds next_nano_seconds));
      (apply pure_bind; [apply pure_setattr|intro; apply pure_setattr]).
  - intros timer3. destruct (closed_update timer3 absolute) as (msg & Ho & _). eauto.
Qed.

End Closed.

(** ** The states of the examples *)

(** [Timerfd()] in a process with the standard descriptors open returns
    [handle3] and leaves the kernel in [booted]. *)
Lemma Timerfd_boot :
  run Linux.kernel (Timerfd.__init__ CLOCK_REALTIME 0) Linux.boot =
    (Returns handle3, booted, [Ev (C_timerfd_create CLOCK_REALTIME 0)]).
Proof. vm_compute. reflexivity. Qed.

(** [set_reoccuring(1.5, next_seconds=2)] on [booted] leaves the kernel in
    [armed]. *)
Lemma set_reoccuring_armed :
  snd (fst (run Linux.kernel
              (Timerfd.set_reoccuring handle3
                 (PyFloat (S754_finite false 6755399441055744 (-52))) (PyInt 0)
                 (PyInt 2) (PyInt 0) false)
              booted)) = armed.
Proof. vm_compute. reflexivity. Qed.

(** * The specification, statement by statement *)

(** C1.  With integer arguments and no next values, [set_reoccuring(seconds,
    nano_seconds)] makes one call, [timerfd_settime] with an interval and an
    initial expiration of [{seconds, 0}]: [nano_seconds] is bound to the
    attribute [reoccuring_nano] of the instance, which is no property of the
    class, and never reaches the structure. *)
Theorem set_reoccuring_loses_nano_seconds (K : Kernel) (st : kstate K) (self : Timerfd.t)
  (seconds nano_seconds : Z) (absolute : bool) :
  in_int (Timerfd._fd self) = true ->
  in_long seconds = true -> in_long nano_seconds = true ->
  calls_of (run K (Timerfd.set_reoccuring self (PyInt seconds) (PyInt nano_seconds)
                     (PyInt 0) (PyInt 0) absolute) st) =
    [Ev (C_timerfd_settime (Timerfd._fd self) (if absolute then TFD_TIMER_ABSTIME else 0)
           {| it_interval := {| tv_sec := seconds; tv_nsec := 0 |};
              it_value := {| tv_sec := seconds; tv_nsec := 0 |} |})].
Proof.
  intros Hfd Hs Hn. rewrite set_reoccuring_ints by assumption.
  rewrite update_calls by exact Hfd. reflexivity.
Qed.

(** [set_reoccuring(1, 500)]: the 500 nanoseconds are lost. *)
Lemma set_reoccuring_loses_nano_seconds_witness :
  calls_of (run Linux.kernel
              (Timerfd.set_reoccuring handle3 (PyInt 1) (PyInt 500) (PyInt 0) (PyInt 0) false)
              booted) =
    [Ev (C_timerfd_settime 3 0
           {| it_interval := {| tv_sec := 1; tv_nsec := 0 |};
              it_value := {| tv_sec := 1; tv_nsec := 0 |} |})].
Proof.
  apply (set_reoccuring_loses_nano_seconds Linux.kernel booted handle3 1 500 false);
    reflexivity.
Defined.

(** After [set_reoccuring(1, 500)] the kernel's timer has a period of
    exactly one second. *)
Lemma set_reoccuring_one_second :
  Linux.files
    (snd (fst (run Linux.kernel
                 (Timerfd.set_reoccuring handle3 (PyInt 1) (PyInt 500) (PyInt 0) (PyInt 0)
                    false) booted))) !! 3 =
    Some (Linux.KTimer
            {| Linux.kt_clockid := CLOCK_REALTIME; Linux.kt_nonblock := false;
               Linux.kt_interval := 1000000000; Linux.kt_expiry := Some 1000000000%N;
               Linux.kt_ticks := 0 |}).
Proof. vm_compute. reflexivity. Qed.

(** ** The armed predicate *)

Lemma timespec_zero_iff (ts : timespec) :
  (tv_sec ts =? 0) && (tv_nsec ts =? 0) = true <-> ts = timespec_zero.
Proof.
  destruct ts as [s n]. unfold timespec_zero. cbn [tv_sec tv_nsec]. split.
  - intros H. apply andb_true_iff in H. destruct H as [Hs Hn].
    apply Z.eqb_eq in Hs, Hn. congruence.
  - intros H. injection H as -> ->. reflexivity.
Qed.

(** C2, amended.  For every timer specification whose initial-expiration
    field holds non-negative C [long]s, [__bool__] (and with it [enabled],
    and the negation [disabled]) returns, and is true exactly when that
    field differs from [{0,0}]; the interval field plays no part. *)
Theorem enabled_iff_initial_nonzero (self : TimerSpec.t) :
  0 <= TimerSpec.one_off_seconds self <= LONG_MAX ->
  0 <= TimerSpec.one_off_nano_seconds self <= LONG_MAX ->
  exists b : bool,
    TimerSpec.__bool__ self = Ret b /\
    TimerSpec.enabled self = Ret b /\
    TimerSpec.disabled self = Ret (negb b) /\
    (b = true <-> it_value (TimerSpec._timerspec self) <> timespec_zero).
Proof.
  intros Hs Hn.
  destruct (one_off_value self Hs Hn) as (f & Hf & Hz).
  exists (negb (F64.is_zero f)).
  assert (Hb : TimerSpec.__bool__ self = Ret (negb (F64.is_zero f))).
  { unfold TimerSpec.__bool__. rewrite Hf. cbn [bind]. destruct (F64.is_zero f); reflexivity. }
  repeat split.
  - exact Hb.
  - exact Hb.
  - unfold TimerSpec.disabled, TimerSpec.enabled. rewrite Hb. reflexivity.
  - intros H Hzero. rewrite Hz in H.
    apply timespec_zero_iff in Hzero.
    unfold TimerSpec.one_off_seconds, TimerSpec.one_off_nano_seconds in H.
    rewrite Hzero in H. discriminate H.
  - intros H. rewrite Hz. apply negb_true_iff.
    destruct ((TimerSpec.one_off_seconds self =? 0) && (TimerSpec.one_off_nano_seconds self =? 0))
      eqn:E; [|reflexivity].
    exfalso. apply H. apply timespec_zero_iff. exact E.
Qed.

(** A specification with a period of one second and an initial expiration
    of one nanosecond is armed. *)
Lemma enabled_iff_initial_nonzero_witness :
  exists b : bool,
    TimerSpec.__bool__
      {| TimerSpec._timerspec :=
           {| it_interval := {| tv_sec := 1; tv_nsec := 0 |};
              it_value := {| tv_sec := 0; tv_nsec := 1 |} |};
         TimerSpec.attrs := ∅ |} = Ret b /\ b = true.
Proof.
  destruct (enabled_iff_initial_nonzero
              {| TimerSpec._timerspec :=
                   {| it_interval := {| tv_sec := 1; tv_nsec := 0 |};
                      it_value := {| tv_sec := 0; tv_nsec := 1 |} |};
                 TimerSpec.attrs := ∅ |})
    as (b & Hb & _ & _ & Hiff).
  - cbn. unfold LONG_MAX. lia.
  - cbn. unfold LONG_MAX. lia.
  - exists b. split; [exact Hb|]. apply Hiff. discriminate.
Defined.

(** The float [0.9999999999] is the binary64 value nearest to
    9999999999 / 10000000000, and half of 1. *)
Lemma f_0_9999999999_eq : f_0_9999999999 = F64.div_Z 9999999999 10000000000.
Proof. reflexivity. Qed.

Lemma f_0_5_eq : f_0_5 = F64.div_Z 1 2.
Proof. reflexivity. Qed.

(** C2 as stated does not hold for every specification.  The component
    setters store negative numbers, and the float that [__bool__] tests is
    the sum of the seconds and the nanoseconds: with -1 second and
    1,000,000,000 nanoseconds, or 1 second and -1,000,000,000 nanoseconds,
    the initial field is not [{0,0}] and the specification counts as
    disarmed. *)
Remark enabled_with_negative_seconds :
  let cancel (sec nano : Z) : prog (TimerSpec.t * bool) :=
    (ts <- TimerSpec.one_off_seconds_setter zeroed (PyInt sec) ;;
     ts <- TimerSpec.one_off_nano_seconds_setter ts (PyInt nano) ;;
     b <- TimerSpec.enabled ts ;;
     Ret (ts, b)) in
  cancel (-1) 1000000000 =
    Ret ({| TimerSpec._timerspec :=
              {| it_interval := timespec_zero;
                 it_value := {| tv_sec := -1; tv_nsec := 1000000000 |} |};
            TimerSpec.attrs := ∅ |}, false) /\
  cancel 1 (-1000000000) =
    Ret ({| TimerSpec._timerspec :=
              {| it_interval := timespec_zero;
                 it_value := {| tv_sec := 1; tv_nsec := -1000000000 |} |};
            TimerSpec.attrs := ∅ |}, false) /\
  {| tv_sec := -1; tv_nsec := 1000000000 |} <> timespec_zero /\
  {| tv_sec := 1; tv_nsec := -1000000000 |} <> timespec_zero.
Proof. vm_compute. repeat split; discriminate. Qed.

(** C3.  Assigning the float [0.9999999999] to [one_off] stores 0 seconds
    and 1,000,000,000 nanoseconds: the rounded fraction reaches one second and
    is not carried.  The kernel refuses the structure, and [timerfd_settime]
    reports the nanoseconds of [it_value] as out of range. *)
Theorem one_off_setter_nanoseconds_reach_a_second :
  TimerSpec.setattr {| TimerSpec._timerspec := itimerspec_new; TimerSpec.attrs := ∅ |}
    "one_off" (PyFloat f_0_9999999999) =
    Ret {| TimerSpec._timerspec :=
             {| it_interval := timespec_zero;
                it_value := {| tv_sec := 0; tv_nsec := 1000000000 |} |};
           TimerSpec.attrs := ∅ |} /\
  outcome_of
    (run Linux.kernel
       (timerfd_settime 3
          (Struct {| it_interval := timespec_zero;
                     it_value := {| tv_sec := 0; tv_nsec := 1000000000 |} |}) 0)
       booted) =
    Raises (ValueError "Nano seconds in it_value is > 999,999,999").
Proof. split; vm_compute; reflexivity. Qed.


(** C4.  With integer arguments [set_one_off(seconds, nano_seconds)] makes
    one call, [timerfd_settime] with a zero interval and an initial expiration
    of [{nano_seconds, 0}]: the second assignment to [one_off] replaces the
    first, and the nanoseconds stand where the seconds should. *)
Theorem set_one_off_takes_nano_seconds_as_seconds (K : Kernel) (st : kstate K)
  (self : Timerfd.t) (seconds nano_seconds : Z) (absolute : bool) :
  in_int (Timerfd._fd self) = true ->
  in_long seconds = true -> in_long nano_seconds = true ->
  calls_of (run K (Timerfd.set_one_off self (PyInt seconds) (PyInt nano_seconds) absolute) st) =
    [Ev (C_timerfd_settime (Timerfd._fd self) (if absolute then TFD_TIMER_ABSTIME else 0)
           {| it_interval := timespec_zero;
              it_value := {| tv_sec := nano_seconds; tv_nsec := 0 |} |})].
Proof.
  intros Hfd Hs Hn. rewrite set_one_off_ints by assumption.
  rewrite update_calls by exact Hfd. reflexivity.
Qed.

(** [set_one_off(5)] submits an initial expiration of [{0, 0}]. *)
Lemma set_one_off_takes_nano_seconds_as_seconds_witness :
  calls_of (run Linux.kernel (Timerfd.set_one_off handle3 (PyInt 5) (PyInt 0) false) booted) =
    [Ev (C_timerfd_settime 3 0
           {| it_interval := timespec_zero; it_value := {| tv_sec := 0; tv_nsec := 0 |} |})].
Proof.
  apply (set_one_off_takes_nano_seconds_as_seconds Linux.kernel booted handle3 5 0 false);
    reflexivity.
Defined.

(** After [set_one_off(5)] the timer is disarmed, and [set_one_off(1, 500)]
    arms it for 500 seconds. *)
Lemma set_one_off_examples :
  Linux.next_expiry
    (snd (fst (run Linux.kernel (Timerfd.set_one_off handle3 (PyInt 5) (PyInt 0) false)
                 booted))) 3 = None /\
  Linux.next_expiry
    (snd (fst (run Linux.kernel (Timerfd.set_one_off handle3 (PyInt 1) (PyInt 500) false)
                 booted))) 3 = Some 500000000000%N.
Proof. vm_compute. split; reflexivity. Qed.

(** The test [not clock_type & (CLOCK_MONOTONIC|CLOCK_REALTIME)] looks at
    the lowest bit only. *)
Lemma land_1_even (a : Z) : (Z.land a 1 =? 0) = Z.even a.
Proof.
  change 1 with (Z.ones 1) at 1. rewrite Z.land_ones by lia. change (2 ^ 1) with 2.
  destruct (Z.even a) eqn:E.
  - apply Z.even_spec in E. destruct E as [k ->].
    rewrite Z.mul_comm, Z.mod_mul by lia. reflexivity.
  - rewrite <- Z.negb_odd in E. apply negb_false_iff, Z.odd_spec in E.
    destruct E as [k ->].
    rewrite Z.add_comm, Z.mul_comm, Z.mod_add by lia. reflexivity.
Qed.

(** C5.  When [timerfd_create] fails with [ENODEV], [timerfd] raises
    [NameError]: the handler names [OsError], which nothing defines.  When it
    fails with [EINVAL], the clock is blamed exactly when [clock_type] is even:
    for [CLOCK_REALTIME] whatever was wrong, and never for an unsupported clock
    with an odd number. *)
Theorem ENODEV_and_EINVAL_are_mismapped (K : Kernel) (st st' : kstate K)
  (clock_type flags ret err : Z) :
  in_int clock_type = true -> in_int flags = true ->
  kcall K _ (C_timerfd_create clock_type flags) st = Some ((ret, err), st') ->
  ret < 0 ->
  (err = errno.ENODEV ->
   outcome_of (run K (timerfd clock_type flags) st) = Raises (NameError "OsError")) /\
  (err = errno.EINVAL ->
   outcome_of (run K (timerfd clock_type flags) st) =
     Raises (ValueError
               (if Z.even clock_type
                then "clock_type is not one of CLOCK_MONOTONIC or CLOCK_REALTIME"
                else "Invalid value in flags"))).
Proof.
  intros Hc Hf Hk Hret. unfold timerfd, to_c_int. rewrite Hc, Hf.
  cbn [bind call run]. rewrite Hk. cbn [bind].
  apply Z.ltb_lt in Hret. rewrite Hret.
  split; intros ->.
  - reflexivity.
  - change (errno.EINVAL =? errno.EINVAL) with true. cbv iota.
    change (Z.lor CLOCK_MONOTONIC CLOCK_REALTIME) with 1.
    rewrite land_1_even.
    destruct (Z.even clock_type); reflexivity.
Qed.

(** [ENODEV] from a kernel that fails, and [timerfd(CLOCK_REALTIME, 4)],
    whose flags the kernel refuses. *)
Lemma ENODEV_and_EINVAL_are_mismapped_witness :
  outcome_of (run (failing errno.ENODEV) (timerfd CLOCK_REALTIME 0) tt) =
    Raises (NameError "OsError") /\
  outcome_of (run Linux.kernel (timerfd CLOCK_REALTIME 4) Linux.boot) =
    Raises (ValueError "clock_type is not one of CLOCK_MONOTONIC or CLOCK_REALTIME").
Proof.
  split.
  - apply (ENODEV_and_EINVAL_are_mismapped (failing errno.ENODEV) tt tt CLOCK_REALTIME 0
             (-1) errno.ENODEV); reflexivity.
  - apply (ENODEV_and_EINVAL_are_mismapped Linux.kernel Linux.boot Linux.boot
             CLOCK_REALTIME 4 (-1) errno.EINVAL); reflexivity.
Defined.

(** [timerfd_settime] has the same handler for [ENODEV]; an unsupported
    clock with an odd number is reported as a flags error. *)
Lemma ENODEV_and_EINVAL_examples :
  outcome_of (run (failing errno.ENODEV) (timerfd_settime 3 (Struct itimerspec_new) 0) tt) =
    Raises (NameError "OsError") /\
  outcome_of (run Linux.kernel (timerfd 3 0) Linux.boot) =
    Raises (ValueError "Invalid value in flags").
Proof. split; vm_compute; reflexivity. Qed.

(** C6 as stated does not hold: a handle that was closed still reaches the
    kernel.  Once the kernel has given its descriptor to a second timer, the
    closed handle reads the setting of that timer; and a second [close] is
    one more call of [os.close]. *)
Lemma closed_handle_reaches_the_kernel :
  let reuse :=
    (h <- Timerfd.__init__ CLOCK_REALTIME 0 ;;
     Timerfd.close h ;;
     h' <- Timerfd.__init__ CLOCK_MONOTONIC 0 ;;
     Timerfd._update h'
       {| TimerSpec._timerspec :=
            {| it_interval := timespec_zero; it_value := {| tv_sec := 7; tv_nsec := 0 |} |};
          TimerSpec.attrs := ∅ |} false ;;
     Timerfd.get_current h) in
  let twice :=
    (h <- Timerfd.__init__ CLOCK_REALTIME 0 ;;
     Timerfd.close h ;;
     Timerfd.close h) in
  (outcome_of (run Linux.kernel reuse Linux.boot) =
     Returns {| TimerSpec._timerspec :=
                  {| it_interval := timespec_zero;
                     it_value := {| tv_sec := 7; tv_nsec := 0 |} |};
                TimerSpec.attrs := ∅ |} /\
   calls_of (run Linux.kernel reuse Linux.boot) =
     [Ev (C_timerfd_create CLOCK_REALTIME 0); Ev (os_close 3);
      Ev (C_timerfd_create CLOCK_MONOTONIC 0);
      Ev (C_timerfd_settime 3 0
            {| it_interval := timespec_zero; it_value := {| tv_sec := 7; tv_nsec := 0 |} |});
      Ev (C_timerfd_gettime 3)]) /\
  (outcome_of (run Linux.kernel twice Linux.boot) = Raises (OSError_errno errno.EBADF) /\
   calls_of (run Linux.kernel twice Linux.boot) =
     [Ev (C_timerfd_create CLOCK_REALTIME 0); Ev (os_close 3); Ev (os_close 3)]).
Proof. vm_compute. repeat split; reflexivity. Qed.

(** C6, amended.  [close] hands the descriptor to [os.close] and keeps no
    state.  Every later operation of the handle runs as it would before the
    [close], on the same descriptor, and, while the kernel has not opened
    that descriptor again, ends in an exception: [ValueError] after their
    call from the inspecting operations and from [_update], the [OSError]
    of the failed call from [wait] and from a second [close], and an
    exception from [set_one_off] and [set_reoccuring], whose arguments may
    be refused before [_update] is reached.  [wait] on a descriptor that
    [select.select] does not take (negative, or [FD_SETSIZE] and above)
    makes no call: it raises the [ValueError] of [select.select], as it
    does on a handle that is open. *)
Theorem close_keeps_no_state (self : Timerfd.t) (st : Linux.state) (f : Linux.kfile) :
  in_int (Timerfd._fd self) = true ->
  Linux.files st !! Timerfd._fd self = Some f ->
  let fd := Timerfd._fd self in
  exists st' : Linux.state,
    run Linux.kernel (Timerfd.close self) st = (Returns tt, st', [Ev (os_close fd)]) /\
    Linux.files st' !! fd = None /\
    fails_with Linux.kernel (Timerfd.get_current self) st'
      (ValueError "fd is not a valid file descriptor") [Ev (C_timerfd_gettime fd)] /\
    fails_with Linux.kernel (Timerfd.enabled self) st'
      (ValueError "fd is not a valid file descriptor") [Ev (C_timerfd_gettime fd)] /\
    fails_with Linux.kernel (Timerfd.disabled self) st'
      (ValueError "fd is not a valid file descriptor") [Ev (C_timerfd_gettime fd)] /\
    fails_with Linux.kernel (Timerfd.disable self) st'
      (ValueError "fd is not a valid file descriptor") [Ev (C_timerfd_gettime fd)] /\
    fails_with Linux.kernel (Timerfd.wait self) st'
      (if fd <? 0
       then ValueError ("file descriptor cannot be a negative integer ("
                        +:+ pretty fd +:+ ")")
       else if FD_SETSIZE <=? fd then ValueError "filedescriptor out of range in select()"
       else OSError_errno errno.EBADF)
      (if (fd <? 0) || (FD_SETSIZE <=? fd) then [] else [Ev (select_select [fd])]) /\
    fails_with Linux.kernel (Timerfd.close self) st'
      (OSError_errno errno.EBADF) [Ev (os_close fd)] /\
    (forall (ts : TimerSpec.t) (absolute : bool),
       exists msg : string,
         fails_with Linux.kernel (Timerfd._update self ts absolute) st' (ValueError msg)
           [Ev (C_timerfd_settime fd (if absolute then TFD_TIMER_ABSTIME else 0)
                  (TimerSpec._timerspec ts))]) /\
    (forall (seconds nano_seconds : pyval) (absolute : bool),
       exists e : exn,
         outcome_of
           (run Linux.kernel (Timerfd.set_one_off self seconds nano_seconds absolute) st') =
           Raises e) /\
    (forall (seconds nano_seconds next_seconds next_nano_seconds : pyval) (absolute : bool),
       exists e : exn,
         outcome_of
           (run Linux.kernel
              (Timerfd.set_reoccuring self seconds nano_seconds next_seconds
                 next_nano_seconds absolute) st') = Raises e).
Proof.
  intros Hfd Hopen fd.
  set (st' := {| Linux.now := Linux.now (Linux.settle st);
                 Linux.nofile := Linux.nofile (Linux.settle st);
                 Linux.files := delete fd (Linux.files (Linux.settle st)) |}).
  assert (Hclosed : Linux.files st' !! fd = None) by apply lookup_delete_eq.
  exists st'. split; [|split; [exact Hclosed|]].
  - unfold Timerfd.close. cbn [bind call run kcall Linux.kernel Linux.answer].
    unfold Linux.sys_close. rewrite settle_lookup, Hopen. reflexivity.
  - split.
    { split; rewrite (closed_get_current st' self Hfd Hclosed); reflexivity. }
    split; [apply (closed_enabled st' self Hfd Hclosed)|].
    split; [apply (closed_disabled st' self Hfd Hclosed)|].
    split; [apply (closed_disable st' self Hfd Hclosed)|].
    split; [apply (closed_wait st' self Hfd Hclosed)|].
    split; [apply (closed_close st' self Hclosed)|].
    split; [apply (closed_update st' self Hfd Hclosed)|].
    split; [apply (closed_set_one_off st' self Hfd Hclosed)|].
    apply (closed_set_reoccuring st' self Hfd Hclosed).
Qed.

(** The handle on descriptor 3 of [booted]: after [close], [get_current]
    fails with the [ValueError] of a bad descriptor. *)
Lemma close_keeps_no_state_witness :
  exists st' : Linux.state,
    run Linux.kernel (Timerfd.close handle3) booted = (Returns tt, st', [Ev (os_close 3)]) /\
    fails_with Linux.kernel (Timerfd.get_current handle3) st'
      (ValueError "fd is not a valid file descriptor") [Ev (C_timerfd_gettime 3)].
Proof.
  destruct (close_keeps_no_state handle3 booted
              (Linux.KTimer {| Linux.kt_clockid := CLOCK_REALTIME; Linux.kt_nonblock := false;
                               Linux.kt_interval := 0; Linux.kt_expiry := None;
                               Linux.kt_ticks := 0 |}))
    as (st' & Hclose & _ & Hget & _).
  - reflexivity.
  - reflexivity.
  - exists st'. split; [exact Hclose|exact Hget].
Defined.

(** C7.  When [timerfd_settime] fails with [EINVAL], the interval is
    blamed exactly when its seconds exceed 999,999,999; its nanoseconds are
    not looked at.  Otherwise the initial expiration is blamed when its
    nanoseconds exceed 999,999,999, and the flags or the descriptor in every
    other case. *)
Theorem settime_tests_interval_seconds (K : Kernel) (st st' : kstate K)
  (fd flags ret : Z) (spec old : itimerspec) :
  in_int fd = true -> in_int flags = true ->
  kcall K _ (C_timerfd_settime fd flags spec) st = Some ((ret, errno.EINVAL, old), st') ->
  ret < 0 ->
  outcome_of (run K (timerfd_settime fd (Struct spec) flags) st) =
    Raises (ValueError
              (if tv_sec (it_interval spec) >? 999999999
               then "Nano seconds in it_interval is > 999,999,999"
               else if tv_nsec (it_value spec) >? 999999999
                    then "Nano seconds in it_value is > 999,999,999"
                    else "flags is invalid or fd not a timerfd")).
Proof.
  intros Hfd Hfl Hk Hret. unfold timerfd_settime, to_c_int. rewrite Hfd, Hfl.
  cbn [bind call run]. rewrite Hk. cbn [bind].
  apply Z.ltb_lt in Hret. rewrite Hret.
  change (errno.EINVAL =? errno.EINVAL) with true. cbv iota.
  destruct (tv_sec (it_interval spec) >? 999999999);
    [|destruct (tv_nsec (it_value spec) >? 999999999)]; reflexivity.
Qed.

(** An interval of 1,000,000,000 nanoseconds, which the kernel refuses, is
    reported as a problem of the flags or the descriptor. *)
Lemma settime_tests_interval_seconds_witness :
  outcome_of
    (run Linux.kernel
       (timerfd_settime 3
          (Struct {| it_interval := {| tv_sec := 0; tv_nsec := 1000000000 |};
                     it_value := {| tv_sec := 1; tv_nsec := 0 |} |}) 0)
       booted) =
    Raises (ValueError "flags is invalid or fd not a timerfd").
Proof.
  apply (settime_tests_interval_seconds Linux.kernel booted (Linux.settle booted) 3 0 (-1)
           {| it_interval := {| tv_sec := 0; tv_nsec := 1000000000 |};
              it_value := {| tv_sec := 1; tv_nsec := 0 |} |} itimerspec_new);
    reflexivity.
Defined.

(** An interval of 1,000,000,000 seconds that is refused for its flags is
    reported as a nanosecond overflow. *)
Lemma settime_interval_seconds_example :
  outcome_of
    (run Linux.kernel
       (timerfd_settime 3
          (Struct {| it_interval := {| tv_sec := 1000000000; tv_nsec := 0 |};
                     it_value := {| tv_sec := 1; tv_nsec := 0 |} |}) 4)
       booted) =
    Raises (ValueError "Nano seconds in it_interval is > 999,999,999").
Proof. vm_compute. reflexivity. Qed.

(** C8.  On a handle whose descriptor is an open timer, [disable] asks the
    kernel for the current setting [cur], then submits, without the
    absolute-time flag, [cur] with both components of its initial expiration
    zeroed and its interval as read.  The call succeeds and leaves the timer
    disarmed: [enabled] then returns [False], and [get_current] returns a
    setting whose initial expiration is [{0, 0}] and whose interval is the one
    read. *)
Theorem disable_zeroes_initial_only (self : Timerfd.t) (st : Linux.state) (t : Linux.ktimer) :
  in_int (Timerfd._fd self) = true ->
  Linux.files st !! Timerfd._fd self = Some (Linux.KTimer t) ->
  let fd := Timerfd._fd self in
  let cur := Linux.current (Linux.now st) (Linux.catch_up (Linux.now st) t) in
  exists st' : Linux.state,
    kcall Linux.kernel _ (C_timerfd_gettime fd) st = Some ((0, 0, cur), Linux.settle st) /\
    run Linux.kernel (Timerfd.disable self) st =
      (Returns tt, st',
       [Ev (C_timerfd_gettime fd);
        Ev (C_timerfd_settime fd 0
              {| it_interval := it_interval cur; it_value := timespec_zero |})]) /\
    Linux.next_expiry st' fd = None /\
    outcome_of (run Linux.kernel (Timerfd.enabled self) st') = Returns false /\
    exists ts : TimerSpec.t,
      outcome_of (run Linux.kernel (Timerfd.get_current self) st') = Returns ts /\
      it_value (TimerSpec._timerspec ts) = timespec_zero /\
      it_interval (TimerSpec._timerspec ts) = it_interval cur.
Proof.
  intros Hfd H fd cur.
  set (t' := Linux.catch_up (Linux.now st) t).
  assert (H' : Linux.files (Linux.settle st) !! fd = Some (Linux.KTimer t')).
  { rewrite settle_lookup. unfold fd. rewrite H. reflexivity. }
  set (spec := {| it_interval := it_interval cur; it_value := timespec_zero |}).
  set (t2 := Linux.arm (Linux.now st) 0 spec (Linux.catch_up (Linux.now st) t')).
  set (st' := Linux.set_file (Linux.settle (Linux.settle st)) fd (Linux.KTimer t2)).
  assert (Hopen : Linux.files st' !! fd = Some (Linux.KTimer t2)).
  { unfold st', Linux.set_file. cbn [Linux.files]. apply lookup_insert_eq. }
  assert (Hdis : Linux.catch_up (Linux.now st') t2 = t2)
    by (apply catch_up_disarmed; reflexivity).
  exists st'. split; [apply answer_gettime; exact H|]. split; [|split; [|split]].
  - unfold Timerfd.disable. rewrite run_bind, (get_current_run st self t Hfd H).
    cbn [bind TimerSpec.disable]. rewrite run_bind.
    cbn [TimerSpec.disable]. change (TimerSpec.disable ?x)
      with (Ret {| TimerSpec._timerspec :=
                     {| it_interval := it_interval (TimerSpec._timerspec x);
                        it_value := timespec_zero |};
                   TimerSpec.attrs := TimerSpec.attrs x |}).
    cbn [run TimerSpec._timerspec TimerSpec.attrs]. rewrite run_bind.
    rewrite (update_run (Linux.settle st) self _ false t' Hfd H').
    + reflexivity.
    + reflexivity.
    + cbn [TimerSpec._timerspec it_interval Linux.current]. apply of_ns_valid.
  - unfold Linux.next_expiry. rewrite Hopen. reflexivity.
  - unfold Timerfd.enabled. rewrite run_bind, (get_current_run st' self t2 Hfd Hopen).
    rewrite Hdis. rewrite enabled_zero by reflexivity. reflexivity.
  - eexists. rewrite (get_current_run st' self t2 Hfd Hopen), Hdis.
    split; [reflexivity|]. split; [reflexivity|].
    cbn [TimerSpec._timerspec it_interval Linux.current]. unfold t2.
    cbn [Linux.arm Linux.kt_interval]. unfold spec. cbn [it_interval Linux.current cur].
    rewrite to_ns_of_ns, !ktime_idem. unfold cur. cbn [it_interval Linux.current].
    reflexivity.
Qed.

(** The armed timer of [armed], with its period of 1.5 s, is disabled. *)
Lemma disable_zeroes_initial_only_witness :
  exists st' : Linux.state,
    run Linux.kernel (Timerfd.disable handle3) armed =
      (Returns tt, st',
       [Ev (C_timerfd_gettime 3);
        Ev (C_timerfd_settime 3 0
              {| it_interval := {| tv_sec := 1; tv_nsec := 500000000 |};
                 it_value := timespec_zero |})]) /\
    outcome_of (run Linux.kernel (Timerfd.enabled handle3) st') = Returns false.
Proof.
  destruct (disable_zeroes_initial_only handle3 armed
              {| Linux.kt_clockid := CLOCK_REALTIME; Linux.kt_nonblock := false;
                 Linux.kt_interval := 1500000000; Linux.kt_expiry := Some 2000000000%N;
                 Linux.kt_ticks := 0 |})
    as (st' & _ & Hrun & _ & Hen & _).
  - reflexivity.
  - reflexivity.
  - exists st'. split; [exact Hrun|exact Hen].
Defined.

Lemma pending_after_expiry (e : N) (t : Linux.ktimer) :
  Linux.pending t = 0%N -> Linux.kt_expiry t = Some e ->
  Linux.pending (Linux.catch_up e t) = 1%N.
Proof.
  unfold Linux.pending. intros Hp He. rewrite (catch_up_at_expiry e t He).
  rewrite N.Div0.add_mod, Hp. reflexivity.
Qed.




(** A timer armed by [set_reoccuring(0.5)] and left alone for 1.7 s has
    expired three times: [wait] returns 3, and the next [wait] returns 1 at
    the fourth expiration, 2 s after the timer was armed. *)
Lemma wait_after_a_delay :
  let st1 := snd (fst (run Linux.kernel
                         (Timerfd.set_reoccuring handle3 (PyFloat f_0_5) (PyInt 0)
                            (PyInt 0) (PyInt 0) false) booted)) in
  let r := run Linux.kernel
             (a <- Timerfd.wait handle3 ;; b <- Timerfd.wait handle3 ;; Ret (a, b))
             (Linux.elapse 1700000000 st1) in
  outcome_of r = Returns (3, 1) /\ Linux.now (snd (fst r)) = 2000000000%N.
Proof. vm_compute. split; reflexivity. Qed.

(** C10 as stated does not hold for every call: the assignment of
    [reoccuring] comes before the first of the four names, and that of
    [one_off] before the last two, and an exception of theirs is the one
    raised.  [TimerSpec(reoccuring=nan, reoccuring_seconds=1)] raises
    [ValueError], [TimerSpec(one_off=2 ** 63, one_off_seconds=1)]
    [OverflowError]. *)
Lemma init_raises_before_the_undefined_name :
  TimerSpec.__init__ (PyFloat S754_nan) (PyInt 1) PyNone PyNone PyNone PyNone None =
    Raise (ValueError "cannot convert float NaN to integer") /\
  TimerSpec.__init__ PyNone PyNone PyNone (PyInt (2 ^ 63)) (PyInt 1) PyNone None =
    Raise OverflowError.
Proof. split; reflexivity. Qed.

(** C10, amended.  The constructor copies [timerspec], assigns [reoccuring]
    when it is true, then raises [NameError] when [reoccuring_seconds] or
    [reoccuring_nano_seconds] is true (the body names [reoccuring_sec] and
    [reoccuring_nano], which nothing defines); otherwise it assigns [one_off]
    when it is true, then raises [NameError] when [one_off_seconds] or
    [one_off_nano_seconds] is true ([one_off_sec], [one_off_nano]).  So with
    one of the four keywords true no object is returned and no field is set
    from it; the exception is the [NameError] unless an assignment before it
    raised; and with none of them true the object is the copy of [timerspec]
    with [reoccuring] and [one_off] assigned through their setters. *)
Theorem init_field_keywords_raise_NameError
  (reoccuring reoccuring_seconds reoccuring_nano_seconds : pyval)
  (one_off one_off_seconds one_off_nano_seconds : pyval) (timerspec : option itimerspec) :
  let init := TimerSpec.__init__ reoccuring reoccuring_seconds reoccuring_nano_seconds
                one_off one_off_seconds one_off_nano_seconds timerspec in
  let copy := {| TimerSpec._timerspec := match timerspec with
                                         | Some ts => ts
                                         | None => itimerspec_new
                                         end;
                 TimerSpec.attrs := ∅ |} in
  let field := truthy reoccuring_seconds || truthy reoccuring_nano_seconds ||
               truthy one_off_seconds || truthy one_off_nano_seconds in
  let name := undefined_local reoccuring_seconds reoccuring_nano_seconds
                one_off_seconds one_off_nano_seconds in
  init =
    (self <- assigned TimerSpec.reoccuring_setter copy reoccuring ;;
     if truthy reoccuring_seconds then Raise (NameError "reoccuring_sec")
     else if truthy reoccuring_nano_seconds then Raise (NameError "reoccuring_nano")
     else
       self <- assigned TimerSpec.one_off_setter self one_off ;;
       if truthy one_off_seconds then Raise (NameError "one_off_sec")
       else if truthy one_off_nano_seconds then Raise (NameError "one_off_nano")
       else Ret self) /\
  (field = true -> exists e : exn, init = Raise e) /\
  (field = true ->
   forall a : TimerSpec.t,
     assigned TimerSpec.reoccuring_setter copy reoccuring = Ret a ->
     (truthy reoccuring_seconds || truthy reoccuring_nano_seconds = true ->
      init = Raise (NameError name)) /\
     (forall b : TimerSpec.t,
        assigned TimerSpec.one_off_setter a one_off = Ret b ->
        init = Raise (NameError name))) /\
  (field = false ->
   init = (self <- assigned TimerSpec.reoccuring_setter copy reoccuring ;;
           assigned TimerSpec.one_off_setter self one_off)).
Proof.
  intros init copy field name.
  assert (Heq : init =
    (self <- assigned TimerSpec.reoccuring_setter copy reoccuring ;;
     if truthy reoccuring_seconds then Raise (NameError "reoccuring_sec")
     else if truthy reoccuring_nano_seconds then Raise (NameError "reoccuring_nano")
     else
       self <- assigned TimerSpec.one_off_setter self one_off ;;
       if truthy one_off_seconds then Raise (NameError "one_off_sec")
       else if truthy one_off_nano_seconds then Raise (NameError "one_off_nano")
       else Ret self)).
  { unfold init, TimerSpec.__init__, lookup_name. cbv zeta.
    rewrite !lookup_insert_ne by discriminate. rewrite !lookup_empty.
    replace (match timerspec with
             | Some ts => TimerSpec.with_struct _ _
             | None => _
             end) with copy by (unfold copy; destruct timerspec as [[[] []]|]; reflexivity).
    change (if truthy reoccuring then TimerSpec.setattr copy "reoccuring" reoccuring
            else Ret copy)
      with (assigned TimerSpec.reoccuring_setter copy reoccuring).
    apply bind_pure_ext.
    { apply (pure_assigned "reoccuring"). }
    intros self1.
    destruct (truthy reoccuring_seconds); [reflexivity|]. cbn [bind].
    destruct (truthy reoccuring_nano_seconds); [reflexivity|]. cbn [bind].
    change (if truthy one_off then TimerSpec.setattr self1 "one_off" one_off else Ret self1)
      with (assigned TimerSpec.one_off_setter self1 one_off).
    apply bind_pure_ext.
    { apply (pure_assigned "one_off"). }
    intros self2.
    destruct (truthy one_off_seconds); [reflexivity|]. cbn [bind].
    destruct (truthy one_off_nano_seconds); reflexivity. }
  split; [exact Heq|]. rewrite Heq. unfold field, name, undefined_local.
  split; [|split].
  - intros Hf.
    destruct (assigned TimerSpec.reoccuring_setter copy reoccuring) as [a|e|X c k] eqn:Ea;
      cbn [bind]; [|eauto|].
    + destruct (truthy reoccuring_seconds); [eauto|].
      destruct (truthy reoccuring_nano_seconds); [eauto|].
      destruct (assigned TimerSpec.one_off_setter a one_off) as [b|e|X c k] eqn:Eb;
        cbn [bind]; [|eauto|].
      * destruct (truthy one_off_seconds); [eauto|].
        destruct (truthy one_off_nano_seconds); [eauto|discriminate Hf].
      * exfalso. pose proof (pure_assigned "one_off" a one_off) as Hp.
        change (pure (assigned TimerSpec.one_off_setter a one_off)) in Hp.
        rewrite Eb in Hp. exact Hp.
    + exfalso. pose proof (pure_assigned "reoccuring" copy reoccuring) as Hp.
      change (pure (assigned TimerSpec.reoccuring_setter copy reoccuring)) in Hp.
      rewrite Ea in Hp. exact Hp.
  - intros Hf a ->. cbn [bind]. split.
    + intros Hr. destruct (truthy reoccuring_seconds); [reflexivity|].
      destruct (truthy reoccuring_nano_seconds); [reflexivity|discriminate Hr].
    + intros b ->. cbn [bind].
      destruct (truthy reoccuring_seconds); [reflexivity|].
      destruct (truthy reoccuring_nano_seconds); [reflexivity|].
      destruct (truthy one_off_seconds); [reflexivity|].
      destruct (truthy one_off_nano_seconds); [reflexivity|discriminate Hf].
  - intros Hf. apply orb_false_iff in Hf as [Hf Hons]. apply orb_false_iff in Hf as [Hf Hos].
    apply orb_false_iff in Hf as [Hrs Hrns]. rewrite Hrs, Hrns, Hos, Hons.
    apply bind_pure_ext; [apply (pure_assigned "reoccuring")|]. intros a.
    apply bind_pure_Ret. apply (pure_assigned "one_off").
Qed.

(** [TimerSpec(reoccuring=2, one_off_nano_seconds=7)] raises the
    [NameError] of [one_off_nano]; [TimerSpec(reoccuring=2, one_off=3)]
    holds both. *)
Lemma init_field_keywords_raise_NameError_witness :
  TimerSpec.__init__ (PyInt 2) PyNone PyNone PyNone PyNone (PyInt 7) None =
    Raise (NameError "one_off_nano") /\
  TimerSpec.__init__ (PyInt 2) PyNone PyNone (PyInt 3) PyNone PyNone None =
    Ret {| TimerSpec._timerspec :=
             {| it_interval := {| tv_sec := 2; tv_nsec := 0 |};
                it_value := {| tv_sec := 3; tv_nsec := 0 |} |};
           TimerSpec.attrs := ∅ |}.
Proof.
  destruct (init_field_keywords_raise_NameError
              (PyInt 2) PyNone PyNone PyNone PyNone (PyInt 7) None) as (_ & _ & Hname & _).
  destruct (init_field_keywords_raise_NameError
              (PyInt 2) PyNone PyNone (PyInt 3) PyNone PyNone None) as (_ & _ & _ & Hnone).
  split.
  - exact (proj2 (Hname eq_refl _ eq_refl) _ eq_refl).
  - exact (Hnone eq_refl).
Defined.

(** * More of the code

    Properties of the functions and methods beyond the statements above:
    what the float setters store, what the getters read, how the constructors
    and the arming methods behave, and how a handle and the Linux model of
    the kernel work together. *)

(** ** Roundings that are exact, or bounded *)

Lemma shl_align_value (mx : positive) (ex ex' : Z) :
  exists (mz : positive) (ez : Z),
    shl_align mx ex ex' = (mz, ez) /\ ez = Z.min ex ex' /\
    Zpos mz = Zpos mx * 2 ^ (ex - ez).
Proof.
  unfold shl_align. destruct (ex' - ex) as [|d|d] eqn:E.
  - exists mx, ex. repeat split; try lia.
    replace (ex - ex) with 0 by lia. lia.
  - exists mx, ex. repeat split; try lia.
    replace (ex - ex) with 0 by lia. lia.
  - exists (Pos.iter xO mx d), ex'. repeat split; try lia.
    rewrite iter_xO_pow2. f_equal. f_equal. lia.
Qed.

Lemma shr_fexp_none (m e : Z) :
  fexp 53 1024 (Zdigits2 m + e) - e = 0 ->
  shr_fexp 53 1024 m e loc_Exact = (shr_record_of_loc m loc_Exact, e).
Proof. intros H. unfold shr_fexp. rewrite H. reflexivity. Qed.

(** A mantissa of at most 53 bits, with an exponent a binary64 value can
    have, is kept as it is: it is only aligned to its canonical exponent. *)
Lemma binary_round_exact (sx : bool) (mx : positive) (ex : Z) :
  Z.log2 (Zpos mx) <= 52 -> -1074 <= ex <= 971 ->
  exists (mz : positive) (ez : Z),
    binary_round 53 1024 sx mx ex = S754_finite sx mz ez /\
    -1074 <= ez <= ex /\ Zpos mz = Zpos mx * 2 ^ (ex - ez).
Proof.
  intros Hd He. unfold binary_round.
  pose proof (Z.log2_nonneg (Zpos mx)) as Hl.
  destruct (shl_align_value mx ex (fexp 53 1024 (Zpos (digits2_pos mx) + ex)))
    as (mz & ez & -> & Hez & Hmz).
  change (Zpos (digits2_pos mx)) with (Zdigits2 (Zpos mx)) in Hez.
  rewrite Zdigits2_log2 in Hez by lia. unfold fexp, emin in Hez.
  assert (Hlog : Z.log2 (Zpos mz) = Z.log2 (Zpos mx) + (ex - ez)).
  { rewrite Hmz, Z.log2_mul_pow2 by lia. lia. }
  assert (Hn : fexp 53 1024 (Zdigits2 (Zpos mz) + ez) - ez = 0).
  { rewrite Zdigits2_log2 by lia. unfold fexp, emin. lia. }
  unfold binary_round_aux. rewrite (shr_fexp_none _ _ Hn).
  cbn [shr_record_of_loc shr_m loc_of_shr_record round_nearest_even].
  rewrite (shr_fexp_none _ _ Hn). cbn [shr_record_of_loc shr_m].
  replace (ez <=? 1024 - 53) with true by (symmetry; apply Z.leb_le; lia).
  exists mz, ez. repeat split; try lia.
Qed.

(** The rounding of a positive value strictly below the integer [N], when
    the exponents stay negative or zero: the result is finite and at most
    [N]. *)
Lemma round_aux_below (sx : bool) (mx ex N : Z) (lx : location) :
  0 < mx -> 0 < N -> -1074 < Zdigits2 mx + ex -> Zdigits2 mx + ex <= 52 -> ex <= 0 ->
  mx < N * 2 ^ (- ex) ->
  exists (m : positive) (e : Z),
    e <= 0 /\ Zpos m <= N * 2 ^ (- e) /\
    binary_round_aux 53 1024 sx mx ex lx = S754_finite sx m e.
Proof.
  intros Hm HN Hd Hd' Hex Hlt. unfold binary_round_aux.
  destruct (shr_fexp 53 1024 mx ex lx) as [mrs' e'] eqn:E1.
  pose proof (shr_fexp_spec _ _ _ _ _ Hm E1) as S1. cbv zeta in S1.
  rewrite Zdigits2_log2 in * by lia.
  pose proof (Z.log2_nonneg mx) as Hl.
  assert (H1 : 0 < shr_m mrs' /\ Z.log2 (shr_m mrs') + e' = Z.log2 mx + ex /\
               -1074 <= e' <= 0 /\ shr_m mrs' < N * 2 ^ (- e')).
  { unfold fexp, emin in S1. destruct S1 as [(Hn & -> & ->)|(Hn & -> & ->)].
    - lia.
    - set (n := Z.max (Z.log2 mx + 1 + ex - 53) (3 - 1024 - 53) - ex) in *.
      destruct (div_pow2_pos mx n) as [Hp Hlog]; [lia|lia|].
      repeat split; try lia.
      apply Z.div_lt_upper_bound; [apply Z.pow_pos_nonneg; lia|].
      replace (- ex) with (n + - (ex + n)) in Hlt by lia.
      rewrite Z.pow_add_r in Hlt by lia. lia. }
  destruct H1 as (Hp & Hs & He' & Hb).
  set (m1 := round_nearest_even (shr_m mrs') (loc_of_shr_record mrs')).
  pose proof (round_nearest_even_bounds (shr_m mrs') (loc_of_shr_record mrs')) as Hr.
  fold m1 in Hr.
  assert (Hm1 : 0 < m1) by lia.
  assert (Hl1 : Z.log2 (shr_m mrs') <= Z.log2 m1 <= Z.log2 (shr_m mrs') + 1).
  { split.
    - apply Z.log2_le_mono; lia.
    - transitivity (Z.log2 (Z.succ (shr_m mrs'))).
      + apply Z.log2_le_mono; lia.
      + apply Z.log2_succ_le. }
  destruct (shr_fexp 53 1024 m1 e' loc_Exact) as [mrs'' e''] eqn:E2.
  pose proof (shr_fexp_spec _ _ _ _ _ Hm1 E2) as S2. cbv zeta in S2.
  rewrite Zdigits2_log2 in S2 by lia.
  pose proof (Z.log2_nonneg m1) as Hl1'.
  assert (H2 : 0 < shr_m mrs'' /\ -1074 <= e'' <= 0 /\ shr_m mrs'' <= N * 2 ^ (- e'')).
  { unfold fexp, emin in S2. destruct S2 as [(Hn & -> & ->)|(Hn & -> & ->)].
    - lia.
    - set (n := Z.max (Z.log2 m1 + 1 + e' - 53) (3 - 1024 - 53) - e') in *.
      destruct (div_pow2_pos m1 n) as [Hp' Hlog']; [lia|lia|].
      repeat split; try lia.
      apply Z.div_le_upper_bound; [apply Z.pow_pos_nonneg; lia|].
      replace (- e') with (n + - (e' + n)) in Hb by lia.
      rewrite Z.pow_add_r in Hb by lia. lia. }
  destruct H2 as (Hp2 & He2 & Hb2).
  destruct (shr_m mrs'') as [|p|p]; try lia.
  exists p, e''. repeat split; try lia.
  replace (e'' <=? 1024 - 53) with true by (symmetry; apply Z.leb_le; lia).
  reflexivity.
Qed.

(** A binary64 value, as Python has them: at most 53 bits of mantissa. *)
Lemma valid_finite (s : bool) (m : positive) (e : Z) :
  valid_binary F64.prec F64.emax (S754_finite s m e) = true ->
  Z.log2 (Zpos m) <= 52 /\ -1074 <= e <= 971.
Proof.
  cbn [valid_binary]. unfold bounded, canonical_mantissa. intros H.
  apply andb_true_iff in H as [H1 H2].
  apply Z.eqb_eq in H1. apply Z.leb_le in H2.
  change (Zpos (digits2_pos m)) with (Zdigits2 (Zpos m)) in H1.
  rewrite Zdigits2_log2 in H1 by lia.
  unfold fexp, emin, F64.prec, F64.emax in *. lia.
Qed.

Lemma normalize_exact (s : bool) (v e : Z) :
  0 <= v -> Z.log2 v <= 52 -> -1074 <= e <= 971 ->
  (v = 0 /\ binary_normalize 53 1024 (cond_Zopp s v) e s = S754_zero s) \/
  (0 < v /\ exists (mz : positive) (ez : Z),
     binary_normalize 53 1024 (cond_Zopp s v) e s = S754_finite s mz ez /\
     -1074 <= ez <= e /\ Zpos mz = v * 2 ^ (e - ez)).
Proof.
  intros Hv Hl He. destruct v as [|p|p]; [left|right|lia].
  - split; [reflexivity|]. destruct s; reflexivity.
  - split; [lia|].
    destruct (binary_round_exact s p e Hl He) as (mz & ez & Hr & Hez & Hmz).
    exists mz, ez. split; [|split; assumption].
    destruct s; cbn [cond_Zopp Z.opp binary_normalize]; exact Hr.
Qed.

Lemma nearest_even_below (s : bool) (m : positive) (e N : Z) :
  e <= 0 -> Zpos m <= N * 2 ^ (- e) ->
  exists n : Z, 0 <= n <= N /\ F64.nearest_even s m e = cond_Zopp s n.
Proof.
  intros He Hb. unfold F64.nearest_even.
  destruct (0 <=? e) eqn:E.
  - apply Z.leb_le in E. assert (e = 0) as -> by lia.
    exists (Zpos m). rewrite Z.shiftl_0_r. split; [|reflexivity].
    change (- 0) with 0 in Hb. rewrite Z.pow_0_r in Hb. lia.
  - apply Z.leb_gt in E. cbv zeta.
    rewrite Z.shiftr_div_pow2, Z.land_ones, Z.shiftl_1_l by lia.
    set (k := - e) in *.
    assert (Hk : 0 < 2 ^ k) by (apply Z.pow_pos_nonneg; lia).
    assert (Hh : 0 < 2 ^ (k - 1)) by (apply Z.pow_pos_nonneg; lia).
    pose proof (Z.div_mod (Zpos m) (2 ^ k) ltac:(lia)) as Hdm.
    pose proof (Z.mod_pos_bound (Zpos m) (2 ^ k) Hk) as Hr.
    set (q := Zpos m / 2 ^ k) in *. set (r := Zpos m mod 2 ^ k) in *.
    assert (Hq : 0 <= q <= N) by nia.
    assert (Hq1 : 0 < r -> q + 1 <= N) by nia.
    destruct (r ?= 2 ^ (k - 1)) eqn:C.
    + apply Z.compare_eq in C. destruct (Z.even q).
      * exists q. split; [lia|reflexivity].
      * exists (q + 1). split; [lia|reflexivity].
    + exists q. split; [lia|reflexivity].
    + apply Z.compare_gt_iff in C. exists (q + 1). split; [lia|reflexivity].
Qed.

Lemma py_float_billion :
  py_float 1000000000 = Ret (S754_finite false 8388608000000000 (-23)).
Proof. reflexivity. Qed.

(** The first lines of both float setters on a finite binary64 value: the
    seconds are its truncation, and the nanoseconds have its sign and are
    at most a full second. *)
Lemma sec_nano_finite (s : bool) (m : positive) (e : Z) :
  valid_binary F64.prec F64.emax (S754_finite s m e) = true ->
  exists n : Z, 0 <= n <= 1000000000 /\
    TimerSpec.sec_nano (PyFloat (S754_finite s m e)) =
    Ret (PyInt (F64.trunc s m e), PyInt (cond_Zopp s n)).
Proof.
  intros Hv. destruct (valid_finite _ _ _ Hv) as [Hl He].
  unfold TimerSpec.sec_nano, F64.modf, F64.trunc.
  destruct (0 <=? e) eqn:E.
  - exists 0. split; [lia|]. cbn [py_int bind]. rewrite py_float_billion.
    cbn [bind]. unfold F64.trunc. rewrite E.
    destruct s; reflexivity.
  - apply Z.leb_gt in E. cbv zeta.
    rewrite Z.shiftr_div_pow2, Z.land_ones by lia.
    set (k := - e) in *.
    assert (Hk : 0 < 2 ^ k) by (apply Z.pow_pos_nonneg; lia).
    pose proof (Z.mod_pos_bound (Zpos m) (2 ^ k) Hk) as Hr.
    assert (Hq : 0 <= Zpos m / 2 ^ k) by (apply Z.div_pos; lia).
    assert (Hq' : Zpos m / 2 ^ k <= Zpos m).
    { apply Z.div_le_upper_bound; nia. }
    pose proof (Z.mod_le (Zpos m) (2 ^ k) ltac:(lia) Hk) as Hr'.
    set (ip := Zpos m / 2 ^ k) in *. set (fp := Zpos m mod 2 ^ k) in *.
    assert (Hlip : Z.log2 ip <= 52).
    { etransitivity; [apply Z.log2_le_mono; exact Hq'|exact Hl]. }
    assert (Hlfp : Z.log2 fp <= 52).
    { etransitivity; [apply Z.log2_le_mono; exact Hr'|exact Hl]. }
    unfold F64.prec, F64.emax.
    assert (Hy : exists y, binary_normalize 53 1024 (cond_Zopp s ip) 0 s = y /\
                           py_int y = Ret (cond_Zopp s ip)).
    { destruct (normalize_exact s ip 0 ltac:(lia) Hlip ltac:(lia))
        as [[-> ->]|(Hp & mz & ez & -> & Hez & Hmz)].
      - eexists; split; [reflexivity|]. destruct s; reflexivity.
      - eexists; split; [reflexivity|]. cbn [py_int]. unfold F64.trunc.
        f_equal. f_equal.
        destruct (0 <=? ez) eqn:Ez.
        + apply Z.leb_le in Ez. assert (ez = 0) as -> by lia.
          rewrite Z.shiftl_0_r, Hmz. change (0 - 0) with 0. lia.
        + apply Z.leb_gt in Ez. rewrite Z.shiftr_div_pow2 by lia.
          rewrite Hmz. replace (0 - ez) with (- ez) by lia.
          apply Z.div_mul. apply Z.pow_nonzero; lia. }
    destruct Hy as (y & -> & Hy).
    destruct (normalize_exact s fp e ltac:(lia) Hlfp ltac:(lia))
      as [[_ ->]|(Hp & mz & ez & -> & Hez & Hmz)].
    + exists 0. split; [lia|]. rewrite Hy. cbn [bind].
      rewrite py_float_billion. cbn [bind].
      destruct s; reflexivity.
    + rewrite Hy. cbn [bind]. rewrite py_float_billion. cbn [bind].
      unfold F64.mul, F64.prec, F64.emax. cbn [SFmul xorb].
      assert (Hmz' : Zpos mz < 2 ^ (- ez)).
      { rewrite Hmz. replace (- ez) with (k + (e - ez)) by lia.
        rewrite Z.pow_add_r by lia.
        apply Z.mul_lt_mono_pos_r; [apply Z.pow_pos_nonneg; lia|lia]. }
      assert (Hz : 0 < 2 ^ (- ez)) by (apply Z.pow_pos_nonneg; lia).
      set (mx := Zpos (8388608000000000 * mz)).
      assert (Hmx : mx = 1000000000 * 2 ^ 23 * Zpos mz) by (unfold mx; lia).
      assert (Hup : mx < 1000000000 * 2 ^ (- (-23 + ez))).
      { replace (- (-23 + ez)) with (23 + - ez) by lia.
        rewrite Z.pow_add_r by lia. rewrite Hmx. nia. }
      assert (Hlo : 52 <= Z.log2 mx).
      { apply Z.log2_le_pow2; [unfold mx; lia|]. rewrite Hmx.
        change (2 ^ 52) with (536870912 * 2 ^ 23 * 1). nia. }
      assert (Hhi : Z.log2 mx < 53 - ez).
      { apply Z.log2_lt_pow2; [unfold mx; lia|].
        replace (53 - ez) with (53 + - ez) by lia.
        rewrite Z.pow_add_r by lia. rewrite Hmx.
        change (2 ^ 53) with (1073741824 * 2 ^ 23). nia. }
      destruct (round_aux_below s mx (-23 + ez) 1000000000 loc_Exact)
        as (m' & e' & He' & Hb & ->).
      * unfold mx; lia.
      * lia.
      * rewrite Zdigits2_log2 by (unfold mx; lia). lia.
      * rewrite Zdigits2_log2 by (unfold mx; lia). lia.
      * lia.
      * exact Hup.
      * cbn [py_round bind].
        destruct (nearest_even_below s m' e' 1000000000 He' Hb) as (n & Hn & ->).
        exists n. split; [exact Hn|]. destruct s; reflexivity.
Qed.

Lemma in_long_nano (s : bool) (n : Z) : 0 <= n <= 1000000000 -> in_long (cond_Zopp s n) = true.
Proof.
  intros Hn. unfold in_long, LONG_MIN, LONG_MAX.
  apply andb_true_iff. rewrite !Z.leb_le. destruct s; cbn [cond_Zopp]; lia.
Qed.

Lemma to_c_long_cases (v : pyval) :
  (exists n : Z, to_c_long v = Ret n) \/ (exists e : exn, to_c_long v = Raise e).
Proof.
  destruct v as [|n|f]; cbn [to_c_long]; eauto. destruct (in_long n); eauto.
Qed.

(** What a float setter does is decided by the value assigned: it fails
    on every object alike, or it stores one and the same pair. *)
Lemma float_setter_cases (v : pyval) :
  (exists e : exn, forall self : TimerSpec.t,
      TimerSpec.reoccuring_setter self v = Raise e /\
      TimerSpec.one_off_setter self v = Raise e) \/
  (exists ts : timespec, forall self : TimerSpec.t,
      TimerSpec.reoccuring_setter self v =
        Ret (TimerSpec.with_struct self
               {| it_interval := ts; it_value := it_value (TimerSpec._timerspec self) |}) /\
      TimerSpec.one_off_setter self v =
        Ret (TimerSpec.with_struct self
               {| it_interval := it_interval (TimerSpec._timerspec self); it_value := ts |})).
Proof.
  unfold TimerSpec.reoccuring_setter, TimerSpec.one_off_setter,
    TimerSpec.reoccuring_seconds_setter, TimerSpec.reoccuring_nano_seconds_setter,
    TimerSpec.one_off_seconds_setter, TimerSpec.one_off_nano_seconds_setter.
  pose proof (pure_sec_nano v) as Hp.
  destruct (TimerSpec.sec_nano v) as [[a b]|e|X c k]; cbn [bind fst snd].
  - destruct (to_c_long_cases a) as [[n ->]|[e ->]]; cbn [bind].
    + destruct (to_c_long_cases b) as [[m ->]|[e ->]]; cbn [bind].
      * right. exists {| tv_sec := n; tv_nsec := m |}. intros self. split; reflexivity.
      * left. exists e. intros self. split; reflexivity.
    + left. exists e. intros self. split; reflexivity.
  - left. exists e. intros self. split; reflexivity.
  - destruct Hp.
Qed.

(** The float setters on a finite binary64 value: only the assignment of
    the seconds can fail. *)
Lemma float_setter_finite (s : bool) (m : positive) (e : Z) :
  valid_binary F64.prec F64.emax (S754_finite s m e) = true ->
  exists n : Z, 0 <= n <= 1000000000 /\
    forall self : TimerSpec.t,
    TimerSpec.reoccuring_setter self (PyFloat (S754_finite s m e)) =
      (sec <- to_c_long (PyInt (F64.trunc s m e)) ;;
       Ret (TimerSpec.with_struct self
              {| it_interval := {| tv_sec := sec; tv_nsec := cond_Zopp s n |};
                 it_value := it_value (TimerSpec._timerspec self) |})) /\
    TimerSpec.one_off_setter self (PyFloat (S754_finite s m e)) =
      (sec <- to_c_long (PyInt (F64.trunc s m e)) ;;
       Ret (TimerSpec.with_struct self
              {| it_interval := it_interval (TimerSpec._timerspec self);
                 it_value := {| tv_sec := sec; tv_nsec := cond_Zopp s n |} |})).
Proof.
  intros Hv. destruct (sec_nano_finite s m e Hv) as (n & Hn & Hsn).
  exists n. split; [exact Hn|]. intros self.
  unfold TimerSpec.reoccuring_setter, TimerSpec.one_off_setter,
    TimerSpec.reoccuring_seconds_setter, TimerSpec.reoccuring_nano_seconds_setter,
    TimerSpec.one_off_seconds_setter, TimerSpec.one_off_nano_seconds_setter.
  rewrite Hsn. cbn [bind fst snd].
  cbn [to_c_long]. destruct (in_long (F64.trunc s m e)); cbn [bind].
  - cbn [to_c_long]. rewrite (in_long_nano s n Hn). split; reflexivity.
  - split; reflexivity.
Qed.

Lemma setattr_reoccuring (self : TimerSpec.t) (v : pyval) :
  TimerSpec.setattr self "reoccuring" v = TimerSpec.reoccuring_setter self v.
Proof. reflexivity. Qed.

Lemma setattr_one_off (self : TimerSpec.t) (v : pyval) :
  TimerSpec.setattr self "one_off" v = TimerSpec.one_off_setter self v.
Proof. reflexivity. Qed.

(** [float(n)] of an integer a C [long] can hold is finite. *)
Lemma of_Z_in_long (n : Z) :
  in_long n = true ->
  F64.of_Z n = S754_zero false \/
  exists (m : positive) (e : Z), F64.of_Z n = S754_finite (n <? 0) m e.
Proof.
  unfold in_long, LONG_MIN, LONG_MAX. intros H. apply andb_true_iff in H.
  rewrite !Z.leb_le in H.
  destruct n as [|p|p]; [left; reflexivity|right|right].
  - unfold F64.of_Z, binary_normalize, F64.prec, F64.emax.
    assert (Hlog : 0 <= Z.log2 (Zpos p) < 63).
    { split; [apply Z.log2_nonneg|]. apply Z.log2_lt_pow2; lia. }
    destruct (binary_round_shape false p 0) as (m & e & H1 & H2 & H3); [lia|].
    exists m, e. rewrite H3.
    destruct (e <=? 971) eqn:E; [reflexivity|]. apply Z.leb_gt in E. lia.
  - unfold F64.of_Z, binary_normalize, F64.prec, F64.emax.
    assert (Hlog : 0 <= Z.log2 (Zpos p) <= 63).
    { split; [apply Z.log2_nonneg|].
      change 63 with (Z.log2 (2 ^ 63)). apply Z.log2_le_mono. lia. }
    destruct (binary_round_shape true p 0) as (m & e & H1 & H2 & H3); [lia|].
    exists m, e. rewrite H3.
    destruct (e <=? 971) eqn:E; [reflexivity|]. apply Z.leb_gt in E. lia.
Qed.

Lemma py_float_long (n : Z) :
  in_long n = true -> py_float n = Ret (F64.of_Z n).
Proof.
  intros H. unfold py_float.
  destruct (of_Z_in_long n H) as [->|(m & e & ->)]; reflexivity.
Qed.

(** The getter of a pair [{sec, 0}]. *)
Lemma getter_of_int (sec : Z) :
  in_long sec = true ->
  (q <- py_truediv 0 1000000000 ;; g <- py_float sec ;; Ret (F64.add g q)) = Ret (F64.of_Z sec).
Proof.
  intros H. unfold py_truediv, py_float. cbn [Z.eqb F64.div_Z bind].
  destruct (of_Z_in_long sec H) as [->|(m & e & ->)]; reflexivity.
Qed.

Lemma SFdiv_billion_shape (s : bool) (p : positive) :
  Z.log2 (Zpos p) <= 63 ->
  exists (m : positive) (e : Z),
    SFdiv 53 1024 (S754_finite s p 0) (S754_finite false 1000000000 0) = S754_finite s m e.
Proof.
  intros Hl. pose proof (Z.log2_nonneg (Zpos p)) as Hl0.
  unfold SFdiv, SFdiv_core_binary.
  rewrite (Zdigits2_log2 (Zpos p)) by lia.
  change (Zdigits2 1000000000) with 30.
  unfold fexp, emin.
  replace (Z.min (Z.max (Z.log2 (Zpos p) + 1 + 0 - (30 + 0) - 53) (3 - 1024 - 53)) (0 - 0))
    with (Z.log2 (Zpos p) - 82) by lia.
  replace (0 - 0 - (Z.log2 (Zpos p) - 82)) with (82 - Z.log2 (Zpos p)) by lia.
  destruct (82 - Z.log2 (Zpos p)) as [|d|d] eqn:Es; try lia.
  set (m' := Z.shiftl (Zpos p) (Zpos d)).
  assert (Hm' : 2 ^ 82 <= m' /\ Z.log2 m' = 82).
  { unfold m'. rewrite Z.shiftl_mul_pow2 by lia.
    assert (Hl2 : Z.log2 (Zpos p * 2 ^ Zpos d) = 82)
      by (rewrite Z.log2_mul_pow2 by lia; lia).
    split; [|exact Hl2]. rewrite <- Hl2 at 1. apply Z.log2_spec.
    apply Z.mul_pos_pos; [lia|]. apply Z.pow_pos_nonneg; lia. }
  pose proof (Z_div_mod m' 1000000000 ltac:(lia)) as Hdiv.
  destruct (Z.div_eucl m' 1000000000) as [q r].
  destruct Hdiv as [Hq Hr].
  assert (Hqpos : 0 < q) by (change (2 ^ 82) with 4835703278458516698824704 in Hm'; lia).
  assert (Hqlog : 0 <= Z.log2 q <= 82).
  { split; [apply Z.log2_nonneg|].
    destruct Hm' as [_ <-]. apply Z.log2_le_mono. lia. }
  destruct (round_aux_shape (xorb s false) q (Z.log2 (Zpos p) - 82)
              (new_location 1000000000 r)) as (m & e & H1 & H2 & H3).
  - lia.
  - rewrite Zdigits2_log2 by lia. lia.
  - rewrite Zdigits2_log2 in H2 by lia. exists m, e.
    rewrite H3. replace (xorb s false) with s by (destruct s; reflexivity).
    destruct (e <=? 971) eqn:E; [reflexivity|]. apply Z.leb_gt in E. lia.
Qed.

Lemma log2_long (p : positive) :
  Zpos p <= 2 ^ 63 -> Z.log2 (Zpos p) <= 63.
Proof. intros H. change 63 with (Z.log2 (2 ^ 63)). apply Z.log2_le_mono. exact H. Qed.

(** [n / 1000000000] of an integer a C [long] can hold never overflows. *)
Lemma py_truediv_billion (a : Z) :
  in_long a = true -> exists q : F64.float, py_truediv a 1000000000 = Ret q.
Proof.
  unfold in_long, LONG_MIN, LONG_MAX. intros H. apply andb_true_iff in H.
  rewrite !Z.leb_le in H. unfold py_truediv. change (1000000000 =? 0) with false. cbv iota.
  destruct a as [|p|p].
  - eexists. reflexivity.
  - unfold F64.div_Z, F64.prec, F64.emax.
    change (Z.to_pos (Z.abs (Zpos p))) with p.
    change (Z.to_pos (Z.abs 1000000000)) with 1000000000%positive.
    change (Zpos p <? 0) with false. change (1000000000 <? 0) with false.
    destruct (SFdiv_billion_shape false p) as (m & e & ->); [apply log2_long; lia|].
    eexists. reflexivity.
  - unfold F64.div_Z, F64.prec, F64.emax.
    change (Z.to_pos (Z.abs (Zneg p))) with p.
    change (Z.to_pos (Z.abs 1000000000)) with 1000000000%positive.
    change (Zneg p <? 0) with true. change (1000000000 <? 0) with false.
    destruct (SFdiv_billion_shape true p) as (m & e & ->); [apply log2_long; lia|].
    eexists. reflexivity.
Qed.

(** ** class TimerSpec: the float properties *)

(** X1.  Assigning a finite float whose integral part fits a C [long] to
    [reoccuring] or to [one_off] succeeds on every object: the seconds
    become the float truncated towards zero, the nanoseconds have the sign
    of the float and a magnitude of at most 1000000000 (a full second can
    be reached, and is not carried into the seconds), and the other field
    and the instance dictionary are left as they were. *)
Theorem float_assignment_splits_seconds_and_nano_seconds (s : bool) (m : positive) (e : Z) :
  valid_binary F64.prec F64.emax (S754_finite s m e) = true ->
  in_long (F64.trunc s m e) = true ->
  exists n : Z, 0 <= n <= 1000000000 /\
    forall self : TimerSpec.t,
    TimerSpec.reoccuring_setter self (PyFloat (S754_finite s m e)) =
      Ret (TimerSpec.with_struct self
             {| it_interval := {| tv_sec := F64.trunc s m e; tv_nsec := cond_Zopp s n |};
                it_value := it_value (TimerSpec._timerspec self) |}) /\
    TimerSpec.one_off_setter self (PyFloat (S754_finite s m e)) =
      Ret (TimerSpec.with_struct self
             {| it_interval := it_interval (TimerSpec._timerspec self);
                it_value := {| tv_sec := F64.trunc s m e; tv_nsec := cond_Zopp s n |} |}).
Proof.
  intros Hv Hl. destruct (float_setter_finite s m e Hv) as (n & Hn & Hset).
  exists n. split; [exact Hn|]. intros self. destruct (Hset self) as [Hr Ho].
  rewrite Hr, Ho. cbn [to_c_long]. rewrite Hl. split; reflexivity.
Qed.

(** [-2.5] is stored as [{-2, -500000000}]. *)
Lemma float_assignment_splits_seconds_and_nano_seconds_witness :
  exists n : Z, 0 <= n <= 1000000000 /\
    forall self : TimerSpec.t,
    TimerSpec.reoccuring_setter self (PyFloat f_minus_2_5) =
      Ret (TimerSpec.with_struct self
             {| it_interval := {| tv_sec := -2; tv_nsec := cond_Zopp true n |};
                it_value := it_value (TimerSpec._timerspec self) |}) /\
    TimerSpec.one_off_setter self (PyFloat f_minus_2_5) =
      Ret (TimerSpec.with_struct self
             {| it_interval := it_interval (TimerSpec._timerspec self);
                it_value := {| tv_sec := -2; tv_nsec := cond_Zopp true n |} |}).
Proof.
  apply (float_assignment_splits_seconds_and_nano_seconds true 5629499534213120 (-51));
    reflexivity.
Defined.

(** X2.  Assigning an [int] that fits a C [long] to [reoccuring] or to
    [one_off] stores it as the seconds with zero nanoseconds; the property
    then reads back as [float(n)], and the other property reads as
    before. *)
Theorem int_assignment_reads_back (self : TimerSpec.t) (n : Z) :
  in_long n = true ->
  (exists self' : TimerSpec.t,
      TimerSpec.reoccuring_setter self (PyInt n) = Ret self' /\
      TimerSpec.reoccuring self' = Ret (F64.of_Z n) /\
      TimerSpec.reoccuring_seconds self' = n /\
      TimerSpec.reoccuring_nano_seconds self' = 0 /\
      TimerSpec.one_off self' = TimerSpec.one_off self) /\
  (exists self' : TimerSpec.t,
      TimerSpec.one_off_setter self (PyInt n) = Ret self' /\
      TimerSpec.one_off self' = Ret (F64.of_Z n) /\
      TimerSpec.one_off_seconds self' = n /\
      TimerSpec.one_off_nano_seconds self' = 0 /\
      TimerSpec.reoccuring self' = TimerSpec.reoccuring self).
Proof.
  intros Hn. split.
  - eexists. split.
    + unfold TimerSpec.reoccuring_setter, TimerSpec.reoccuring_seconds_setter,
        TimerSpec.reoccuring_nano_seconds_setter.
      cbn [TimerSpec.sec_nano bind fst snd to_c_long]. rewrite Hn. reflexivity.
    + repeat split. unfold TimerSpec.reoccuring.
      cbn [TimerSpec.reoccuring_nano_seconds TimerSpec.reoccuring_seconds
             TimerSpec.with_struct TimerSpec._timerspec it_interval tv_sec tv_nsec].
      apply getter_of_int. exact Hn.
  - eexists. split.
    + unfold TimerSpec.one_off_setter, TimerSpec.one_off_seconds_setter,
        TimerSpec.one_off_nano_seconds_setter.
      cbn [TimerSpec.sec_nano bind fst snd to_c_long]. rewrite Hn. reflexivity.
    + repeat split. unfold TimerSpec.one_off.
      cbn [TimerSpec.one_off_nano_seconds TimerSpec.one_off_seconds
             TimerSpec.with_struct TimerSpec._timerspec it_value tv_sec tv_nsec].
      apply getter_of_int. exact Hn.
Qed.

Lemma int_assignment_reads_back_witness :
  (exists self' : TimerSpec.t,
      TimerSpec.reoccuring_setter zeroed (PyInt (-5)) = Ret self' /\
      TimerSpec.reoccuring self' = Ret (F64.of_Z (-5)) /\
      TimerSpec.reoccuring_seconds self' = -5 /\
      TimerSpec.reoccuring_nano_seconds self' = 0 /\
      TimerSpec.one_off self' = TimerSpec.one_off zeroed) /\
  (exists self' : TimerSpec.t,
      TimerSpec.one_off_setter zeroed (PyInt (-5)) = Ret self' /\
      TimerSpec.one_off self' = Ret (F64.of_Z (-5)) /\
      TimerSpec.one_off_seconds self' = -5 /\
      TimerSpec.one_off_nano_seconds self' = 0 /\
      TimerSpec.reoccuring self' = TimerSpec.reoccuring zeroed).
Proof. apply (int_assignment_reads_back zeroed (-5)). reflexivity. Defined.

(** X3.  The two float properties are independent, and an assignment
    replaces the whole pair: when [reoccuring = v] and [one_off = w] both
    succeed on an object, they can be made in either order with the same
    result, each leaves the field of the other alone, and a later
    assignment to a property behaves as if the earlier one to the same
    property had not been made (so nanoseconds are never kept from an
    earlier assignment). *)
Theorem float_assignments_commute_and_overwrite (self a b : TimerSpec.t) (v w : pyval) :
  TimerSpec.reoccuring_setter self v = Ret a ->
  TimerSpec.one_off_setter self w = Ret b ->
  let both := {| TimerSpec._timerspec :=
                   {| it_interval := it_interval (TimerSpec._timerspec a);
                      it_value := it_value (TimerSpec._timerspec b) |};
                 TimerSpec.attrs := TimerSpec.attrs self |} in
  TimerSpec.one_off_setter a w = Ret both /\
  TimerSpec.reoccuring_setter b v = Ret both /\
  it_value (TimerSpec._timerspec a) = it_value (TimerSpec._timerspec self) /\
  it_interval (TimerSpec._timerspec b) = it_interval (TimerSpec._timerspec self) /\
  forall u : pyval,
    TimerSpec.reoccuring_setter a u = TimerSpec.reoccuring_setter self u /\
    TimerSpec.one_off_setter b u = TimerSpec.one_off_setter self u.
Proof.
  intros Ha Hb both. unfold both.
  destruct (float_setter_cases v) as [(e & He)|(tv & Hv)];
    [rewrite (proj1 (He _)) in Ha; discriminate|].
  destruct (float_setter_cases w) as [(e & He)|(tw & Hw)];
    [rewrite (proj2 (He _)) in Hb; discriminate|].
  rewrite (proj1 (Hv _)) in Ha. injection Ha as <-.
  rewrite (proj2 (Hw _)) in Hb. injection Hb as <-.
  rewrite (proj2 (Hw _)), (proj1 (Hv _)).
  split; [reflexivity|]. split; [reflexivity|]. split; [reflexivity|]. split; [reflexivity|].
  intros u. destruct (float_setter_cases u) as [(e & He)|(tu & Hu)].
  - rewrite !(proj1 (He _)), !(proj2 (He _)). split; reflexivity.
  - rewrite !(proj1 (Hu _)), !(proj2 (Hu _)). split; reflexivity.
Qed.

(** [reoccuring = 0.5] and [one_off = 3], in either order. *)
Lemma float_assignments_commute_and_overwrite_witness :
  let a := {| TimerSpec._timerspec :=
                {| it_interval := {| tv_sec := 0; tv_nsec := 500000000 |};
                   it_value := timespec_zero |};
              TimerSpec.attrs := ∅ |} in
  let b := {| TimerSpec._timerspec :=
                {| it_interval := timespec_zero;
                   it_value := {| tv_sec := 3; tv_nsec := 0 |} |};
              TimerSpec.attrs := ∅ |} in
  let both := {| TimerSpec._timerspec :=
                   {| it_interval := {| tv_sec := 0; tv_nsec := 500000000 |};
                      it_value := {| tv_sec := 3; tv_nsec := 0 |} |};
                 TimerSpec.attrs := ∅ |} in
  TimerSpec.one_off_setter a (PyInt 3) = Ret both /\
  TimerSpec.reoccuring_setter b (PyFloat f_0_5) = Ret both.
Proof.
  intros a b both.
  destruct (float_assignments_commute_and_overwrite zeroed a b (PyFloat f_0_5) (PyInt 3)
              eq_refl eq_refl) as (H1 & H2 & _).
  split; [exact H1|exact H2].
Defined.

(** X4.  What the float setters refuse, before anything is stored:
    [None] with [TypeError], a NaN with [ValueError], an infinity with
    [OverflowError], and with [OverflowError] too an [int] beyond the range
    of a C [long] and a finite float whose integral part is beyond it. *)
Theorem float_assignment_refusals (self : TimerSpec.t) :
  let refused v e :=
    TimerSpec.reoccuring_setter self v = Raise e /\ TimerSpec.one_off_setter self v = Raise e in
  refused PyNone TypeError /\
  refused (PyFloat S754_nan) (ValueError "cannot convert float NaN to integer") /\
  (forall s : bool, refused (PyFloat (S754_infinity s)) OverflowError) /\
  (forall n : Z, in_long n = false -> refused (PyInt n) OverflowError) /\
  (forall (s : bool) (m : positive) (e : Z),
      valid_binary F64.prec F64.emax (S754_finite s m e) = true ->
      in_long (F64.trunc s m e) = false ->
      refused (PyFloat (S754_finite s m e)) OverflowError).
Proof.
  intros refused. unfold refused.
  split; [split; reflexivity|]. split; [split; reflexivity|].
  split; [intros s; split; reflexivity|]. split.
  - intros n Hn.
    unfold TimerSpec.reoccuring_setter, TimerSpec.reoccuring_seconds_setter,
      TimerSpec.one_off_setter, TimerSpec.one_off_seconds_setter.
    cbn [TimerSpec.sec_nano bind fst to_c_long]. rewrite Hn. split; reflexivity.
  - intros s m e Hv Hl. destruct (float_setter_finite s m e Hv) as (n & Hn & Hset).
    destruct (Hset self) as [Hr Ho].
    rewrite Hr, Ho. cbn [to_c_long]. rewrite Hl. split; reflexivity.
Qed.

(** [2 ** 63] and [1e19] are refused. *)
Lemma float_assignment_refusals_witness :
  TimerSpec.one_off_setter zeroed (PyInt (2 ^ 63)) = Raise OverflowError /\
  TimerSpec.one_off_setter zeroed (PyFloat f_1e19) = Raise OverflowError.
Proof.
  destruct (float_assignment_refusals zeroed) as (_ & _ & _ & Hint & Hfloat). split.
  - apply (Hint (2 ^ 63)). reflexivity.
  - apply (Hfloat false 4882812500000000%positive 11); reflexivity.
Defined.

(** ** class TimerSpec: reading, disabling, constructing *)

(** X5.  Reading never fails: on every structure (the four fields are C
    [long]s) the getters [reoccuring], [one_off] and [next_event] return a
    float, [next_event] the same as [one_off], and [__bool__], [enabled]
    and [disabled] return, [disabled] the negation of [enabled], which is
    true exactly when the float of [one_off] is not [0.0]. *)
Theorem getters_return_on_every_structure (self : TimerSpec.t) :
  in_long (TimerSpec.reoccuring_seconds self) = true ->
  in_long (TimerSpec.reoccuring_nano_seconds self) = true ->
  in_long (TimerSpec.one_off_seconds self) = true ->
  in_long (TimerSpec.one_off_nano_seconds self) = true ->
  exists f g : F64.float,
    TimerSpec.reoccuring self = Ret f /\
    TimerSpec.one_off self = Ret g /\
    TimerSpec.next_event self = Ret g /\
    TimerSpec.__bool__ self = Ret (negb (F64.is_zero g)) /\
    TimerSpec.enabled self = Ret (negb (F64.is_zero g)) /\
    TimerSpec.disabled self = Ret (F64.is_zero g).
Proof.
  intros Hrs Hrn Hos Hon.
  destruct (py_truediv_billion _ Hrn) as (qr & Hqr).
  destruct (py_truediv_billion _ Hon) as (qo & Hqo).
  exists (F64.add (F64.of_Z (TimerSpec.reoccuring_seconds self)) qr),
         (F64.add (F64.of_Z (TimerSpec.one_off_seconds self)) qo).
  unfold TimerSpec.disabled, TimerSpec.enabled, TimerSpec.__bool__, TimerSpec.next_event,
    TimerSpec.reoccuring, TimerSpec.one_off.
  rewrite Hqr, Hqo, !py_float_long by assumption. cbn [bind].
  destruct (F64.is_zero _); repeat split.
Qed.

(** The structure [{{-1, -7}, {LONG_MIN, LONG_MAX}}]. *)
Lemma getters_return_on_every_structure_witness :
  let self := {| TimerSpec._timerspec :=
                   {| it_interval := {| tv_sec := -1; tv_nsec := -7 |};
                      it_value := {| tv_sec := LONG_MIN; tv_nsec := LONG_MAX |} |};
                 TimerSpec.attrs := ∅ |} in
  exists f g : F64.float,
    TimerSpec.reoccuring self = Ret f /\
    TimerSpec.one_off self = Ret g /\
    TimerSpec.next_event self = Ret g /\
    TimerSpec.__bool__ self = Ret (negb (F64.is_zero g)) /\
    TimerSpec.enabled self = Ret (negb (F64.is_zero g)) /\
    TimerSpec.disabled self = Ret (F64.is_zero g).
Proof.
  intros self. apply (getters_return_on_every_structure self); reflexivity.
Defined.

(** X6.  [TimerSpec.disable()] always succeeds; afterwards [enabled] is
    false, [disabled] is true, the [next_event] accessors read zero, the
    interval and the instance dictionary are as before, and disabling again
    changes nothing. *)
Theorem TimerSpec_disable_is_idempotent (self : TimerSpec.t) :
  exists self' : TimerSpec.t,
    TimerSpec.disable self = Ret self' /\
    TimerSpec.enabled self' = Ret false /\
    TimerSpec.disabled self' = Ret true /\
    TimerSpec.next_event self' = Ret F64.zero /\
    TimerSpec.next_event_seconds self' = 0 /\
    TimerSpec.next_event_nano_seconds self' = 0 /\
    TimerSpec.reoccuring self' = TimerSpec.reoccuring self /\
    TimerSpec.attrs self' = TimerSpec.attrs self /\
    TimerSpec.disable self' = Ret self'.
Proof.
  eexists. split; [apply disable_eq|]. repeat split.
Qed.

(** X7.  The constructor tests its keyword arguments for truth: [None],
    [0], [0.0] and [-0.0] are all skipped, so that the object holds the
    [timerspec] given (or zeros), and a field cannot be set to zero through
    the constructor. *)
Theorem init_skips_false_arguments
  (reoccuring reoccuring_seconds reoccuring_nano_seconds : pyval)
  (one_off one_off_seconds one_off_nano_seconds : pyval) (timerspec : option itimerspec) :
  truthy reoccuring = false -> truthy reoccuring_seconds = false ->
  truthy reoccuring_nano_seconds = false ->
  truthy one_off = false -> truthy one_off_seconds = false ->
  truthy one_off_nano_seconds = false ->
  TimerSpec.__init__ reoccuring reoccuring_seconds reoccuring_nano_seconds
    one_off one_off_seconds one_off_nano_seconds timerspec =
    Ret {| TimerSpec._timerspec := match timerspec with
                                   | Some ts => ts
                                   | None => itimerspec_new
                                   end;
           TimerSpec.attrs := ∅ |}.
Proof.
  intros H1 H2 H3 H4 H5 H6. unfold TimerSpec.__init__.
  rewrite H1, H2, H3, H4, H5, H6. cbn [bind].
  destruct timerspec as [[[] []]|]; reflexivity.
Qed.

(** [TimerSpec(reoccuring=0, reoccuring_nano_seconds=0, one_off=-0.0,
    timerspec=ts)] is a copy of [ts]. *)
Lemma init_skips_false_arguments_witness :
  TimerSpec.__init__ (PyInt 0) PyNone (PyInt 0) (PyFloat (S754_zero true)) PyNone PyNone
    (Some {| it_interval := {| tv_sec := 1; tv_nsec := 500 |};
             it_value := {| tv_sec := 2; tv_nsec := 0 |} |}) =
    Ret {| TimerSpec._timerspec :=
             {| it_interval := {| tv_sec := 1; tv_nsec := 500 |};
                it_value := {| tv_sec := 2; tv_nsec := 0 |} |};
           TimerSpec.attrs := ∅ |}.
Proof.
  apply (init_skips_false_arguments (PyInt 0) PyNone (PyInt 0) (PyFloat (S754_zero true))
           PyNone PyNone
           (Some {| it_interval := {| tv_sec := 1; tv_nsec := 500 |};
                    it_value := {| tv_sec := 2; tv_nsec := 0 |} |})); reflexivity.
Defined.

(** ** The module's functions on any kernel *)

(** X8.  [timerfd_gettime(fd)] makes one call, the C function on [fd].  A
    return value that is not negative gives a fresh [TimerSpec] around the
    structure the kernel filled; a negative one gives [ValueError] for
    [EBADF], [EINVAL] and every code without a case, and [OSError] (through
    its alias [IOError]) for [EFAULT]. *)
Theorem timerfd_gettime_outcome (K : Kernel) (st st' : kstate K) (fd ret err : Z)
  (curr_val : itimerspec) :
  in_int fd = true ->
  kcall K _ (C_timerfd_gettime fd) st = Some ((ret, err, curr_val), st') ->
  run K (timerfd_gettime fd) st =
    (if ret <? 0
     then Raises (if err =? errno.EBADF then ValueError "fd is not a valid file descriptor"
                  else if err =? errno.EFAULT
                  then OSError "curr_val is not a valid pointer (internal/bug, let us know)"
                  else if err =? errno.EINVAL then ValueError "fd is not a valid timerfd"
                  else ValueError ("Unknown Error: " +:+ pretty err))
     else Returns {| TimerSpec._timerspec := curr_val; TimerSpec.attrs := ∅ |},
     st', [Ev (C_timerfd_gettime fd)]).
Proof.
  intros Hfd Hk. unfold timerfd_gettime, to_c_int. rewrite Hfd.
  cbn [bind call run]. rewrite Hk. cbn [bind].
  destruct (ret <? 0).
  - destruct (err =? errno.EBADF); [reflexivity|].
    destruct (err =? errno.EFAULT); [reflexivity|].
    destruct (err =? errno.EINVAL); reflexivity.
  - rewrite TimerSpec_clone. reflexivity.
Qed.

(** On [armed]: a period of 1.5 s, 2 s until the next expiration. *)
Lemma timerfd_gettime_outcome_witness :
  run Linux.kernel (timerfd_gettime 3) armed =
    (Returns {| TimerSpec._timerspec :=
                  {| it_interval := {| tv_sec := 1; tv_nsec := 500000000 |};
                     it_value := {| tv_sec := 2; tv_nsec := 0 |} |};
                TimerSpec.attrs := ∅ |},
     Linux.settle armed, [Ev (C_timerfd_gettime 3)]).
Proof.
  apply (timerfd_gettime_outcome Linux.kernel armed (Linux.settle armed) 3 0 0
           {| it_interval := {| tv_sec := 1; tv_nsec := 500000000 |};
              it_value := {| tv_sec := 2; tv_nsec := 0 |} |}); reflexivity.
Defined.

(** X9.  An argument that a C [int] cannot hold never reaches the kernel:
    whether it is the clock, the flags or the descriptor, each of the three
    functions raises [OverflowError] without making a call. *)
Theorem arguments_beyond_C_int_make_no_call (K : Kernel) (st : kstate K) (x y : Z)
  (spec : timer_spec_arg) :
  in_int x = false ->
  run K (timerfd x y) st = (Raises OverflowError, st, []) /\
  run K (timerfd y x) st = (Raises OverflowError, st, []) /\
  run K (timerfd_gettime x) st = (Raises OverflowError, st, []) /\
  run K (timerfd_settime x spec y) st = (Raises OverflowError, st, []) /\
  run K (timerfd_settime y spec x) st = (Raises OverflowError, st, []).
Proof.
  intros Hx. unfold timerfd, timerfd_gettime, timerfd_settime, to_c_int. rewrite Hx.
  destruct (in_int y); repeat split.
Qed.

Lemma arguments_beyond_C_int_make_no_call_witness :
  run Linux.kernel (timerfd (2 ^ 31) 0) Linux.boot = (Raises OverflowError, Linux.boot, []) /\
  run Linux.kernel (timerfd 0 (2 ^ 31)) Linux.boot = (Raises OverflowError, Linux.boot, []) /\
  run Linux.kernel (timerfd_gettime (2 ^ 31)) Linux.boot =
    (Raises OverflowError, Linux.boot, []) /\
  run Linux.kernel (timerfd_settime (2 ^ 31) (Struct itimerspec_new) 0) Linux.boot =
    (Raises OverflowError, Linux.boot, []) /\
  run Linux.kernel (timerfd_settime 0 (Struct itimerspec_new) (2 ^ 31)) Linux.boot =
    (Raises OverflowError, Linux.boot, []).
Proof.
  apply (arguments_beyond_C_int_make_no_call Linux.kernel Linux.boot (2 ^ 31) 0
           (Struct itimerspec_new)).
  reflexivity.
Defined.

(** X10.  An [errno] that has no case in any of the three functions is
    reported by each of them as [ValueError("Unknown Error: <errno>")], and
    the message determines the code.  [EBADF] is such a code for
    [timerfd_settime]: a bad descriptor is reported there as
    ["Unknown Error: 9"]. *)
Theorem unknown_errno_is_reported_with_its_code (err clock_type flags fd : Z)
  (spec : timer_spec_arg) :
  in_int clock_type = true -> in_int flags = true -> in_int fd = true ->
  ~ In err [errno.EBADF; errno.EFAULT; errno.EINVAL; errno.EMFILE; errno.ENFILE;
            errno.ENODEV; errno.ENOMEM] ->
  let msg := "Unknown Error: " +:+ pretty err in
  outcome_of (run (failing err) (timerfd clock_type flags) tt) = Raises (ValueError msg) /\
  outcome_of (run (failing err) (timerfd_gettime fd) tt) = Raises (ValueError msg) /\
  outcome_of (run (failing err) (timerfd_settime fd spec flags) tt) = Raises (ValueError msg) /\
  (forall err' : Z, "Unknown Error: " +:+ pretty err' = msg -> err' = err) /\
  outcome_of (run (failing errno.EBADF) (timerfd_settime fd spec flags) tt) =
    Raises (ValueError "Unknown Error: 9").
Proof.
  intros Hc Hf Hfd Hn msg. unfold msg. cbn [In] in Hn.
  unfold timerfd, timerfd_gettime, timerfd_settime, to_c_int. rewrite Hc, Hf, Hfd.
  cbn [bind call run failing kcall]. change (-1 <? 0) with true. cbv iota.
  split; [unlisted err Hn|]. split; [unlisted err Hn|]. split; [unlisted err Hn|].
  split; [|reflexivity].
  intros err' H. cbn in H. injection H as H. apply (inj pretty). exact H.
Qed.

(** [EPERM] (1) is no case of any of the three functions. *)
Lemma unknown_errno_is_reported_with_its_code_witness :
  outcome_of (run (failing 1) (timerfd 0 0) tt) = Raises (ValueError "Unknown Error: 1") /\
  outcome_of (run (failing 1) (timerfd_gettime 3) tt) =
    Raises (ValueError "Unknown Error: 1") /\
  outcome_of (run (failing 1) (timerfd_settime 3 (Struct itimerspec_new) 0) tt) =
    Raises (ValueError "Unknown Error: 1") /\
  (forall err' : Z, "Unknown Error: " +:+ pretty err' = "Unknown Error: 1" -> err' = 1) /\
  outcome_of (run (failing errno.EBADF) (timerfd_settime 3 (Struct itimerspec_new) 0) tt) =
    Raises (ValueError "Unknown Error: 9").
Proof.
  apply (unknown_errno_is_reported_with_its_code 1 0 0 3 (Struct itimerspec_new));
    try reflexivity.
  cbn [In]. unfold errno.EBADF, errno.EFAULT, errno.EINVAL, errno.EMFILE, errno.ENFILE,
    errno.ENODEV, errno.ENOMEM.
  intros [H|[H|[H|[H|[H|[H|[H|[]]]]]]]]; discriminate H.
Defined.

(** ** class Timerfd on any kernel *)

(** X11.  [_update] makes exactly one call, whatever the kernel answers:
    [timerfd_settime] on the handle's descriptor with the structure the
    specification wraps (its instance dictionary is not looked at) and the
    flag [TFD_TIMER_ABSTIME] exactly when [absolute] is true.  When the
    call does not fail, the result is a fresh [TimerSpec] around the
    previous setting the kernel returned. *)
Theorem update_submits_the_structure_once (K : Kernel) (st : kstate K) (self : Timerfd.t)
  (ts : TimerSpec.t) (absolute : bool) :
  in_int (Timerfd._fd self) = true ->
  let c := C_timerfd_settime (Timerfd._fd self) (if absolute then TFD_TIMER_ABSTIME else 0)
             (TimerSpec._timerspec ts) in
  calls_of (run K (Timerfd._update self ts absolute) st) = [Ev c] /\
  (kcall K _ c st = None -> outcome_of (run K (Timerfd._update self ts absolute) st) = Blocks) /\
  forall (ret err : Z) (old : itimerspec) (st' : kstate K),
    kcall K _ c st = Some ((ret, err, old), st') -> (ret <? 0) = false ->
    run K (Timerfd._update self ts absolute) st =
      (Returns {| TimerSpec._timerspec := old; TimerSpec.attrs := ∅ |}, st', [Ev c]).
Proof.
  intros Hfd c. split; [apply update_calls; exact Hfd|].
  unfold Timerfd._update, timerfd_settime, to_c_int. rewrite Hfd.
  replace (in_int (if absolute then TFD_TIMER_ABSTIME else 0)) with true
    by (destruct absolute; reflexivity).
  cbn [bind call run]. unfold TimerSpec.__timerspec__. subst c. split.
  - intros ->. reflexivity.
  - intros ret err old st' -> Hret. cbn [bind]. rewrite Hret, TimerSpec_clone. reflexivity.
Qed.

Lemma update_submits_the_structure_once_witness :
  calls_of (run Linux.kernel (Timerfd._update handle3 zeroed true) booted) =
    [Ev (C_timerfd_settime 3 TFD_TIMER_ABSTIME itimerspec_new)].
Proof.
  apply (update_submits_the_structure_once Linux.kernel booted handle3 zeroed true).
  reflexivity.
Defined.

(** X12.  [set_reoccuring] with integer arguments and a next value that
    is true: the branch assigns [one_off = next_nano_seconds] and then
    [one_off = next_seconds], so the timer is armed with an interval of
    [{seconds, 0}] and an initial expiration of [{next_seconds, 0}];
    [next_nano_seconds] only selects the branch. *)
Theorem set_reoccuring_with_next_values (K : Kernel) (st : kstate K) (self : Timerfd.t)
  (seconds nano_seconds next_seconds next_nano_seconds : Z) (absolute : bool) :
  in_int (Timerfd._fd self) = true ->
  in_long seconds = true -> in_long nano_seconds = true ->
  in_long next_seconds = true -> in_long next_nano_seconds = true ->
  next_seconds <> 0 \/ next_nano_seconds <> 0 ->
  calls_of (run K (Timerfd.set_reoccuring self (PyInt seconds) (PyInt nano_seconds)
                     (PyInt next_seconds) (PyInt next_nano_seconds) absolute) st) =
    [Ev (C_timerfd_settime (Timerfd._fd self) (if absolute then TFD_TIMER_ABSTIME else 0)
           {| it_interval := {| tv_sec := seconds; tv_nsec := 0 |};
              it_value := {| tv_sec := next_seconds; tv_nsec := 0 |} |})].
Proof.
  intros Hfd Hs Hn Hns Hnn Hnext. unfold Timerfd.set_reoccuring.
  rewrite TimerSpec_new_eq. cbn [bind].
  change (TimerSpec.setattr ?t "reoccuring_nano" ?v)
    with (Ret {| TimerSpec._timerspec := TimerSpec._timerspec t;
                 TimerSpec.attrs := <["reoccuring_nano" := v]> (TimerSpec.attrs t) |}).
  cbn [bind]. rewrite reoccuring_setter_int by exact Hs. cbn [bind].
  replace (truthy (py_or (PyInt next_seconds) (PyInt next_nano_seconds))) with true.
  2:{ unfold py_or. cbn [truthy]. destruct (next_seconds =? 0) eqn:E1; cbn [negb truthy].
      - apply Z.eqb_eq in E1. destruct (next_nano_seconds =? 0) eqn:E2; [|reflexivity].
        apply Z.eqb_eq in E2. lia.
      - rewrite E1. reflexivity. }
  rewrite one_off_setter_int by exact Hnn. cbn [bind].
  rewrite one_off_setter_int by exact Hns. cbn [bind].
  rewrite update_calls by exact Hfd. reflexivity.
Qed.

(** [set_reoccuring(1, next_nano_seconds=500)] submits a zero initial
    expiration. *)
Lemma set_reoccuring_with_next_values_witness :
  calls_of (run Linux.kernel
              (Timerfd.set_reoccuring handle3 (PyInt 1) (PyInt 0) (PyInt 0) (PyInt 500) false)
              booted) =
    [Ev (C_timerfd_settime 3 0
           {| it_interval := {| tv_sec := 1; tv_nsec := 0 |};
              it_value := {| tv_sec := 0; tv_nsec := 0 |} |})].
Proof.
  apply (set_reoccuring_with_next_values Linux.kernel booted handle3 1 0 0 500 false);
    try reflexivity.
  right. discriminate.
Defined.

(** X13.  [set_reoccuring] with a float for the seconds and no next
    values arms the timer as documented: the interval and the initial
    expiration submitted are both the pair that the assignment
    [reoccuring = seconds] stores, that is the float truncated and its
    nanoseconds; whatever integer [nano_seconds] is, the call is the
    same. *)
Theorem set_reoccuring_with_float_seconds (K : Kernel) (st : kstate K) (self : Timerfd.t)
  (s : bool) (m : positive) (e : Z) (nano_seconds : Z) (absolute : bool)
  (stored : TimerSpec.t) :
  in_int (Timerfd._fd self) = true ->
  valid_binary F64.prec F64.emax (S754_finite s m e) = true ->
  TimerSpec.reoccuring_setter zeroed (PyFloat (S754_finite s m e)) = Ret stored ->
  in_long nano_seconds = true ->
  let period := it_interval (TimerSpec._timerspec stored) in
  calls_of (run K (Timerfd.set_reoccuring self (PyFloat (S754_finite s m e))
                     (PyInt nano_seconds) (PyInt 0) (PyInt 0) absolute) st) =
    [Ev (C_timerfd_settime (Timerfd._fd self) (if absolute then TFD_TIMER_ABSTIME else 0)
           {| it_interval := period; it_value := period |})] /\
  tv_sec period = F64.trunc s m e /\
  exists n : Z, 0 <= n <= 1000000000 /\ tv_nsec period = cond_Zopp s n.
Proof.
  intros Hfd Hv Hst Hn period.
  destruct (float_setter_finite s m e Hv) as (n & Hn' & Hset).
  assert (Hl : in_long (F64.trunc s m e) = true).
  { rewrite (proj1 (Hset _)) in Hst. cbn [to_c_long] in Hst.
    destruct (in_long (F64.trunc s m e)); [reflexivity|discriminate Hst]. }
  assert (Hp : period = {| tv_sec := F64.trunc s m e; tv_nsec := cond_Zopp s n |}).
  { unfold period. rewrite (proj1 (Hset _)) in Hst. cbn [to_c_long] in Hst.
    rewrite Hl in Hst. cbn [bind] in Hst. injection Hst as <-. reflexivity. }
  rewrite Hp. cbn [tv_sec tv_nsec]. split; [|split; [reflexivity|eauto]].
  unfold Timerfd.set_reoccuring. rewrite TimerSpec_new_eq. cbn [bind].
  change (TimerSpec.setattr ?t "reoccuring_nano" ?v)
    with (Ret {| TimerSpec._timerspec := TimerSpec._timerspec t;
                 TimerSpec.attrs := <["reoccuring_nano" := v]> (TimerSpec.attrs t) |}).
  cbn [bind]. rewrite setattr_reoccuring, (proj1 (Hset _)).
  cbn [to_c_long]. rewrite Hl. cbn [bind].
  change (truthy (py_or (PyInt 0) (PyInt 0))) with false. cbv iota.
  rewrite one_off_setter_int by exact Hn. cbn [bind].
  rewrite setattr_one_off, (proj2 (Hset _)).
  cbn [to_c_long]. rewrite Hl. cbn [bind].
  rewrite update_calls by exact Hfd. reflexivity.
Qed.

(** [set_reoccuring(0.5, 7)] submits half a second twice; the 7 is not in
    the call. *)
Lemma set_reoccuring_with_float_seconds_witness :
  calls_of (run Linux.kernel
              (Timerfd.set_reoccuring handle3 (PyFloat f_0_5) (PyInt 7) (PyInt 0) (PyInt 0)
                 false) booted) =
    [Ev (C_timerfd_settime 3 0
           {| it_interval := {| tv_sec := 0; tv_nsec := 500000000 |};
              it_value := {| tv_sec := 0; tv_nsec := 500000000 |} |})].
Proof.
  apply (set_reoccuring_with_float_seconds Linux.kernel booted handle3 false
           4503599627370496 (-53) 7 false
           {| TimerSpec._timerspec :=
                {| it_interval := {| tv_sec := 0; tv_nsec := 500000000 |};
                   it_value := timespec_zero |};
              TimerSpec.attrs := ∅ |}); reflexivity.
Defined.

(** X14.  [set_one_off] arms the timer by [nano_seconds] alone, whatever
    the seconds are: for every value of [seconds] that the [one_off] setter
    stores, a float included, the structure submitted has a zero interval
    and the initial expiration [{nano_seconds, 0}]. *)
Theorem set_one_off_ignores_seconds (K : Kernel) (st : kstate K) (self : Timerfd.t)
  (seconds : pyval) (nano_seconds : Z) (absolute : bool) (stored : TimerSpec.t) :
  in_int (Timerfd._fd self) = true ->
  TimerSpec.one_off_setter zeroed seconds = Ret stored ->
  in_long nano_seconds = true ->
  calls_of (run K (Timerfd.set_one_off self seconds (PyInt nano_seconds) absolute) st) =
    [Ev (C_timerfd_settime (Timerfd._fd self) (if absolute then TFD_TIMER_ABSTIME else 0)
           {| it_interval := timespec_zero;
              it_value := {| tv_sec := nano_seconds; tv_nsec := 0 |} |})].
Proof.
  intros Hfd Hacc Hn. unfold Timerfd.set_one_off. rewrite TimerSpec_new_eq. cbn [bind].
  fold zeroed. rewrite setattr_one_off, Hacc. cbn [bind].
  assert (Hi : it_interval (TimerSpec._timerspec stored) = timespec_zero).
  { destruct (float_setter_cases seconds) as [(ex & Hex)|(ts & Hts)].
    - rewrite (proj2 (Hex _)) in Hacc. discriminate.
    - rewrite (proj2 (Hts _)) in Hacc. injection Hacc as <-. reflexivity. }
  rewrite one_off_setter_int by exact Hn. cbn [bind].
  rewrite update_calls by exact Hfd. cbn [TimerSpec._timerspec]. rewrite Hi. reflexivity.
Qed.

(** [set_one_off(0.5)] submits a zero initial expiration, which disarms
    the timer. *)
Lemma set_one_off_ignores_seconds_witness :
  calls_of (run Linux.kernel (Timerfd.set_one_off handle3 (PyFloat f_0_5) (PyInt 0) false)
              armed) =
    [Ev (C_timerfd_settime 3 0 {| it_interval := timespec_zero; it_value := timespec_zero |})].
Proof.
  apply (set_one_off_ignores_seconds Linux.kernel armed handle3 (PyFloat f_0_5) 0 false
           {| TimerSpec._timerspec :=
                {| it_interval := timespec_zero;
                   it_value := {| tv_sec := 0; tv_nsec := 500000000 |} |};
              TimerSpec.attrs := ∅ |}); reflexivity.
Defined.

(** ** class Timerfd on the Linux model *)

Lemma find_all_false {A : Type} (f : A -> bool) (l : list A) :
  (forall x, In x l -> f x = false) -> find f l = None.
Proof.
  induction l as [|a l IH]; intros H; [reflexivity|]. cbn [find].
  rewrite (H a) by (left; reflexivity). apply IH. intros x Hx. apply H. right. exact Hx.
Qed.

Lemma in_seqZ (m n k : Z) : In k (seqZ m n) <-> m <= k < m + n.
Proof. rewrite <- elem_of_seqZ. symmetry. apply list_elem_of_In. Qed.

Lemma settled_free (st : Linux.state) (fd : Z) :
  Linux.files (Linux.settle st) !! fd = None <-> Linux.files st !! fd = None.
Proof.
  rewrite settle_lookup. destruct (Linux.files st !! fd); cbn; split; congruence.
Qed.

Lemma create_flags (flags : Z) :
  In flags [0; TFD_NONBLOCK; TFD_CLOEXEC; Z.lor TFD_NONBLOCK TFD_CLOEXEC] ->
  in_int flags = true /\
  negb (Z.land flags (Z.lnot (Z.lor TFD_CLOEXEC TFD_NONBLOCK)) =? 0) = false.
Proof.
  cbn [In]. intros [<-|[<-|[<-|[<-|[]]]]]; split; reflexivity.
Qed.

Lemma create_clock (clock_type : Z) :
  clock_type = CLOCK_REALTIME \/ clock_type = CLOCK_MONOTONIC ->
  in_int clock_type = true /\
  negb (existsb (Z.eqb clock_type) Linux.timer_clocks) = false.
Proof. intros [->| ->]; split; reflexivity. Qed.

(** A valid [timespec] below [KTIME_SEC_MAX] seconds is kept as it is. *)
Lemma to_ns_exact (ts : timespec) :
  Linux.timespec_valid ts = true -> tv_sec ts < 9223372036 ->
  Linux.to_ns ts = (Z.to_N (tv_sec ts) * 1000000000 + Z.to_N (tv_nsec ts))%N /\
  (Linux.to_ns ts / 1000000000 = Z.to_N (tv_sec ts))%N /\
  (Linux.to_ns ts mod 1000000000 = Z.to_N (tv_nsec ts))%N /\
  (Linux.to_ns ts < Linux.KTIME_MAX)%N.
Proof.
  destruct ts as [s n]. unfold Linux.timespec_valid. cbn [tv_sec tv_nsec].
  rewrite !andb_true_iff, !Z.leb_le, Z.ltb_lt. intros [[Hs Hn] Hlt] Hmax.
  assert (Hd : ((Z.to_N s * 1000000000 + Z.to_N n) / 1000000000 = Z.to_N s)%N).
  { symmetry. apply (N.div_unique _ _ _ (Z.to_N n)); lia. }
  assert (Hm : ((Z.to_N s * 1000000000 + Z.to_N n) mod 1000000000 = Z.to_N n)%N).
  { symmetry. apply (N.mod_unique _ _ (Z.to_N s)); lia. }
  assert (He : Linux.to_ns {| tv_sec := s; tv_nsec := n |} =
               (Z.to_N s * 1000000000 + Z.to_N n)%N).
  { unfold Linux.to_ns, Linux.ktime, Linux.NSEC_PER_SEC, Linux.KTIME_SEC_MAX.
    cbn [tv_sec tv_nsec]. rewrite Hd.
    replace (9223372036 <=? Z.to_N s)%N with false by (symmetry; apply N.leb_gt; lia).
    reflexivity. }
  rewrite He. unfold Linux.KTIME_MAX. repeat split; try assumption. lia.
Qed.

Lemma of_ns_to_ns (ts : timespec) :
  Linux.timespec_valid ts = true -> tv_sec ts < 9223372036 ->
  Linux.of_ns (Linux.to_ns ts) = ts.
Proof.
  intros Hv Hmax. destruct (to_ns_exact ts Hv Hmax) as (_ & Hd & Hm & _).
  unfold Linux.of_ns, Linux.NSEC_PER_SEC. rewrite Hd, Hm.
  destruct ts as [s n]. unfold Linux.timespec_valid in Hv. cbn [tv_sec tv_nsec] in *.
  rewrite !andb_true_iff, !Z.leb_le, Z.ltb_lt in Hv.
  rewrite !Z2N.id by lia. reflexivity.
Qed.

Lemma ktime_to_ns (ts : timespec) : Linux.ktime (Linux.to_ns ts) = Linux.to_ns ts.
Proof. unfold Linux.to_ns. apply ktime_idem. Qed.

(** The kernel settles the due expirations before it answers, so a state
    and its settled form are answered alike. *)
Lemma answer_settled (X : Type) (c : sysE X) (st : Linux.state) :
  kcall Linux.kernel X c (Linux.settle st) = kcall Linux.kernel X c st.
Proof. cbn [kcall Linux.kernel]. unfold Linux.answer. rewrite settle_idem. reflexivity. Qed.

(** [wait] on a timer with nothing to report, armed for a later time [e]:
    it returns 1 at time [e], and a periodic timer is then due an interval
    later. *)
Lemma wait_step (st : Linux.state) (self : Timerfd.t) (t : Linux.ktimer) (e : N) :
  0 <= Timerfd._fd self < FD_SETSIZE ->
  Linux.files st !! Timerfd._fd self = Some (Linux.KTimer t) ->
  Linux.kt_ticks t = 0%N -> Linux.kt_expiry t = Some e -> (Linux.now st < e)%N ->
  (e + Linux.kt_interval t <= Linux.KTIME_MAX)%N ->
  exists st' : Linux.state,
    run Linux.kernel (Timerfd.wait self) st =
      (Returns 1, st',
       [Ev (select_select [Timerfd._fd self]); Ev (os_read (Timerfd._fd self) 8)]) /\
    Linux.now st' = e /\
    Linux.files st' !! Timerfd._fd self =
      Some (Linux.KTimer
              {| Linux.kt_clockid := Linux.kt_clockid t;
                 Linux.kt_nonblock := Linux.kt_nonblock t;
                 Linux.kt_interval := Linux.kt_interval t;
                 Linux.kt_expiry := if (Linux.kt_interval t =? 0)%N then None
                                    else Some (e + Linux.kt_interval t)%N;
                 Linux.kt_ticks := 0 |}).
Proof.
  intros Hfd H Hticks He Hnow Hmax.
  assert (Hst : Linux.catch_up (Linux.now st) t = t).
  { apply catch_up_stable. rewrite He. exact Hnow. }
  assert (Hp : Linux.pending t = 0%N) by (unfold Linux.pending; rewrite Hticks; reflexivity).
  destruct (answer_select_wait st (Timerfd._fd self) t e Hfd H) as [ready Hsel].
  { rewrite Hst. exact Hp. }
  { rewrite Hst. exact He. }
  set (st1 := Linux.settle (Linux.set_now (Linux.settle st) e)) in *.
  set (t1 := Linux.catch_up e t).
  assert (H1 : Linux.files st1 !! Timerfd._fd self = Some (Linux.KTimer t1)).
  { unfold st1. rewrite settle_lookup. cbn [Linux.set_now Linux.files Linux.now].
    rewrite settle_lookup, H. cbn. rewrite Hst. reflexivity. }
  assert (Hidem : Linux.catch_up (Linux.now st1) t1 = t1) by apply catch_up_idem.
  assert (Hp1 : Linux.pending t1 = 1%N).
  { unfold Linux.pending, t1. rewrite (catch_up_at_expiry e t He), Hticks. reflexivity. }
  exists (Linux.set_file (Linux.settle st1) (Timerfd._fd self) (Linux.KTimer (Linux.reset t1))).
  split; [|split].
  - rewrite <- Hidem at 1. change 1 with (Z.of_N 1). rewrite <- Hp1. rewrite <- Hidem at 1.
    apply (wait_run_read st st1 self t1 ready Hfd Hsel H1).
    rewrite Hidem, Hp1. reflexivity.
  - reflexivity.
  - cbn [Linux.set_file Linux.files]. rewrite lookup_insert_eq. f_equal. f_equal.
    unfold t1, Linux.reset, Linux.catch_up. rewrite He, N.leb_refl.
    destruct (Linux.kt_interval t =? 0)%N; cbn [Linux.kt_clockid Linux.kt_nonblock
      Linux.kt_interval Linux.kt_expiry Linux.kt_ticks]; [reflexivity|]. cbv zeta.
    rewrite N.sub_diag, N.Div0.div_0_l. f_equal. f_equal.
    destruct (e <? Linux.KTIME_MAX)%N; lia.
Qed.

(** X15.  In a process that has a free descriptor, [Timerfd(clock_type,
    flags)] with one of the two clocks and flags among [TFD_NONBLOCK] and
    [TFD_CLOEXEC] makes one call and returns a handle: [fileno()] is a
    descriptor that was not open, now a timer of that clock that is
    disarmed; the other descriptors are untouched; the handle's own
    [TimerSpec] is zeroed; [enabled] is false; and [wait] would never
    return from its [select], or, on a descriptor of [FD_SETSIZE] or more,
    raise the [ValueError] of [select.select]. *)
Theorem Timerfd_init_gives_a_disarmed_timer (st : Linux.state) (clock_type flags free : Z) :
  clock_type = CLOCK_REALTIME \/ clock_type = CLOCK_MONOTONIC ->
  In flags [0; TFD_NONBLOCK; TFD_CLOEXEC; Z.lor TFD_NONBLOCK TFD_CLOEXEC] ->
  Linux.nofile st <= INT_MAX + 1 ->
  0 <= free < Linux.nofile st -> Linux.files st !! free = None ->
  exists (self : Timerfd.t) (st' : Linux.state),
    run Linux.kernel (Timerfd.__init__ clock_type flags) st =
      (Returns self, st', [Ev (C_timerfd_create clock_type flags)]) /\
    0 <= Timerfd.fileno self < Linux.nofile st /\
    Linux.files st !! Timerfd.fileno self = None /\
    Linux.files st' !! Timerfd.fileno self =
      Some (Linux.KTimer
              {| Linux.kt_clockid := clock_type;
                 Linux.kt_nonblock := negb (Z.land flags TFD_NONBLOCK =? 0);
                 Linux.kt_interval := 0; Linux.kt_expiry := None; Linux.kt_ticks := 0 |}) /\
    (forall fd : Z, fd <> Timerfd.fileno self ->
                    Linux.files st' !! fd = Linux.files (Linux.settle st) !! fd) /\
    Timerfd._timerspec self = zeroed /\
    outcome_of (run Linux.kernel (Timerfd.enabled self) st') = Returns false /\
    run Linux.kernel (Timerfd.wait self) st' =
      if Timerfd.fileno self <? FD_SETSIZE
      then (Blocks, st', [Ev (select_select [Timerfd.fileno self])])
      else (Raises (ValueError "filedescriptor out of range in select()"), st', []).
Proof.
  intros Hc Hf Hno Hfree Hnone.
  destruct (create_clock clock_type Hc) as [Hci Hcv].
  destruct (create_flags flags Hf) as [Hfi Hfv].
  set (free_fd := fun fd : Z => bool_decide (Linux.files (Linux.settle st) !! fd = None)).
  destruct (find free_fd (seqZ 0 (Linux.nofile (Linux.settle st)))) as [fd|] eqn:Efind.
  2:{ exfalso. pose proof (find_none _ _ Efind free) as Hx.
      assert (Hin : In free (seqZ 0 (Linux.nofile (Linux.settle st)))).
      { apply in_seqZ. cbn [Linux.settle Linux.nofile]. lia. }
      specialize (Hx Hin). unfold free_fd in Hx.
      rewrite bool_decide_eq_true_2 in Hx by (apply settled_free; exact Hnone).
      discriminate. }
  destruct (find_some _ _ Efind) as [Hin Hfd]. apply in_seqZ in Hin.
  cbn [Linux.settle Linux.nofile] in Hin.
  unfold free_fd in Hfd. apply bool_decide_eq_true_1 in Hfd.
  set (t0 := {| Linux.kt_clockid := clock_type;
                Linux.kt_nonblock := negb (Z.land flags TFD_NONBLOCK =? 0);
                Linux.kt_interval := 0; Linux.kt_expiry := None; Linux.kt_ticks := 0 |}).
  set (self := {| Timerfd._fd := fd; Timerfd._timerspec := zeroed |}).
  set (st' := Linux.set_file (Linux.settle st) fd (Linux.KTimer t0)).
  assert (Hrun : run Linux.kernel (Timerfd.__init__ clock_type flags) st =
                 (Returns self, st', [Ev (C_timerfd_create clock_type flags)])).
  { unfold Timerfd.__init__, timerfd, to_c_int. rewrite Hci, Hfi.
    cbn [bind call run kcall Linux.kernel Linux.answer].
    unfold Linux.sys_timerfd_create. rewrite Hfv, Hcv. fold free_fd. rewrite Efind.
    cbn [bind]. replace (fd <? 0) with false by (symmetry; apply Z.ltb_ge; lia).
    rewrite TimerSpec_new_eq. reflexivity. }
  assert (Hfdi : in_int (Timerfd._fd self) = true).
  { unfold in_int, INT_MIN, INT_MAX in *. cbn [Timerfd._fd self].
    apply andb_true_iff. rewrite !Z.leb_le. lia. }
  assert (Hl : Linux.files st' !! Timerfd._fd self = Some (Linux.KTimer t0))
    by apply lookup_insert_eq.
  exists self, st'. split; [exact Hrun|].
  split; [exact Hin|]. split; [apply settled_free; exact Hfd|]. split; [exact Hl|].
  split; [|split; [reflexivity|split]].
  - intros fd' Hne. unfold st'. cbn [Linux.set_file Linux.files].
    apply lookup_insert_ne. cbn [Timerfd.fileno Timerfd._fd self] in Hne. congruence.
  - unfold Timerfd.enabled. rewrite run_bind, (get_current_run st' self t0 Hfdi Hl).
    reflexivity.
  - cbn [Timerfd.fileno Timerfd._fd self]. unfold Timerfd.wait.
    destruct (fd <? FD_SETSIZE) eqn:Eset.
    + apply Z.ltb_lt in Eset.
      rewrite selectable_ok by (cbn [Timerfd._fd self]; lia).
      cbn [bind call run].
      rewrite (answer_select_never st' _ t0); [reflexivity| |exact Hl|reflexivity|reflexivity].
      cbn [Timerfd._fd self]. lia.
    + apply Z.ltb_ge in Eset. unfold selectable. rewrite Hfdi. cbn [negb Timerfd._fd self].
      replace (fd <? 0) with false by (symmetry; apply Z.ltb_ge; lia).
      replace (FD_SETSIZE <=? fd) with true by (symmetry; apply Z.leb_le; lia).
      reflexivity.
Qed.

(** [Timerfd(CLOCK_MONOTONIC, TFD_NONBLOCK)] in [Linux.boot], where
    descriptor 7 is one of the free ones. *)
Lemma Timerfd_init_gives_a_disarmed_timer_witness :
  exists (self : Timerfd.t) (st' : Linux.state),
    run Linux.kernel (Timerfd.__init__ CLOCK_MONOTONIC TFD_NONBLOCK) Linux.boot =
      (Returns self, st', [Ev (C_timerfd_create CLOCK_MONOTONIC TFD_NONBLOCK)]) /\
    0 <= Timerfd.fileno self < Linux.nofile Linux.boot /\
    Linux.files Linux.boot !! Timerfd.fileno self = None /\
    Linux.files st' !! Timerfd.fileno self =
      Some (Linux.KTimer
              {| Linux.kt_clockid := CLOCK_MONOTONIC;
                 Linux.kt_nonblock := negb (Z.land TFD_NONBLOCK TFD_NONBLOCK =? 0);
                 Linux.kt_interval := 0; Linux.kt_expiry := None; Linux.kt_ticks := 0 |}) /\
    (forall fd : Z, fd <> Timerfd.fileno self ->
                    Linux.files st' !! fd = Linux.files (Linux.settle Linux.boot) !! fd) /\
    Timerfd._timerspec self = zeroed /\
    outcome_of (run Linux.kernel (Timerfd.enabled self) st') = Returns false /\
    run Linux.kernel (Timerfd.wait self) st' =
      if Timerfd.fileno self <? FD_SETSIZE
      then (Blocks, st', [Ev (select_select [Timerfd.fileno self])])
      else (Raises (ValueError "filedescriptor out of range in select()"), st', []).
Proof.
  apply (Timerfd_init_gives_a_disarmed_timer Linux.boot CLOCK_MONOTONIC TFD_NONBLOCK 7).
  - right. reflexivity.
  - cbn [In]. right. left. reflexivity.
  - vm_compute. discriminate.
  - vm_compute. split; [discriminate|reflexivity].
  - reflexivity.
Defined.

(** X16.  When every descriptor of the process is in use, [Timerfd(...)]
    raises [OSError("Max per process FD limit reached")] after its one
    call: no handle exists, and the open files are as before. *)
Theorem Timerfd_init_without_a_free_descriptor (st : Linux.state) (clock_type flags : Z) :
  clock_type = CLOCK_REALTIME \/ clock_type = CLOCK_MONOTONIC ->
  In flags [0; TFD_NONBLOCK; TFD_CLOEXEC; Z.lor TFD_NONBLOCK TFD_CLOEXEC] ->
  (forall fd : Z, 0 <= fd < Linux.nofile st -> Linux.files st !! fd <> None) ->
  run Linux.kernel (Timerfd.__init__ clock_type flags) st =
    (Raises (OSError "Max per process FD limit reached"), Linux.settle st,
     [Ev (C_timerfd_create clock_type flags)]).
Proof.
  intros Hc Hf Hfull.
  destruct (create_clock clock_type Hc) as [Hci Hcv].
  destruct (create_flags flags Hf) as [Hfi Hfv].
  unfold Timerfd.__init__, timerfd, to_c_int. rewrite Hci, Hfi.
  cbn [bind call run kcall Linux.kernel Linux.answer].
  unfold Linux.sys_timerfd_create. rewrite Hfv, Hcv.
  rewrite find_all_false; [reflexivity|].
  intros fd Hin. apply in_seqZ in Hin. cbn [Linux.settle Linux.nofile] in Hin.
  apply bool_decide_eq_false_2. rewrite settled_free. apply Hfull. lia.
Qed.

Lemma Timerfd_init_without_a_free_descriptor_witness :
  run Linux.kernel (Timerfd.__init__ CLOCK_REALTIME 0) exhausted =
    (Raises (OSError "Max per process FD limit reached"), Linux.settle exhausted,
     [Ev (C_timerfd_create CLOCK_REALTIME 0)]).
Proof.
  apply (Timerfd_init_without_a_free_descriptor exhausted CLOCK_REALTIME 0).
  - left. reflexivity.
  - cbn [In]. left. reflexivity.
  - intros fd Hfd. cbn [Linux.nofile exhausted] in Hfd.
    assert (fd = 0 \/ fd = 1 \/ fd = 2) as [->|[->| ->]] by lia; discriminate.
Defined.

(** X17.  [get_current] only looks: it makes one call, returns, and
    leaves the kernel in a state that answers every later call as the
    state before would have; no expiration is consumed and the timer is
    not re-armed. *)
Theorem get_current_changes_nothing (st : Linux.state) (self : Timerfd.t) (t : Linux.ktimer) :
  in_int (Timerfd._fd self) = true ->
  Linux.files st !! Timerfd._fd self = Some (Linux.KTimer t) ->
  exists (ts : TimerSpec.t) (st' : Linux.state),
    run Linux.kernel (Timerfd.get_current self) st =
      (Returns ts, st', [Ev (C_timerfd_gettime (Timerfd._fd self))]) /\
    Linux.now st' = Linux.now st /\
    forall (X : Type) (c : sysE X),
      kcall Linux.kernel X c st' = kcall Linux.kernel X c st.
Proof.
  intros Hfd H. eexists. exists (Linux.settle st).
  split; [apply (get_current_run st self t Hfd H)|]. split; [reflexivity|].
  intros X c. apply answer_settled.
Qed.

Lemma get_current_changes_nothing_witness :
  exists (ts : TimerSpec.t) (st' : Linux.state),
    run Linux.kernel (Timerfd.get_current handle3) armed =
      (Returns ts, st', [Ev (C_timerfd_gettime 3)]) /\
    Linux.now st' = Linux.now armed /\
    forall (X : Type) (c : sysE X),
      kcall Linux.kernel X c st' = kcall Linux.kernel X c armed.
Proof.
  apply (get_current_changes_nothing armed handle3 timer_armed); reflexivity.
Defined.

(** X18.  What is set is what is read, as long as the times fit the
    kernel's clock: after [_update] has armed the timer with a valid
    specification, relative to now, whose interval is below [KTIME_SEC_MAX]
    seconds and whose expiration lies before [KTIME_MAX], [get_current]
    (before any time passes) returns that very structure, and [_update]
    itself returned the setting that was in force before.  (Beyond these
    bounds the kernel keeps [KTIME_MAX], and another structure is read.) *)
Theorem get_current_after_update (st : Linux.state) (self : Timerfd.t) (ts : TimerSpec.t)
  (t : Linux.ktimer) :
  in_int (Timerfd._fd self) = true ->
  Linux.files st !! Timerfd._fd self = Some (Linux.KTimer t) ->
  Linux.timespec_valid (it_value (TimerSpec._timerspec ts)) = true ->
  Linux.timespec_valid (it_interval (TimerSpec._timerspec ts)) = true ->
  tv_sec (it_interval (TimerSpec._timerspec ts)) < 9223372036 ->
  (Linux.now st + Linux.to_ns (it_value (TimerSpec._timerspec ts)) < Linux.KTIME_MAX)%N ->
  let r := run Linux.kernel
             (old <- Timerfd._update self ts false ;;
              cur <- Timerfd.get_current self ;;
              Ret (old, cur)) st in
  outcome_of r =
    Returns ({| TimerSpec._timerspec :=
                  Linux.current (Linux.now st) (Linux.catch_up (Linux.now st) t);
                TimerSpec.attrs := ∅ |},
             {| TimerSpec._timerspec := TimerSpec._timerspec ts; TimerSpec.attrs := ∅ |}) /\
  calls_of r =
    [Ev (C_timerfd_settime (Timerfd._fd self) 0 (TimerSpec._timerspec ts));
     Ev (C_timerfd_gettime (Timerfd._fd self))].
Proof.
  intros Hfd H Hv Hi Himax Hvmax r. unfold r.
  rewrite run_bind, (update_run st self ts false t Hfd H Hv Hi). cbv zeta.
  set (t' := Linux.catch_up (Linux.now st) t).
  set (t2 := Linux.arm (Linux.now st) 0 (TimerSpec._timerspec ts) t').
  set (st2 := Linux.set_file (Linux.settle st) (Timerfd._fd self) (Linux.KTimer t2)).
  assert (H2 : Linux.files st2 !! Timerfd._fd self = Some (Linux.KTimer t2))
    by apply lookup_insert_eq.
  rewrite run_bind, (get_current_run st2 self t2 Hfd H2). cbn [run app].
  assert (Hsec : tv_sec (it_value (TimerSpec._timerspec ts)) < 9223372036).
  { destruct (Z_lt_dec (tv_sec (it_value (TimerSpec._timerspec ts))) 9223372036)
      as [Hlt|Hge]; [exact Hlt|exfalso].
    assert (Hsat : Linux.to_ns (it_value (TimerSpec._timerspec ts)) = Linux.KTIME_MAX).
    { destruct (it_value (TimerSpec._timerspec ts)) as [sec nsec].
      unfold Linux.timespec_valid in Hv. cbn [tv_sec tv_nsec] in *.
      rewrite !andb_true_iff, !Z.leb_le, Z.ltb_lt in Hv.
      unfold Linux.to_ns, Linux.ktime, Linux.NSEC_PER_SEC, Linux.KTIME_SEC_MAX.
      cbn [tv_sec tv_nsec].
      assert (Hd : ((Z.to_N sec * 1000000000 + Z.to_N nsec) / 1000000000 = Z.to_N sec)%N).
      { symmetry. apply (N.div_unique _ _ _ (Z.to_N nsec)); lia. }
      rewrite Hd.
      replace (9223372036 <=? Z.to_N sec)%N with true by (symmetry; apply N.leb_le; lia).
      reflexivity. }
    rewrite Hsat in Hvmax. lia. }
  assert (Hmin : N.min Linux.KTIME_MAX
                   (Linux.now st + Linux.to_ns (it_value (TimerSpec._timerspec ts))) =
                 (Linux.now st + Linux.to_ns (it_value (TimerSpec._timerspec ts)))%N)
    by lia.
  assert (Hst : Linux.catch_up (Linux.now st2) t2 = t2).
  { apply catch_up_stable. unfold t2, Linux.arm. cbn [Linux.kt_expiry].
    destruct (Linux.to_ns (it_value (TimerSpec._timerspec ts)) =? 0)%N eqn:E; [exact I|].
    apply N.eqb_neq in E. change (Linux.now st2) with (Linux.now st).
    change (negb (Z.land 0 TFD_TIMER_ABSTIME =? 0)) with false. cbv iota.
    rewrite Hmin. lia. }
  rewrite Hst.
  assert (Hcur : Linux.current (Linux.now st2) t2 = TimerSpec._timerspec ts).
  { unfold Linux.current, t2, Linux.arm. cbn [Linux.kt_interval Linux.kt_expiry].
    rewrite ktime_to_ns, of_ns_to_ns by assumption.
    destruct (TimerSpec._timerspec ts) as [i v]. cbn [it_value it_interval] in *. f_equal.
    destruct (Linux.to_ns v =? 0)%N eqn:E.
    - apply N.eqb_eq in E. rewrite <- E. apply of_ns_to_ns; assumption.
    - change (negb (Z.land 0 TFD_TIMER_ABSTIME =? 0)) with false. cbv iota.
      rewrite Hmin.
      replace (Linux.now st2) with (Linux.now st) by reflexivity.
      replace (Linux.now st + Linux.to_ns v - Linux.now st)%N with (Linux.to_ns v) by lia.
      apply of_ns_to_ns; assumption. }
  rewrite Hcur. split; reflexivity.
Qed.

(** The timer of [armed] armed anew: 1.000000001 s, then every 0.25 s. *)
Lemma get_current_after_update_witness :
  let spec := {| it_interval := {| tv_sec := 0; tv_nsec := 250000000 |};
                 it_value := {| tv_sec := 1; tv_nsec := 1 |} |} in
  let r := run Linux.kernel
             (old <- Timerfd._update handle3
                       {| TimerSpec._timerspec := spec; TimerSpec.attrs := ∅ |} false ;;
              cur <- Timerfd.get_current handle3 ;;
              Ret (old, cur)) armed in
  outcome_of r =
    Returns ({| TimerSpec._timerspec :=
                  {| it_interval := {| tv_sec := 1; tv_nsec := 500000000 |};
                     it_value := {| tv_sec := 2; tv_nsec := 0 |} |};
                TimerSpec.attrs := ∅ |},
             {| TimerSpec._timerspec := spec; TimerSpec.attrs := ∅ |}) /\
  calls_of r = [Ev (C_timerfd_settime 3 0 spec); Ev (C_timerfd_gettime 3)].
Proof.
  intros spec.
  apply (get_current_after_update armed handle3
           {| TimerSpec._timerspec := spec; TimerSpec.attrs := ∅ |} timer_armed); reflexivity.
Defined.

(** Beyond the bounds the kernel keeps [KTIME_MAX]: an interval and an
    initial expiration of 10,000,000,000 s, set 5 s after the clock's
    origin, are read back as [KTIME_MAX] and the time left until it. *)
Lemma update_beyond_KTIME_MAX :
  let spec := {| it_interval := {| tv_sec := 10000000000; tv_nsec := 0 |};
                 it_value := {| tv_sec := 10000000000; tv_nsec := 0 |} |} in
  outcome_of (run Linux.kernel
                (Timerfd._update handle3
                   {| TimerSpec._timerspec := spec; TimerSpec.attrs := ∅ |} false ;;
                 Timerfd.get_current handle3)
                (Linux.elapse 5000000000 booted)) =
    Returns {| TimerSpec._timerspec :=
                 {| it_interval := {| tv_sec := 9223372036; tv_nsec := 854775807 |};
                    it_value := {| tv_sec := 9223372031; tv_nsec := 854775807 |} |};
               TimerSpec.attrs := ∅ |}.
Proof. vm_compute. reflexivity. Qed.

(** X19.  [Timerfd.enabled] is true exactly when the kernel's timer is
    armed, that is when an expiration lies ahead (one that has passed
    counts no more for a timer without a period), and [disabled] is its
    negation; each makes one [timerfd_gettime] call.  The expiration is
    taken to lie within the first [2 ^ 63] nanoseconds of the clock. *)
Theorem enabled_iff_the_timer_is_armed (st : Linux.state) (self : Timerfd.t) (t : Linux.ktimer) :
  in_int (Timerfd._fd self) = true ->
  Linux.files st !! Timerfd._fd self = Some (Linux.KTimer t) ->
  match Linux.kt_expiry (Linux.catch_up (Linux.now st) t) with
  | Some e => (e < 2 ^ 63)%N
  | None => True
  end ->
  let is_armed := match Linux.kt_expiry (Linux.catch_up (Linux.now st) t) with
               | Some _ => true
               | None => false
               end in
  run Linux.kernel (Timerfd.enabled self) st =
    (Returns is_armed, Linux.settle st, [Ev (C_timerfd_gettime (Timerfd._fd self))]) /\
  run Linux.kernel (Timerfd.disabled self) st =
    (Returns (negb is_armed), Linux.settle st, [Ev (C_timerfd_gettime (Timerfd._fd self))]).
Proof.
  intros Hfd H Hb is_armed.
  set (t' := Linux.catch_up (Linux.now st) t) in *.
  set (ts := {| TimerSpec._timerspec := Linux.current (Linux.now st) t';
                TimerSpec.attrs := ∅ |}).
  assert (Hen : TimerSpec.enabled ts = Ret is_armed).
  { pose proof (catch_up_future (Linux.now st) t) as Hf. fold t' in Hf.
    unfold is_armed. destruct (Linux.kt_expiry t') as [e|] eqn:He.
    - pose proof (N.div_mod (e - Linux.now st) 1000000000 ltac:(discriminate)) as Hdm.
      pose proof (N.mod_lt (e - Linux.now st) 1000000000 ltac:(discriminate)) as Hlt.
      assert (Hval : it_value (Linux.current (Linux.now st) t') =
                     {| tv_sec := Z.of_N ((e - Linux.now st) / 1000000000);
                        tv_nsec := Z.of_N ((e - Linux.now st) mod 1000000000) |}).
      { unfold Linux.current. cbn [it_value]. rewrite He. reflexivity. }
      destruct (one_off_value ts) as (f & Hone & Hz).
      + unfold ts, TimerSpec.one_off_seconds. cbn [TimerSpec._timerspec]. rewrite Hval.
        cbn [tv_sec]. unfold LONG_MAX.
        generalize dependent ((e - Linux.now st) mod 1000000000)%N.
        generalize dependent ((e - Linux.now st) / 1000000000)%N. intros; lia.
      + unfold ts, TimerSpec.one_off_nano_seconds. cbn [TimerSpec._timerspec]. rewrite Hval.
        cbn [tv_nsec]. unfold LONG_MAX.
        generalize dependent ((e - Linux.now st) mod 1000000000)%N. intros; lia.
      + unfold TimerSpec.enabled, TimerSpec.__bool__. rewrite Hone. cbn [bind].
        rewrite Hz.
        replace ((TimerSpec.one_off_seconds ts =? 0) && (TimerSpec.one_off_nano_seconds ts =? 0))
          with false; [reflexivity|].
        symmetry. apply andb_false_iff.
        unfold ts, TimerSpec.one_off_seconds, TimerSpec.one_off_nano_seconds.
        cbn [TimerSpec._timerspec]. rewrite Hval. cbn [tv_sec tv_nsec].
        rewrite !Z.eqb_neq.
        generalize dependent ((e - Linux.now st) mod 1000000000)%N.
        generalize dependent ((e - Linux.now st) / 1000000000)%N. intros; lia.
    - apply enabled_zero. unfold ts, Linux.current. cbn [TimerSpec._timerspec it_value].
      rewrite He. reflexivity. }
  unfold Timerfd.disabled, Timerfd.enabled.
  rewrite !run_bind, (get_current_run st self t Hfd H). fold t' ts. rewrite Hen.
  split; reflexivity.
Qed.

(** On [armed] the timer is enabled, on [booted] it is not. *)
Lemma enabled_iff_the_timer_is_armed_witness :
  (outcome_of (run Linux.kernel (Timerfd.enabled handle3) armed) = Returns true /\
   outcome_of (run Linux.kernel (Timerfd.disabled handle3) armed) = Returns false) /\
  (outcome_of (run Linux.kernel (Timerfd.enabled handle3) booted) = Returns false /\
   outcome_of (run Linux.kernel (Timerfd.disabled handle3) booted) = Returns true).
Proof.
  pose proof (enabled_iff_the_timer_is_armed armed handle3 timer_armed
                eq_refl eq_refl eq_refl) as [Ha Ha'].
  pose proof (enabled_iff_the_timer_is_armed booted handle3 timer_disarmed
                eq_refl eq_refl I) as [Hb Hb'].
  unfold outcome_of. rewrite Ha, Ha', Hb, Hb'. repeat split.
Defined.

(** X20.  A periodic timer keeps its schedule: on a descriptor that
    [select] takes, with a timer that has nothing to report, a period
    [i > 0] and the next expiration at a later time [e], [k + 1] calls of
    [wait] in a row (the loop of [_main] makes five) each return 1, the
    last one at time [e + k * i]; every [wait] is one [select] and one
    read.  The schedule, up to the expiration after the last [wait], is
    taken to lie within the times of the kernel, up to [KTIME_MAX]. *)
Theorem periodic_waits_return_one (k : nat) (st : Linux.state) (self : Timerfd.t)
  (t : Linux.ktimer) (e : N) :
  0 <= Timerfd._fd self < FD_SETSIZE ->
  Linux.files st !! Timerfd._fd self = Some (Linux.KTimer t) ->
  Linux.kt_ticks t = 0%N -> Linux.kt_expiry t = Some e -> (Linux.now st < e)%N ->
  (0 < Linux.kt_interval t)%N ->
  (e + N.of_nat (S k) * Linux.kt_interval t <= Linux.KTIME_MAX)%N ->
  let r := run Linux.kernel (waits self (S k)) st in
  outcome_of r = Returns (repeat 1 (S k)) /\
  Linux.now (snd (fst r)) = (e + N.of_nat k * Linux.kt_interval t)%N /\
  length (calls_of r) = (2 * S k)%nat.
Proof.
  intros Hfd. revert st t e.
  induction k as [|k IH]; intros st t e H Hticks He Hnow Hi Hmax r.
  - destruct (wait_step st self t e Hfd H Hticks He Hnow ltac:(lia))
      as (st' & Hrun & Hn & _).
    unfold r. cbn [waits]. rewrite run_bind, Hrun. cbn. repeat split. lia.
  - destruct (wait_step st self t e Hfd H Hticks He Hnow ltac:(lia))
      as (st' & Hrun & Hn & Hf).
    replace (Linux.kt_interval t =? 0)%N with false in Hf
      by (symmetry; apply N.eqb_neq; lia).
    specialize (IH st' _ (e + Linux.kt_interval t)%N Hf eq_refl eq_refl ltac:(lia) Hi).
    cbn [Linux.kt_interval] in IH. specialize (IH ltac:(lia)).
    cbv zeta in IH. cbn [Linux.kt_interval] in IH.
    destruct IH as (Ho & Hnow' & Hlen).
    unfold r. change (waits self (S (S k)))
      with (n <- Timerfd.wait self ;; ns <- waits self (S k) ;; Ret (n :: ns)).
    rewrite run_bind, Hrun. rewrite run_bind.
    destruct (run Linux.kernel (waits self (S k)) st') as [[o st''] tr].
    unfold outcome_of, calls_of in *. cbn [fst snd] in *. subst o.
    cbn [run fst snd]. repeat split.
    + rewrite Hnow'. lia.
    + rewrite app_nil_r. cbn [length app]. rewrite Hlen. lia.
Qed.

(** Five waits on the timer of [armed]: the last returns after 8 s. *)
Lemma periodic_waits_return_one_witness :
  let r := run Linux.kernel (waits handle3 5) armed in
  outcome_of r = Returns [1; 1; 1; 1; 1] /\
  Linux.now (snd (fst r)) = 8000000000%N /\
  length (calls_of r) = 10%nat.
Proof.
  apply (periodic_waits_return_one 4 armed handle3 timer_armed 2000000000);
    first [reflexivity | vm_compute; split; [discriminate|reflexivity]
          | vm_compute; discriminate].
Defined.

(** X21.  A timer without a period fires once: on a descriptor that
    [select] takes, with a timer that has nothing to report, no period and
    an expiration at a later time [e] of the kernel's clock, the first
    [wait] returns 1 at time [e] and the second never returns from its
    [select]. *)
Theorem one_shot_timer_fires_once (st : Linux.state) (self : Timerfd.t) (t : Linux.ktimer)
  (e : N) :
  0 <= Timerfd._fd self < FD_SETSIZE ->
  Linux.files st !! Timerfd._fd self = Some (Linux.KTimer t) ->
  Linux.kt_ticks t = 0%N -> Linux.kt_expiry t = Some e ->
  (Linux.now st < e <= Linux.KTIME_MAX)%N ->
  Linux.kt_interval t = 0%N ->
  outcome_of (run Linux.kernel (Timerfd.wait self) st) = Returns 1 /\
  let r := run Linux.kernel (waits self 2) st in
  outcome_of r = Blocks /\
  Linux.now (snd (fst r)) = e /\
  calls_of r =
    [Ev (select_select [Timerfd._fd self]); Ev (os_read (Timerfd._fd self) 8);
     Ev (select_select [Timerfd._fd self])].
Proof.
  intros Hfd H Hticks He Hnow Hi.
  destruct (wait_step st self t e Hfd H Hticks He (proj1 Hnow) ltac:(lia))
    as (st' & Hrun & Hn & Hf).
  rewrite Hi in Hf. cbn [N.eqb] in Hf.
  split; [rewrite Hrun; reflexivity|]. intros r.
  unfold r. cbn [waits]. rewrite run_bind, Hrun, !run_bind.
  assert (Hw : run Linux.kernel (Timerfd.wait self) st' =
               (Blocks, st', [Ev (select_select [Timerfd._fd self])])).
  { unfold Timerfd.wait. rewrite (selectable_ok _ Hfd). cbn [bind call run].
    rewrite (answer_select_never st' _ _ Hfd Hf); reflexivity. }
  rewrite Hw. cbn. repeat split. exact Hn.
Qed.

Lemma one_shot_timer_fires_once_witness :
  outcome_of (run Linux.kernel (Timerfd.wait handle3) armed_once) = Returns 1 /\
  let r := run Linux.kernel (waits handle3 2) armed_once in
  outcome_of r = Blocks /\
  Linux.now (snd (fst r)) = 2000000000%N /\
  calls_of r = [Ev (select_select [3]); Ev (os_read 3 8); Ev (select_select [3])].
Proof.
  apply (one_shot_timer_fires_once armed_once handle3
           {| Linux.kt_clockid := CLOCK_REALTIME; Linux.kt_nonblock := false;
              Linux.kt_interval := 0; Linux.kt_expiry := Some 2000000000%N;
              Linux.kt_ticks := 0 |} 2000000000);
    first [reflexivity | vm_compute; split; [discriminate|reflexivity]
          | vm_compute; split; [reflexivity|discriminate]].
Defined.

(** X22.  [wait] on the Linux model, on a descriptor that [select] takes
    and that is an open timer.  When expirations are due, or the timer is
    armed, [wait] returns after one [select] and one read: the number of
    expirations the kernel has counted since the last read (1 when it had
    to wait for the next expiration), and the kernel's counter is cleared.
    When nothing is due and the timer is disarmed, [wait] never returns
    from [select]. *)
Theorem wait_on_a_timer_returns_its_count (self : Timerfd.t) (st : Linux.state) (t : Linux.ktimer) :
  0 <= Timerfd._fd self < FD_SETSIZE ->
  Linux.files st !! Timerfd._fd self = Some (Linux.KTimer t) ->
  let fd := Timerfd._fd self in
  let t' := Linux.catch_up (Linux.now st) t in
  let r := run Linux.kernel (Timerfd.wait self) st in
  ((0 < Linux.pending t')%N \/ Linux.kt_expiry t' <> None ->
   exists c : Z,
     outcome_of r = Returns c /\
     c = Z.of_N (if (0 <? Linux.pending t')%N then Linux.pending t' else 1) /\
     calls_of r = [Ev (select_select [fd]); Ev (os_read fd 8)] /\
     exists t'' : Linux.ktimer,
       Linux.files (snd (fst r)) !! fd = Some (Linux.KTimer t'') /\
       Linux.kt_ticks t'' = 0%N) /\
  (Linux.pending t' = 0%N /\ Linux.kt_expiry t' = None ->
   outcome_of r = Blocks /\ calls_of r = [Ev (select_select [fd])]).
Proof.
  intros Hfd H fd t' r. split.
  - intros Hready.
    destruct (0 <? Linux.pending t')%N eqn:Ep.
    + apply N.ltb_lt in Ep.
      assert (H' : Linux.files (Linux.settle st) !! fd = Some (Linux.KTimer t'))
        by (rewrite settle_lookup; unfold fd; rewrite H; reflexivity).
      assert (Hidem : Linux.catch_up (Linux.now (Linux.settle st)) t' = t')
        by apply catch_up_idem.
      assert (Hr : r = (Returns (Z.of_N (Linux.pending t')),
                        Linux.set_file (Linux.settle (Linux.settle st)) fd
                          (Linux.KTimer (Linux.reset t')),
                        [Ev (select_select [fd]); Ev (os_read fd 8)])).
      { unfold r. rewrite <- Hidem at 1 2.
        apply (wait_run_read st (Linux.settle st) self t' [fd] Hfd).
        - apply (answer_select_ready st fd t Hfd H Ep).
        - exact H'.
        - rewrite Hidem. exact Ep. }
      rewrite Hr. exists (Z.of_N (Linux.pending t')).
      repeat split; try reflexivity.
      exists (Linux.reset t'). split; [|reflexivity].
      cbn [fst snd Linux.set_file Linux.files]. apply lookup_insert_eq.
    + apply N.ltb_ge in Ep. assert (Hp : Linux.pending t' = 0%N) by lia.
      destruct (Linux.kt_expiry t') as [e|] eqn:He; [|destruct Hready; [lia|congruence]].
      destruct (answer_select_wait st fd t e Hfd H Hp He) as [ready Hsel].
      set (st1 := Linux.settle (Linux.set_now (Linux.settle st) e)) in *.
      set (t1 := Linux.catch_up e t').
      assert (H1 : Linux.files st1 !! fd = Some (Linux.KTimer t1)).
      { unfold st1. rewrite settle_lookup. cbn [Linux.set_now Linux.files Linux.now].
        rewrite settle_lookup. unfold fd. rewrite H. reflexivity. }
      assert (Hidem : Linux.catch_up (Linux.now st1) t1 = t1) by apply catch_up_idem.
      assert (Hp1 : Linux.pending t1 = 1%N) by (apply pending_after_expiry; assumption).
      assert (Hr : r = (Returns (Z.of_N (Linux.pending t1)),
                        Linux.set_file (Linux.settle st1) fd (Linux.KTimer (Linux.reset t1)),
                        [Ev (select_select [fd]); Ev (os_read fd 8)])).
      { unfold r. rewrite <- Hidem at 1 2.
        apply (wait_run_read st st1 self t1 ready Hfd Hsel H1).
        rewrite Hidem, Hp1. reflexivity. }
      rewrite Hr, Hp1. exists 1.
      repeat split; try reflexivity.
      exists (Linux.reset t1). split; [|reflexivity].
      cbn [fst snd Linux.set_file Linux.files]. apply lookup_insert_eq.
  - intros [Hp He]. unfold r, Timerfd.wait. rewrite (selectable_ok _ Hfd).
    cbn [bind call run].
    rewrite (answer_select_never st _ t Hfd H Hp He). split; reflexivity.
Qed.

(** A timer armed by [set_reoccuring(0.5)] and left alone for 1.7 s has
    expired three times: [wait] returns 3. *)
Lemma wait_on_a_timer_returns_its_count_witness :
  let st := Linux.set_file (Linux.elapse 1700000000 Linux.boot) 3
              (Linux.KTimer {| Linux.kt_clockid := CLOCK_REALTIME; Linux.kt_nonblock := false;
                               Linux.kt_interval := 500000000;
                               Linux.kt_expiry := Some 500000000%N;
                               Linux.kt_ticks := 0 |}) in
  outcome_of (run Linux.kernel (Timerfd.wait handle3) st) = Returns 3.
Proof.
  intros st.
  pose proof (wait_on_a_timer_returns_its_count handle3 st
                {| Linux.kt_clockid := CLOCK_REALTIME; Linux.kt_nonblock := false;
                   Linux.kt_interval := 500000000; Linux.kt_expiry := Some 500000000%N;
                   Linux.kt_ticks := 0 |}) as H.
  cbv zeta in H.
  destruct H as [Hret _]; [vm_compute; split; [discriminate|reflexivity]|reflexivity|].
  destruct Hret as (c & Hc & Hval & _).
  - left. reflexivity.
  - rewrite Hc, Hval. reflexivity.
Defined.
